(** * The dynamic aggregate-query planner of [custom/db.py]

    A shallow embedding of the planning methods of class [Database]:
    [_aggregate_item], [_is_not_null], [subquery_join],
    [_ts_col_rounded_to_minutes], [_ts_col_rounded_to_hours], [query],
    [query_agg] and [query_time_agg].

    SQLAlchemy expressions and queries are embedded as syntax trees, Python
    exceptions as values of type [exn], and [logger.warning] as a log that is
    threaded through the planner monad [M]. *)

From Stdlib Require Import String Ascii ZArith List Bool Lia.
Import ListNotations.

Local Open Scope Z_scope.
Local Open Scope string_scope.

(* ================================================================== *)
(** ** Python strings *)
(* ================================================================== *)

Module PyStr.

(** Strings are handled as lists of characters for slicing. *)
Definition chars (s : string) : list ascii := list_ascii_of_string s.
Definition of_chars (l : list ascii) : string := string_of_list_ascii l.

(** [s.endswith(suffix)] *)
Definition endswith (s suffix : string) : bool :=
  let l := chars s in
  let x := chars suffix in
  (length x <=? length l)%nat
  && (of_chars (skipn (length l - length x) l) =? suffix).

(** [s[:-n]] for a positive literal [n]: everything but the last [n]
    characters, the empty string when [s] is shorter than [n]. *)
Definition slice_to_minus (n : nat) (s : string) : string :=
  let l := chars s in of_chars (firstn (length l - n) l).

(** A string is the sequence of its code points, all below 256 here. The
    characters that [int()] strips from both ends: tab to carriage return
    and the blank, and of the others NEL and the no-break space. The
    separators 28 to 31, blank to [str.isspace], are not among them. *)
Definition isspace (c : ascii) : bool :=
  let n := nat_of_ascii c in
  ((9 <=? n) && (n <=? 13) || (n =? 32) || (n =? 133) || (n =? 160))%nat.

Fixpoint lstrip (l : list ascii) : list ascii :=
  match l with
  | c :: r => if isspace c then lstrip r else l
  | [] => []
  end.

Definition strip (l : list ascii) : list ascii :=
  rev (lstrip (rev (lstrip l))).

Definition digit (c : ascii) : option Z :=
  let n := nat_of_ascii c in
  if ((48 <=? n) && (n <=? 57))%nat then Some (Z.of_nat (n - 48)) else None.

(** Decimal digits, where a single underscore may separate two digits.
    [after_digit] tells whether the previous character was a digit. *)
Fixpoint digits (acc : Z) (after_digit : bool) (l : list ascii) : option Z :=
  match l with
  | [] => if after_digit then Some acc else None
  | c :: r =>
      match digit c with
      | Some d => digits (10 * acc + d) true r
      | None =>
          if Ascii.eqb c "_" && after_digit then digits acc false r
          else None
      end
  end.

(** [int(s)] in base ten; [None] stands for the [ValueError] it raises. *)
Definition int (s : string) : option Z :=
  match strip (chars s) with
  | "+"%char :: r => digits 0 false r
  | "-"%char :: r => option_map Z.opp (digits 0 false r)
  | l => digits 0 false l
  end.

(** ['%s' % x] for an argument that may be [None]. *)
Definition str (o : option string) : string :=
  match o with
  | Some s => s
  | None => "None"
  end.

End PyStr.

(* ================================================================== *)
(** ** Exceptions, the log and the planner monad *)
(* ================================================================== *)

(** The exception classes the planner raises or lets through, each with its
    message. *)
Inductive exn : Type :=
| ValueError (msg : string)
| KeyError (msg : string)
| TypeError (msg : string)
| AttributeError (msg : string).

Inductive result (A : Type) : Type :=
| Ok (a : A)
| Raise (e : exn).
Arguments Ok {A} a.
Arguments Raise {A} e.

(** Messages handed to [logger.warning], oldest first. *)
Definition log := list string.

(** A computation reads the log so far and gives a result and the new log. *)
Definition M (A : Type) : Type := log -> result A * log.

Definition ret {A} (a : A) : M A := fun l => (Ok a, l).

Definition raise {A} (e : exn) : M A := fun l => (Raise e, l).

Definition bind {A B} (m : M A) (k : A -> M B) : M B :=
  fun l =>
    match m l with
    | (Ok a, l') => k a l'
    | (Raise e, l') => (Raise e, l')
    end.

Definition warning (msg : string) : M unit := fun l => (Ok tt, (l ++ [msg])%list).

Declare Scope planner_scope.
Delimit Scope planner_scope with planner.
Notation "x <- m ;; k" := (bind m (fun x => k))
  (at level 100, m at next level, right associativity) : planner_scope.
Notation "' p <- m ;; k" := (bind m (fun p => k))
  (at level 100, p pattern, m at next level, right associativity)
  : planner_scope.
Notation "m ;;; k" := (bind m (fun _ => k))
  (at level 100, right associativity) : planner_scope.
Local Open Scope planner_scope.

(** [for x in xs: acc = body(acc, x)] with exceptions leaving the loop. *)
Fixpoint for_each {A S} (xs : list A) (body : S -> A -> M S) (acc : S) : M S :=
  match xs with
  | [] => ret acc
  | x :: r => acc' <- body acc x ;; for_each r body acc'
  end.

(** A computation that logs nothing. *)
Definition silent {A} (m : M A) : Prop :=
  forall lg r lg', m lg = (r, lg') -> lg' = lg.

(* ================================================================== *)
(** ** Tables, column expressions, clauses and queries *)
(* ================================================================== *)

(** A reflected table: its name and the keys of its column collection
    [table.c], in table order. *)
Record Table : Type := mkTable {
  tbl_name : string;
  tbl_c : list string
}.

(** The SQL functions the planner reaches through [func]. *)
Inductive sqlfunc : Type :=
| f_count | f_max | f_avg | f_min | f_std | f_sum
| f_date | f_timestamp | f_hour | f_minute | f_add_hours | f_add_minutes
| f_day | f_this_week | f_this_month | f_this_year.

(** Column expressions. [Column t c] is the column [c] of the table or
    subquery named [t]; [Literal n] is a Python [int] bound into the
    expression; [Div] and [Mul] are the operators [/] and [*] applied to a
    column expression. *)
Inductive expr : Type :=
| Column (table column : string)
| Func1 (f : sqlfunc) (a : expr)
| Func2 (f : sqlfunc) (a b : expr)
| Literal (n : Z)
| Div (a b : expr)
| Mul (a b : expr)
| Label (e : expr) (name : string).

(** Timestamps ([datetime] values and SQL TIMESTAMPs) are counted in seconds
    from 1970-01-01 00:00:00. *)
Definition datetime := Z.

(** Boolean clauses. *)
#[local] Unset Elimination Schemes.
Inductive clause : Type :=
| IsNot_None (e : expr)
| Ge (e : expr) (v : datetime)
| Lt (e : expr) (v : datetime)
| In_ (e : expr) (vs : list string)
| Eq (a b : expr)
| or_ (cs : list clause)
| and_ (cs : list clause).
#[local] Set Elimination Schemes.

Definition mem (x : string) (l : list string) : bool :=
  existsb (String.eqb x) l.

(** [table.c[col]]; [None] stands for the [KeyError] it raises. *)
Definition getitem (t : Table) (col : string) : option expr :=
  if mem col (tbl_c t) then Some (Column (tbl_name t) col) else None.

(** [table.c[col]] where the [KeyError] is not caught. *)
Definition item (t : Table) (col : string) : M expr :=
  match getitem t col with
  | Some e => ret e
  | None => raise (KeyError col)
  end.

(** [table.c.deviceid]: attribute access on the column collection. *)
Definition deviceid (t : Table) : M expr :=
  match getitem t "deviceid" with
  | Some e => ret e
  | None => raise (AttributeError "deviceid")
  end.

(** What [session.query] is given: a whole table or a column expression. *)
Inductive entity : Type :=
| Entity_table (t : Table)
| Entity_expr (e : expr).

(** A query under construction: [session.query] on its entities, followed by
    [group_by], [join] and [filter] calls, each kept in call order. *)
Record Query : Type := mkQuery {
  q_entities : list entity;
  q_group_by : list expr;
  q_join : list (Table * clause);
  q_filter : list clause
}.

Definition session_query (args : list entity) : Query :=
  mkQuery args [] [] [].

Definition group_by (q : Query) (grp : list expr) : Query :=
  mkQuery (q_entities q) (q_group_by q ++ grp) (q_join q) (q_filter q).

Definition join (q : Query) (t : Table) (on : clause) : Query :=
  mkQuery (q_entities q) (q_group_by q) (q_join q ++ [(t, on)]) (q_filter q).

Definition filter (q : Query) (w : clause) : Query :=
  mkQuery (q_entities q) (q_group_by q) (q_join q) (q_filter q ++ [w]).

(** The database handle: the tables that reflection finds, by table name and
    schema; and the name that SQLAlchemy makes up, in a subquery of the
    session, for a selected expression that has no name of its own (such as
    [sum_1]), given the alias of the subquery, the entities selected and the
    position of the expression among them. *)
Record Database : Type := mkDatabase {
  reflect : string -> option string -> option Table;
  anon_label : string -> list entity -> nat -> string
}.

(** [get_table] for a table given by name. *)
Definition get_table (self : Database) (table_name : string)
    (schema : option string) : M Table :=
  match reflect self table_name schema with
  | Some table => ret table
  | None =>
      raise (KeyError ("Table " ++ table_name ++ " does not exist in the schema "
                       ++ PyStr.str schema ++ " "))
  end.

(* ================================================================== *)
(** ** Aggregate expressions and the not-null condition *)
(* ================================================================== *)

(** The dictionary [agg_map] of [_aggregate_item]; [None] stands for the
    [KeyError] of a missing key. *)
Definition agg_map (aggregate : string) : option sqlfunc :=
  if aggregate =? "count" then Some f_count
  else if aggregate =? "max" then Some f_max
  else if aggregate =? "mean" then Some f_avg
  else if aggregate =? "min" then Some f_min
  else if aggregate =? "std" then Some f_std
  else if aggregate =? "sum" then Some f_sum
  else None.

Definition opt_eqb (a b : option string) : bool :=
  match a, b with
  | Some x, Some y => x =? y
  | None, None => true
  | _, _ => false
  end.

(** The alias chosen by the first block of [_aggregate_item]. *)
Definition aggregate_alias (column_name aggregate : string)
    (alias_column timestamp_col : option string) : string :=
  match alias_column with
  | None =>
      if opt_eqb (Some column_name) timestamp_col then
        if aggregate =? "min" then "first_" ++ PyStr.str timestamp_col
        else if aggregate =? "max" then "last_" ++ PyStr.str timestamp_col
        else PyStr.str alias_column ++ "_" ++ PyStr.str timestamp_col
      else column_name
  | Some alias => alias
  end.

Definition _aggregate_item (table : Table) (column_name aggregate : string)
    (alias_column : option string) (dimension_table : option Table)
    (timestamp_col : option string) : M expr :=
  let alias_column :=
    aggregate_alias column_name aggregate alias_column timestamp_col in
  match agg_map aggregate with
  | None =>
      raise (ValueError ("Unsupported database aggregegate function "
                         ++ aggregate))
  | Some agg_function =>
      match getitem table column_name with
      | Some col => ret (Label (Func1 agg_function col) alias_column)
      | None =>
          let msg := "Aggregate column " ++ column_name
                     ++ " not present in table or on dimension" in
          match dimension_table with
          | None => raise (KeyError msg)
          | Some dimension_table =>
              match getitem dimension_table column_name with
              | Some col => ret (Label (Func1 agg_function col) alias_column)
              | None => raise (KeyError msg)
              end
          end
      end
  end.

(** [_is_not_null]: the [AttributeError] of a dimension that is [None] is
    caught like the [KeyError] of a column it does not have. *)
Definition _is_not_null (table : Table) (dimension_table : option Table)
    (column : string) : M clause :=
  match getitem table column with
  | Some col => ret (IsNot_None col)
  | None =>
      let msg := "Column " ++ column
                 ++ " not found on time series or dimension table." in
      match dimension_table with
      | None => raise (ValueError msg)
      | Some dimension_table =>
          match getitem dimension_table column with
          | Some col => ret (IsNot_None col)
          | None => raise (ValueError msg)
          end
      end
  end.

(** The lookup that [_aggregate_item] and [_is_not_null] both make:
    [table.c[column]] and, in the handler of its [KeyError],
    [dimension_table.c[column]]. *)
Definition table_or_dimension (table : Table) (dimension_table : option Table)
    (column : string) : option expr :=
  match getitem table column with
  | Some col => Some col
  | None =>
      match dimension_table with
      | None => None
      | Some dimension_table => getitem dimension_table column
      end
  end.

(* ================================================================== *)
(** ** Subqueries and the equi-join of two queries *)
(* ================================================================== *)

(** The name of an expression: its label, or the name of the column. A
    function call or an operator has none of its own. *)
Definition expr_key (e : expr) : option string :=
  match e with
  | Label _ name => Some name
  | Column _ column => Some column
  | _ => None
  end.

(** The keys that the entities of a query give to the column collection of
    its subquery: the columns of a table, the name of an expression, and for
    an expression without a name the one that is made up for its position
    [i]. *)
Fixpoint entity_keys (anon : nat -> string) (i : nat) (ens : list entity)
  : list string :=
  match ens with
  | [] => []
  | Entity_table t :: r => (tbl_c t ++ entity_keys anon (S i) r)%list
  | Entity_expr e :: r =>
      match expr_key e with
      | Some k => k
      | None => anon i
      end :: entity_keys anon (S i) r
  end.

(** A column collection is an ordered dictionary: a key that comes again
    keeps its first position. *)
Fixpoint ordered_keys (seen l : list string) : list string :=
  match l with
  | [] => []
  | k :: r =>
      if mem k seen then ordered_keys seen r
      else k :: ordered_keys (k :: seen) r
  end.

(** [query.subquery(name)]: its alias, the query, and the keys of its column
    collection [subquery.c], in order. *)
Record Subquery : Type := mkSubquery {
  sq_name : string;
  sq_element : Query;
  sq_c : list string
}.

Definition subquery (self : Database) (q : Query) (name : string) : Subquery :=
  mkSubquery name q
    (ordered_keys []
       (entity_keys (anon_label self name (q_entities q)) 0 (q_entities q))).

(** [subquery.c[col]], raising [KeyError]. *)
Definition sq_item (s : Subquery) (col : string) : M expr :=
  if mem col (sq_c s) then ret (Column (sq_name s) col)
  else raise (KeyError col).

(** [select(projection).select_from(left.join(right, onclause))] *)
Record Select : Type := mkSelect {
  sel_projection : list expr;
  sel_left : Subquery;
  sel_right : Subquery;
  sel_onclause : clause
}.

(** A positional argument of [subquery_join]: a common column name or a pair
    of a left and a right column name. *)
Inductive join_key : Type :=
| Key (col : string)
| KeyPair (left right : string).

(** [kwargs] are keyword arguments: a key that is the name of a parameter
    of [subquery_join] is refused at the call. *)
Definition subquery_join (self : Database) (left_query right_query : Query)
    (args : list join_key) (kwargs : list (string * string)) : M Select :=
  match
    List.find (fun ca => mem (fst ca) ["self"; "left_query"; "right_query"])
      kwargs
  with
  | Some (col, _) =>
      raise (TypeError ("subquery_join() got multiple values for argument '"
                        ++ col ++ "'"))
  | None =>
  let left_query := subquery self left_query "a" in
  let right_query := subquery self right_query "b" in
  joins <- for_each args (fun joins col =>
      match col with
      | Key col =>
          l <- sq_item left_query col ;;
          r <- sq_item right_query col ;;
          ret (joins ++ [Eq l r])%list
      | KeyPair col0 col1 =>
          l <- sq_item left_query col0 ;;
          r <- sq_item right_query col1 ;;
          ret (joins ++ [Eq l r])%list
      end) [] ;;
  ' (projection_list, covered_columns) <-
    for_each kwargs (fun '(projection_list, covered_columns) '(col, alias) =>
      r <- sq_item right_query col ;;
      ret ((projection_list ++ [Label r alias])%list,
           alias :: covered_columns)) ([], []) ;;
  let projection_list :=
    (projection_list
     ++ map (Column (sq_name left_query))
            (List.filter (fun name => negb (mem name covered_columns))
                         (sq_c left_query)))%list in
  let join_condition := and_ joins in
  ret (mkSelect projection_list left_query right_query join_condition)
  end.

(* ================================================================== *)
(** ** Time buckets *)
(* ================================================================== *)

Definition _ts_col_rounded_to_minutes (self : Database) (table_name : string)
    (schema : option string) (column_name : string) (minutes : Z)
    (label : string) : M expr :=
  a <- get_table self table_name schema ;;
  col <- item a column_name ;;
  let hour :=
    Func2 f_add_hours (Func1 f_timestamp (Func1 f_date col)) (Func1 f_hour col) in
  let min_col := Mul (Div (Func1 f_minute col) (Literal minutes)) (Literal minutes) in
  let exp := Label (Func2 f_add_minutes hour min_col) label in
  ret exp.

Definition _ts_col_rounded_to_hours (self : Database) (table_name : string)
    (schema : option string) (column_name : string) (hours : Z)
    (label : string) : M expr :=
  a <- get_table self table_name schema ;;
  col <- item a column_name ;;
  let date_col := Func1 f_timestamp (Func1 f_date col) in
  let hour_col := Mul (Div (Func1 f_hour col) (Literal hours)) (Literal hours) in
  let exp := Label (Func2 f_add_hours date_col hour_col) label in
  ret exp.

(** [int(s)] with its [ValueError]. *)
Definition int (s : string) : M Z :=
  match PyStr.int s with
  | Some n => ret n
  | None =>
      raise (ValueError ("invalid literal for int() with base 10: '" ++ s ++ "'"))
  end.

(* ================================================================== *)
(** ** [query]: the plain query on a table *)
(* ================================================================== *)

(** An argument that is one string or a list of strings. *)
Inductive names : Type :=
| Name (s : string)
| Names (l : list string).

Definition as_list (n : names) : list string :=
  match n with
  | Name s => [s]
  | Names l => l
  end.

Definition get_dimension (self : Database) (dimension schema : option string)
  : M (option Table) :=
  match dimension with
  | None => ret None
  | Some dimension => dim <- get_table self dimension schema ;; ret (Some dim)
  end.

Definition query (self : Database) (table_name : string)
    (schema : option string) (column_names : option names)
    (timestamp_col : option string) (start_ts end_ts : option datetime)
    (entities : option (list string)) (dimension : option string)
  : M (Query * Table) :=
  table <- get_table self table_name schema ;;
  dim <- get_dimension self dimension schema ;;
  query_args <-
    match column_names with
    | None =>
        match dim with
        | None => ret [Entity_table table]
        | Some dim =>
            ret (Entity_table table
                 :: map (fun col_name => Entity_expr (Column (tbl_name dim) col_name))
                      (List.filter (fun col_name => negb (col_name =? "deviceid"))
                                   (tbl_c dim)))
        end
    | Some column_names =>
        for_each (as_list column_names) (fun query_args c =>
          match getitem table c with
          | Some e => ret (query_args ++ [Entity_expr e])%list
          | None =>
              match dim with
              | None =>
                  raise (AttributeError "'NoneType' object has no attribute 'c'")
              | Some dim =>
                  match getitem dim c with
                  | Some e => ret (query_args ++ [Entity_expr e])%list
                  | None =>
                      raise (KeyError ("Unable to find column " ++ c
                               ++ " in table or dimension for entity type "
                               ++ table_name))
                  end
              end
          end) []
    end ;;
  let query := session_query query_args in
  query <-
    match dim with
    | None => ret query
    | Some dim =>
        l <- deviceid dim ;; r <- deviceid table ;;
        ret (join query dim (Eq l r))
    end ;;
  let msg := "No timestamp_col provided to query. Must provide a timestamp column if you have a date filter" in
  query <-
    match start_ts with
    | None => ret query
    | Some start_ts =>
        match timestamp_col with
        | None => raise (ValueError msg)
        | Some timestamp_col =>
            col <- item table timestamp_col ;;
            ret (filter query (Ge col start_ts))
        end
    end ;;
  query <-
    match end_ts with
    | None => ret query
    | Some end_ts =>
        match timestamp_col with
        | None => raise (ValueError msg)
        | Some timestamp_col =>
            col <- item table timestamp_col ;;
            ret (filter query (Lt col end_ts))
        end
    end ;;
  query <-
    match entities with
    | None => ret query
    | Some entities =>
        col <- deviceid table ;;
        ret (filter query (In_ col entities))
    end ;;
  ret (query, table).

(* ================================================================== *)
(** ** [query_agg]: the aggregate query *)
(* ================================================================== *)

(** A value of [agg_dict]: one aggregate function, a list of them, or
    anything else. *)
Inductive aggs : Type :=
| Agg_str (aggregate : string)
| Agg_list (aggregates : list string)
| Agg_other.

(** Dictionaries keep insertion order; a key is looked up from the front. *)
Fixpoint dict_get {V} (d : list (string * V)) (k : string) : option V :=
  match d with
  | [] => None
  | (k', v) :: r => if k =? k' then Some v else dict_get r k
  end.

Definition enumerate {A} (l : list A) : list (nat * A) :=
  combine (seq 0 (length l)) l.

(** The [try] block around [agg_outputs[col][i]]: [KeyError] and [IndexError]
    are caught, the [TypeError] of subscripting [None] is not. *)
Definition output_item (agg_outputs : option (list (string * list string)))
    (col : string) (i : nat) (agg : string) : M string :=
  match agg_outputs with
  | None => raise (TypeError "'NoneType' object is not subscriptable")
  | Some agg_outputs =>
      match dict_get agg_outputs col with
      | Some outputs =>
          match nth_error outputs i with
          | Some output => ret output
          | None =>
              let output := col ++ "_" ++ agg in
              let msg := "No output item name specified for " ++ col ++ ", "
                         ++ agg ++ ". Using default." in
              warning msg ;;; ret output
          end
      | None =>
          let output := col ++ "_" ++ agg in
          let msg := "No output item name specified for " ++ col ++ ", "
                     ++ agg ++ ". Using default." in
          warning msg ;;; ret output
      end
  end.

(** The body of the loop over [agg_dict.items()], on the lists [args] and
    [metric_filter] that it extends. *)
Definition query_agg_item (table : Table) (dim : option Table)
    (agg_outputs : option (list (string * list string)))
    (timestamp : option string)
    (acc : list expr * list clause) (item : string * aggs)
  : M (list expr * list clause) :=
  let '(args, metric_filter) := acc in
  let '(col, aggs) := item in
  args <-
    match aggs with
    | Agg_str aggs =>
        e <- _aggregate_item table col aggs None dim timestamp ;;
        ret (args ++ [e])%list
    | Agg_list aggs =>
        for_each (enumerate aggs) (fun args '(i, agg) =>
          output <- output_item agg_outputs col i agg ;;
          e <- _aggregate_item table col agg (Some output) dim timestamp ;;
          ret (args ++ [e])%list) args
    | Agg_other =>
        raise (ValueError "Aggregate dictionary is not in the correct form. Supply a single aggregate function as a string or a list of strings.")
    end ;;
  c <- _is_not_null table dim col ;;
  ret (args, (metric_filter ++ [c])%list).

(** The loop over [agg_dict.items()]: the aggregates to project and the
    not-null conditions of the aggregated columns. *)
Definition query_agg_items (table : Table) (dim : option Table)
    (agg_dict : list (string * aggs))
    (agg_outputs : option (list (string * list string)))
    (timestamp : option string) : M (list expr * list clause) :=
  for_each agg_dict (query_agg_item table dim agg_outputs timestamp) ([], []).

(** The time-grain block: the bucket expression to group by, or the pandas
    frequency in [pandas_aggregate]. *)
Definition query_agg_time_grain (self : Database) (table : Table)
    (table_name : string) (schema timestamp time_grain : option string)
  : M (list expr * option string) :=
  match time_grain with
  | None => ret ([], None)
  | Some time_grain =>
      match timestamp with
      | None =>
          raise (ValueError "You must supply a timestamp column when doing a time-based aggregate")
      | Some timestamp =>
          if time_grain =? timestamp then
            col <- item table timestamp ;;
            ret ([Label col timestamp], None)
          else if PyStr.endswith time_grain "min" then
            minutes <- int (PyStr.slice_to_minus 3 time_grain) ;;
            e <- _ts_col_rounded_to_minutes self table_name schema timestamp
                   minutes timestamp ;;
            ret ([e], None)
          else if PyStr.endswith time_grain "H" then
            hours <- int (PyStr.slice_to_minus 1 time_grain) ;;
            e <- _ts_col_rounded_to_hours self table_name schema timestamp
                   hours timestamp ;;
            ret ([e], None)
          else if time_grain =? "day" then
            col <- item table timestamp ;;
            ret ([Label (Func1 f_day col) timestamp], None)
          else if time_grain =? "week" then
            col <- item table timestamp ;;
            ret ([Label (Func1 f_this_week col) timestamp], None)
          else if time_grain =? "month" then
            col <- item table timestamp ;;
            ret ([Label (Func1 f_this_month col) timestamp], None)
          else if time_grain =? "year" then
            col <- item table timestamp ;;
            ret ([Label (Func1 f_this_year col) timestamp], None)
          else ret ([], Some time_grain)
      end
  end.

(** One turn of the loop over [groupby]. *)
Definition groupby_column (table : Table) (dim : option Table)
    (dimension : option string) (g : string) : M expr :=
  match getitem table g with
  | Some e => ret e
  | None =>
      match dimension with
      | Some _ =>
          match dim with
          | None =>
              raise (AttributeError "'NoneType' object has no attribute 'c'")
          | Some dim =>
              match getitem dim g with
              | Some e => ret e
              | None =>
                  raise (ValueError ("group by column " ++ g
                           ++ " not found in main table or dimension table"))
              end
          end
      | None =>
          raise (KeyError ("group by column " ++ g
                   ++ " not found in main table and no dimension table specified"))
      end
  end.

(** The loop over [groupby], appending to [grp]. *)
Definition query_agg_groupby (table : Table) (dim : option Table)
    (dimension : option string) (groupby : list string) (grp : list expr)
  : M (list expr) :=
  for_each groupby (fun grp g =>
    e <- groupby_column table dim dimension g ;;
    ret (grp ++ [e])%list) grp.

Definition query_agg (self : Database) (table_name : string)
    (schema : option string) (agg_dict : list (string * aggs))
    (agg_outputs : option (list (string * list string)))
    (groupby : option names) (timestamp time_grain dimension : option string)
    (start_ts end_ts : option datetime) (entities : option (list string))
  : M (Query * Table * option Table * option string * list (string * aggs)) :=
  table <- get_table self table_name schema ;;
  dim <- get_dimension self dimension schema ;;
  ' (args, metric_filter) <-
    query_agg_items table dim agg_dict agg_outputs timestamp ;;
  ' (grp, pandas_aggregate) <-
    query_agg_time_grain self table table_name schema timestamp time_grain ;;
  let groupby :=
    match groupby with
    | None => []
    | Some groupby => as_list groupby
    end in
  grp <- query_agg_groupby table dim dimension groupby grp ;;
  let args := (args ++ grp)%list in
  ' (query, table) <-
    match pandas_aggregate with
    | None =>
        let query := group_by (session_query (map Entity_expr args)) grp in
        match dimension, dim with
        | None, _ => ret (query, table)
        | Some _, Some dim =>
            l <- deviceid dim ;; r <- deviceid table ;;
            ret (join query dim (Eq l r), table)
        | Some _, None =>
            raise (AttributeError "'NoneType' object has no attribute 'c'")
        end
    | Some _ =>
        query self table_name schema None timestamp start_ts end_ts entities
          dimension
    end ;;
  let query := filter query (or_ metric_filter) in
  ret (query, table, dim, pandas_aggregate, agg_dict).

(* ================================================================== *)
(** ** [query_time_agg]: a regular rollup joined to a first/last rollup *)
(* ================================================================== *)

(** Truth value of [pandas_aggregate]: [None] and the empty string are
    false. *)
Definition truthy (o : option string) : bool :=
  match o with
  | None => false
  | Some s => negb (s =? EmptyString)
  end.

Definition dquote : string := String (ascii_of_nat 34) EmptyString.

(** The timestamp column is taken as a string here: with the default [None]
    the second [query_agg] has no column to aggregate. *)
Definition query_time_agg (self : Database) (table_name : string)
    (schema : option string) (column : string) (regular_agg : aggs)
    (time_agg : string) (groupby : option names) (timestamp : string)
    (time_grain dimension : option string) (start_ts end_ts : option datetime)
    (entities : option (list string)) : M (Select * Table) :=
  let groupby := option_map as_list groupby in
  let agg_dict := [(column, regular_agg)] in
  ' (query_a, table, dim, pandas_aggregate, agg_dict) <-
    query_agg self table_name schema agg_dict None (option_map Names groupby)
      (Some timestamp) (Some timestamp) dimension start_ts end_ts entities ;;
  if truthy pandas_aggregate then
    raise (ValueError "Attempting to db time aggregation on a query cannot be pushed to the database. Perform the time aggregation in Pandas.")
  else
  time_agg_dict <-
    (if time_agg =? "first" then ret [(timestamp, Agg_str "min")]
     else if time_agg =? "last" then ret [(timestamp, Agg_str "max")]
     else raise (ValueError ("Invalid time aggregate " ++ time_agg ++ ". Use "
                   ++ dquote ++ "first" ++ dquote ++ " or "
                   ++ dquote ++ "last" ++ dquote))) ;;
  ' (query_b, table, dim, pandas_aggregate, agg_dict) <-
    query_agg self table_name schema time_agg_dict None (option_map Names groupby)
      (Some timestamp) time_grain None start_ts end_ts entities ;;
  let right_timestamp := time_agg ++ "_" ++ timestamp in
  keys <-
    match groupby with
    | Some groupby =>
        ret (KeyPair timestamp right_timestamp :: map Key groupby)
    | None => raise (TypeError "'NoneType' object is not iterable")
    end ;;
  let right_cols :=
    [(right_timestamp, right_timestamp); (timestamp, timestamp)] in
  query <- subquery_join self query_a query_b keys right_cols ;;
  ret (query, table).

(* ================================================================== *)
(** ** What the expressions compute on a row *)
(* ================================================================== *)

(** The planner only builds expressions; the database evaluates them. The
    evaluator below gives the scalar functions their database meaning on
    timestamps counted in seconds: [DATE], [TIMESTAMP], [HOUR], [MINUTE],
    [DAY] (the day of the month), [ADD_HOURS], [ADD_MINUTES], and [/] on two
    integers as the truncating integer division. Aggregates are not
    functions of one row and get no value here; the functions [this_week],
    [this_month] and [this_year] are left without a value. *)

Inductive value : Type :=
| VNull
| VInt (n : Z)
| VStr (s : string)
| VDate (days : Z)
| VTimestamp (t : datetime).

(** A row gives every column of every table in the FROM list a value. *)
Definition row := string -> string -> value.

Definition ts_date (t : datetime) : Z := t / 86400.

(** The day of the month of the date that is [days] days after 1970-01-01,
    in the proleptic Gregorian calendar. *)
Definition day_of_month (days : Z) : Z :=
  let z := days + 719468 in
  let era := z / 146097 in
  let doe := z - era * 146097 in
  let yoe := (doe - doe / 1460 + doe / 36524 - doe / 146096) / 365 in
  let doy := doe - (365 * yoe + yoe / 4 - yoe / 100) in
  let mp := (5 * doy + 2) / 153 in
  doy - (153 * mp + 2) / 5 + 1.

Definition ts_hour (t : datetime) : Z := (t / 3600) mod 24.
Definition ts_minute (t : datetime) : Z := (t / 60) mod 60.

Definition eval_func1 (f : sqlfunc) (v : value) : option value :=
  match f, v with
  | f_date, VTimestamp t => Some (VDate (ts_date t))
  | f_timestamp, VDate d => Some (VTimestamp (d * 86400))
  | f_hour, VTimestamp t => Some (VInt (ts_hour t))
  | f_minute, VTimestamp t => Some (VInt (ts_minute t))
  | f_day, VTimestamp t => Some (VInt (day_of_month (ts_date t)))
  | (f_date | f_timestamp | f_hour | f_minute | f_day), VNull => Some VNull
  | _, _ => None
  end.

Definition eval_func2 (f : sqlfunc) (v w : value) : option value :=
  match f, v, w with
  | f_add_hours, VTimestamp t, VInt n => Some (VTimestamp (t + 3600 * n))
  | f_add_minutes, VTimestamp t, VInt n => Some (VTimestamp (t + 60 * n))
  | (f_add_hours | f_add_minutes), VNull, (VInt _ | VNull) => Some VNull
  | (f_add_hours | f_add_minutes), VTimestamp _, VNull => Some VNull
  | _, _, _ => None
  end.

Definition eval_div (v w : value) : option value :=
  match v, w with
  | VInt x, VInt y => if (y =? 0)%Z then None else Some (VInt (Z.quot x y))
  | VNull, (VInt _ | VNull) => Some VNull
  | VInt _, VNull => Some VNull
  | _, _ => None
  end.

Definition eval_mul (v w : value) : option value :=
  match v, w with
  | VInt x, VInt y => Some (VInt (x * y))
  | VNull, (VInt _ | VNull) => Some VNull
  | VInt _, VNull => Some VNull
  | _, _ => None
  end.

Definition lift2 (f : value -> value -> option value) (a b : option value)
  : option value :=
  match a, b with
  | Some v, Some w => f v w
  | _, _ => None
  end.

Fixpoint eval (r : row) (e : expr) : option value :=
  match e with
  | Column t c => Some (r t c)
  | Literal n => Some (VInt n)
  | Label e _ => eval r e
  | Func1 f a =>
      match eval r a with
      | Some v => eval_func1 f v
      | None => None
      end
  | Func2 f a b => lift2 (eval_func2 f) (eval r a) (eval r b)
  | Div a b => lift2 eval_div (eval r a) (eval r b)
  | Mul a b => lift2 eval_mul (eval r a) (eval r b)
  end.

Definition value_eqb (v w : value) : bool :=
  match v, w with
  | VInt x, VInt y => (x =? y)%Z
  | VStr x, VStr y => x =? y
  | VDate x, VDate y => (x =? y)%Z
  | VTimestamp x, VTimestamp y => (x =? y)%Z
  | _, _ => false
  end.

Definition is_not_null (o : option value) : bool :=
  match o with
  | Some VNull => false
  | Some _ => true
  | None => false
  end.

(** Whether a WHERE clause keeps the row: a clause that is false or unknown
    does not. An [or_] of no clause at all renders as no condition. *)
Fixpoint holds (r : row) (w : clause) : bool :=
  match w with
  | IsNot_None e => is_not_null (eval r e)
  | Ge e v =>
      match eval r e with
      | Some (VTimestamp t) => (v <=? t)%Z
      | _ => false
      end
  | Lt e v =>
      match eval r e with
      | Some (VTimestamp t) => (t <? v)%Z
      | _ => false
      end
  | In_ e vs =>
      match eval r e with
      | Some (VStr s) => mem s vs
      | _ => false
      end
  | Eq a b =>
      match eval r a, eval r b with
      | Some v, Some w => value_eqb v w
      | _, _ => false
      end
  | or_ cs =>
      match cs with
      | [] => true
      | _ => existsb (holds r) cs
      end
  | and_ cs => forallb (holds r) cs
  end.

(* ================================================================== *)
(** ** What a plan returns on the rows of a table *)
(* ================================================================== *)

(** The database runs the plans that [query_agg] and [subquery_join] build.
    The definitions below give a grouped query on one table, and the inner
    join of two of them, their SQL meaning: WHERE keeps the rows on which
    every filter holds; GROUP BY puts together the rows with equal keys,
    NULL keys with NULL keys; SUM, MAX, MIN and COUNT skip NULLs, and SUM,
    MAX and MIN of no value are NULL. [None] stands for what is left out:
    queries that are joined or not grouped, whole tables in the select
    list, keys that come twice, AVG and STD, and expressions that the
    evaluator gives no value. *)

Fixpoint option_all {A} (l : list (option A)) : option (list A) :=
  match l with
  | [] => Some []
  | Some a :: r => option_map (cons a) (option_all r)
  | None :: _ => None
  end.

Definition is_aggregate (f : sqlfunc) : bool :=
  match f with
  | f_count | f_max | f_avg | f_min | f_std | f_sum => true
  | _ => false
  end.

Definition value_add (v w : value) : option value :=
  match v, w with
  | VInt x, VInt y => Some (VInt (x + y))
  | _, _ => None
  end.

Definition value_max (v w : value) : option value :=
  match v, w with
  | VInt x, VInt y => Some (VInt (Z.max x y))
  | VTimestamp x, VTimestamp y => Some (VTimestamp (Z.max x y))
  | _, _ => None
  end.

Definition value_min (v w : value) : option value :=
  match v, w with
  | VInt x, VInt y => Some (VInt (Z.min x y))
  | VTimestamp x, VTimestamp y => Some (VTimestamp (Z.min x y))
  | _, _ => None
  end.

Fixpoint fold_values (op : value -> value -> option value) (acc : value)
    (vs : list value) : option value :=
  match vs with
  | [] => Some acc
  | v :: r =>
      match op acc v with
      | Some acc' => fold_values op acc' r
      | None => None
      end
  end.

Definition eval_aggregate (f : sqlfunc) (vs : list value) : option value :=
  let l := List.filter (fun v => match v with
                                 | VNull => false
                                 | _ => true
                                 end) vs in
  match f, l with
  | f_count, _ => Some (VInt (Z.of_nat (length l)))
  | (f_sum | f_max | f_min), [] => Some VNull
  | f_sum, _ => fold_values value_add (VInt 0) l
  | f_max, v :: r => fold_values value_max v r
  | f_min, v :: r => fold_values value_min v r
  | _, _ => None
  end.

(** Equality of grouping keys. *)
Definition value_group_eqb (v w : value) : bool :=
  match v, w with
  | VNull, VNull => true
  | _, _ => value_eqb v w
  end.

Definition key_eqb (k k' : list value) : bool :=
  (length k =? length k')%nat
  && forallb (fun p => value_group_eqb (fst p) (snd p)) (combine k k').

(** The value of a selected expression on a group of rows: an aggregate of
    the values of its argument, or the value that the expression has on
    every row of the group. *)
Fixpoint eval_in_group (g : list row) (e : expr) : option value :=
  match e with
  | Label e _ => eval_in_group g e
  | Func1 f a =>
      if is_aggregate f then
        match option_all (map (fun r => eval r a) g) with
        | Some vs => eval_aggregate f vs
        | None => None
        end
      else
        match option_all (map (fun r => eval r e) g) with
        | Some (v :: vs) =>
            if forallb (value_group_eqb v) vs then Some v else None
        | _ => None
        end
  | _ =>
      match option_all (map (fun r => eval r e) g) with
      | Some (v :: vs) =>
          if forallb (value_group_eqb v) vs then Some v else None
      | _ => None
      end
  end.

Fixpoint add_to_group (k : list value) (r : row)
    (groups : list (list value * list row)) : list (list value * list row) :=
  match groups with
  | [] => [(k, [r])]
  | (k', rs) :: rest =>
      if key_eqb k k' then (k', (rs ++ [r])%list) :: rest
      else (k', rs) :: add_to_group k r rest
  end.

Fixpoint group_rows (grp : list expr) (rows : list row)
    (groups : list (list value * list row))
  : option (list (list value * list row)) :=
  match rows with
  | [] => Some groups
  | r :: rest =>
      match option_all (map (eval r) grp) with
      | Some k => group_rows grp rest (add_to_group k r groups)
      | None => None
      end
  end.

(** A row of a result: the values by key. *)
Definition record : Type := list (string * value).

Definition entity_expr (en : entity) : option expr :=
  match en with
  | Entity_expr e => Some e
  | Entity_table _ => None
  end.

(** The rows of a subquery on the rows of its table. *)
Definition run_subquery (rows : list row) (s : Subquery)
  : option (list record) :=
  let q := sq_element s in
  match q_join q, q_group_by q, option_all (map entity_expr (q_entities q)) with
  | [], _ :: _, Some es =>
      if (length es =? length (sq_c s))%nat then
        match
          group_rows (q_group_by q)
            (List.filter (fun r => forallb (holds r) (q_filter q)) rows) []
        with
        | Some groups =>
            option_all
              (map (fun g =>
                      option_map (combine (sq_c s))
                        (option_all (map (eval_in_group (snd g)) es)))
                 groups)
        | None => None
        end
      else None
  | _, _, _ => None
  end.

Definition lookup (k : string) (r : record) : value :=
  match dict_get r k with
  | Some v => v
  | None => VNull
  end.

(** A row of the left subquery next to a row of the right one. *)
Definition joined_row (left right : Subquery) (a b : record) : row :=
  fun t c =>
    if t =? sq_name left then lookup c a
    else if t =? sq_name right then lookup c b
    else VNull.

(** The rows of the select that [subquery_join] builds: the pairs of a left
    and a right row on which the join condition holds, projected. *)
Definition run_select (rows : list row) (sel : Select) : option (list record) :=
  match run_subquery rows (sel_left sel), run_subquery rows (sel_right sel) with
  | Some ra, Some rb =>
      option_all
        (map (fun r =>
                option_all
                  (map (fun e =>
                          match expr_key e, eval r e with
                          | Some k, Some v => Some (k, v)
                          | _, _ => None
                          end) (sel_projection sel)))
           (List.filter (fun r => holds r (sel_onclause sel))
              (flat_map (fun a =>
                           map (joined_row (sel_left sel) (sel_right sel) a) rb)
                 ra)))
  | _, _ => None
  end.

(* ================================================================== *)
(** ** The time-aggregate request as the specification words it *)
(* ================================================================== *)

(** The specification's reading of a time-aggregate request: the regular
    rollup (the left query) grouped by the bucket expression of the
    requested grain, and the join made on the bucketed timestamp and the
    group-by keys, each under its own name on both sides. *)
Definition spec_joined_on_bucket (bucket : expr) (timestamp : string)
    (groupby : list string) (sel : Select) : Prop :=
  In bucket (q_group_by (sq_element (sel_left sel)))
  /\ sel_onclause sel
     = and_ (map (fun k => Eq (Column "a" k) (Column "b" k))
               (timestamp :: groupby)).

(* ================================================================== *)
(** ** A sample database *)
(* ================================================================== *)

(** A time-series table, its dimension table and the handle that reflects
    them; the examples below run the planner on these. *)
Definition iot : Table :=
  mkTable "iot"
    ["deviceid"; "evt_timestamp"; "energy"; "temp"; "pressure"; "site"].

Definition iot_dimension : Table :=
  mkTable "iot_dimension" ["deviceid"; "region"].

(** A table that happens to have a column named like the alias of a last
    timestamp. *)
Definition iot_state : Table :=
  mkTable "iot_state"
    ["deviceid"; "evt_timestamp"; "last_evt_timestamp"; "energy"; "site"].

(** The made-up names of the sample: the name of the function and [_1], or
    [anon_1]. *)
Definition sqlfunc_name (f : sqlfunc) : string :=
  match f with
  | f_count => "count" | f_max => "max" | f_avg => "avg" | f_min => "min"
  | f_std => "std" | f_sum => "sum"
  | f_date => "date" | f_timestamp => "timestamp" | f_hour => "hour"
  | f_minute => "minute" | f_add_hours => "add_hours"
  | f_add_minutes => "add_minutes"
  | f_day => "day" | f_this_week => "this_week"
  | f_this_month => "this_month" | f_this_year => "this_year"
  end.

Definition sample_anon_label (alias : string) (ens : list entity) (i : nat)
  : string :=
  match nth_error ens i with
  | Some (Entity_expr (Func1 f _)) | Some (Entity_expr (Func2 f _ _)) =>
      sqlfunc_name f ++ "_1"
  | _ => "anon_1"
  end.

Definition sample_db : Database :=
  mkDatabase (fun table_name _ =>
    if table_name =? "iot" then Some iot
    else if table_name =? "iot_dimension" then Some iot_dimension
    else if table_name =? "iot_state" then Some iot_state
    else None) sample_anon_label.

(** Two rollups to join: energy totals per site, and the last timestamp per
    site. *)
Definition left_rollup : Query :=
  group_by
    (session_query
       [Entity_expr (Column "iot" "site");
        Entity_expr (Label (Func1 f_sum (Column "iot" "energy")) "total_energy")])
    [Column "iot" "site"].

Definition right_rollup : Query :=
  group_by
    (session_query
       [Entity_expr (Label (Func1 f_max (Column "iot" "evt_timestamp"))
                       "last_evt_timestamp");
        Entity_expr (Column "iot" "site")])
    [Column "iot" "site"].

(** A reading of [iot] at a site. *)
Definition reading (t : datetime) (site : string) (energy : value) : row :=
  fun table column =>
    if column =? "evt_timestamp" then VTimestamp t
    else if column =? "site" then VStr site
    else if column =? "energy" then energy
    else VNull.

(** The same totals without a label. *)
Definition unnamed_rollup : Query :=
  group_by
    (session_query
       [Entity_expr (Column "iot" "site");
        Entity_expr (Func1 f_sum (Column "iot" "energy"))])
    [Column "iot" "site"].

(** A row of [iot] read at timestamp [t]. *)
Definition sample_row (t : datetime) (temp : value) : row :=
  fun table column =>
    if column =? "evt_timestamp" then VTimestamp t
    else if column =? "temp" then temp
    else VNull.

(* ================================================================== *)
(** ** [query_column_aggregate]: one aggregate of one column *)
(* ================================================================== *)

(** The aggregate is whatever the caller puts in the dictionary: a string,
    or (against the docstring) a list. *)
Definition query_column_aggregate (self : Database) (table_name : string)
    (schema : option string) (column : string) (aggregate : aggs)
    (start_ts end_ts : option datetime) (entities : option (list string))
  : M (Query * Table) :=
  let agg_dict := [(column, aggregate)] in
  ' (query, table, dim, pandas_aggregate, agg_dict) <-
    query_agg self table_name schema agg_dict None None None None None
      start_ts end_ts entities ;;
  ret (query, table).

(* ================================================================== *)
(** ** Effects of the other methods: state, exceptions, recursion *)
(* ================================================================== *)

(** The methods below print, log, call the server and raise exceptions of
    further classes. An exception is its class name and its message;
    [OutOfFuel] is the outcome of a recursion cut short. *)
Inductive outcome (A : Type) : Type :=
| Returns (a : A)
| Raises (class msg : string)
| OutOfFuel.
Arguments Returns {A} a.
Arguments Raises {A} class msg.
Arguments OutOfFuel {A}.

Definition Eff (S A : Type) : Type := S -> outcome A * S.

Definition eret {S A} (a : A) : Eff S A := fun s => (Returns a, s).

Definition eraise {S A} (class msg : string) : Eff S A :=
  fun s => (Raises class msg, s).

Definition ebind {S A B} (m : Eff S A) (k : A -> Eff S B) : Eff S B :=
  fun s =>
    match m s with
    | (Returns a, s') => k a s'
    | (Raises class msg, s') => (Raises class msg, s')
    | (OutOfFuel, s') => (OutOfFuel, s')
    end.

(** Appends one entry to the state: a printed value, a logged message, a
    call to the server. *)
Definition emit {S} (x : S) : Eff (list S) unit :=
  fun s => (Returns tt, (s ++ [x])%list).

Declare Scope eff_scope.
Delimit Scope eff_scope with eff.
Notation "x <-- m ;; k" := (ebind m (fun x => k))
  (at level 100, m at next level, right associativity) : eff_scope.
Notation "m ;;;; k" := (ebind m (fun _ => k))
  (at level 100, right associativity) : eff_scope.

(** [for x in xs: body(x)] *)
Fixpoint efor {S A} (xs : list A) (body : A -> Eff S unit) : Eff S unit :=
  match xs with
  | [] => eret tt
  | x :: r => ebind (body x) (fun _ => efor r body)
  end.

(** A planner computation seen as an effect on its log. *)
Definition exn_class (e : exn) : string * string :=
  match e with
  | ValueError msg => ("ValueError", msg)
  | KeyError msg => ("KeyError", msg)
  | TypeError msg => ("TypeError", msg)
  | AttributeError msg => ("AttributeError", msg)
  end.

Definition of_planner {A} (m : M A) : Eff log A :=
  fun lg =>
    match m lg with
    | (Ok a, lg') => (Returns a, lg')
    | (Raise e, lg') => (Raises (fst (exn_class e)) (snd (exn_class e)), lg')
    end.

(** Values of the dictionaries that the methods below read and send:
    [None], strings, lists and dictionaries. *)
#[local] Unset Elimination Schemes.
Inductive json : Type :=
| JNone
| JStr (s : string)
| JList (l : list json)
| JDict (d : list (string * json)).
#[local] Set Elimination Schemes.

(* ================================================================== *)
(** ** [get_entity_type] *)
(* ================================================================== *)

(** One entry of the cached entity type metadata: a dictionary. *)
Definition entity_metadata := list (string * json).

(** The search for the table name in the handler of the [KeyError]:
    [m['metricTableName']] raises [KeyError] on an entry without that
    item. *)
Fixpoint find_by_table_name (name : string) (values : list entity_metadata)
  : outcome (option entity_metadata) :=
  match values with
  | [] => Returns None
  | m :: r =>
      match dict_get m "metricTableName" with
      | None => Raises "KeyError" "metricTableName"
      | Some (JStr t) =>
          if t =? name then Returns (Some m) else find_by_table_name name r
      | Some _ => find_by_table_name name r
      end
  end.

(** [get_entity_type] up to the point where every path has raised. The
    state is what [print] wrote. After the search, the message is formatted
    with a [%] followed by a blank and an [i]: an integer conversion, which
    a string argument fails with [TypeError]. With a cached name the method
    prints the metadata and reaches a bare [raise] outside any handler. *)
Definition get_entity_type (entity_type_metadata : list (string * entity_metadata))
    (name : string) : Eff (list entity_metadata) unit :=
  match dict_get entity_type_metadata name with
  | None =>
      fun out =>
        match find_by_table_name name (map snd entity_type_metadata) with
        | Returns _ =>
            (Raises "TypeError" "%i format: a number is required, not str", out)
        | Raises class msg => (Raises class msg, out)
        | OutOfFuel => (OutOfFuel, out)
        end
  | Some metadata =>
      ebind (emit metadata)
        (fun _ => eraise "RuntimeError" "No active exception to reraise")
  end.

(* ================================================================== *)
(** ** [http_request] and the methods that unregister *)
(* ================================================================== *)

(** One request handed to [self.http.request] and the reply to it. *)
Record http_call : Type := mkCall {
  call_method : string;
  call_url : string;
  call_body : json;
  call_api_key : option string;
  call_api_token : option string
}.

(** A reply: its status and its body [r.data] seen through
    [decode('utf-8')], [None] when the bytes are not UTF-8. *)
Record http_reply : Type := mkReply {
  status : Z;
  decoded : option string
}.

(** What [self.http.request] does with a request: the server replies, or
    the call raises an exception of the transport. *)
Inductive transport : Type :=
| Reply (r : http_reply)
| Fails (class msg : string).

(** What [http_request] reads from [self]: the tenant, the [as] credentials
    that [__init__] always sets (each may be [None]), and the server behind
    [self.http], whose answer may depend on the calls made before. The state
    of the effect is the list of calls made. *)
Record ApiClient : Type := mkApiClient {
  tenant_id : option string;
  as_host : option string;
  api_key : option string;
  api_token : option string;
  server : list http_call -> http_call -> transport
}.

(** ['/'.join(parts)] *)
Fixpoint join_slash (parts : list string) : string :=
  match parts with
  | [] => EmptyString
  | [p] => p
  | p :: r => p ++ "/" ++ join_slash r
  end.

(** The dictionary [self.url], looked up at [(object_type, request)];
    [None] stands for the [KeyError]. *)
Definition url_of (host : option string) (tenant : string)
    (object_type object_name request object_name_2 : string) : option string :=
  let base_url := "http://" ++ PyStr.str host ++ "/api" in
  let key t r := (object_type =? t) && (request =? r) in
  if key "allFunctions" "GET" then
    Some (join_slash [base_url; "catalog"; "v1"; tenant;
                      "function?customFunctionsOnly=false"])
  else if key "constants" "GET" then
    Some (join_slash [base_url; "constants"; "v1";
                      tenant ++ "?entityType=" ++ object_name])
  else if key "constants" "PUT" || key "constants" "POST" then
    Some (join_slash [base_url; "constants"; "v1"])
  else if key "defaultConstants" "GET" || key "defaultConstants" "POST"
          || key "defaultConstants" "PUT" || key "defaultConstants" "DELETE"
  then Some (join_slash [base_url; "constants"; "v1"; tenant])
  else if key "dataItem" "PUT" then
    Some (join_slash [base_url; "kpi"; "v1"; tenant; "entityType";
                      object_name; object_type; object_name_2])
  else if key "allEntityTypes" "GET" then
    Some (join_slash [base_url; "meta"; "v1"; tenant; "entityType"])
  else if key "entityType" "POST" then
    Some (join_slash [base_url; "meta"; "v1"; tenant; object_type])
  else if key "entityType" "GET" then
    Some (join_slash [base_url; "meta"; "v1"; tenant; object_type; object_name])
  else if key "engineInput" "GET" then
    Some (join_slash [base_url; "kpi"; "v1"; tenant; "entityType";
                      object_name; object_type])
  else if key "function" "GET" || key "function" "DELETE"
          || key "function" "PUT" then
    Some (join_slash [base_url; "catalog"; "v1"; tenant; object_type;
                      object_name])
  else if key "granularitySet" "POST" || key "granularitySet" "GET" then
    Some (join_slash [base_url; "granularity"; "v1"; tenant; "entityType";
                      object_name; object_type])
  else if key "granularitySet" "DELETE" then
    Some (join_slash [base_url; "granularity"; "v1"; tenant; "entityType";
                      object_name; object_type; object_name_2])
  else if key "kpiFunctions" "POST" then
    Some (join_slash [base_url; "kpi"; "v1"; tenant; "entityType";
                      object_name; object_type; "import"])
  else if key "kpiFunction" "POST" || key "kpiFunction" "GET" then
    Some (join_slash [base_url; "kpi"; "v1"; tenant; "entityType";
                      object_name; object_type])
  else if key "kpiFunction" "DELETE" || key "kpiFunction" "PUT" then
    Some (join_slash [base_url; "kpi"; "v1"; tenant; "entityType";
                      object_name; object_type; object_name_2])
  else None.

(** [self.http.request]: the call is recorded; the server replies or the
    transport raises. *)
Definition http_send (self : ApiClient) (call : http_call)
  : Eff (list http_call) http_reply :=
  fun calls =>
    match server self calls call with
    | Reply r => (Returns r, (calls ++ [call])%list)
    | Fails class msg => (Raises class msg, (calls ++ [call])%list)
    end.

(** [http_request]; [fuel] bounds the depth of its recursion. The body is
    decoded before the status is looked at, outside any handler. *)
Fixpoint http_request (fuel : nat) (self : ApiClient) (object_type : string)
    (object_name : option string) (request : string) (payload : json)
    (object_name_2 : string) (raise_error : bool)
  : Eff (list http_call) string :=
  match fuel with
  | O => fun calls => (OutOfFuel, calls)
  | S fuel =>
      let object_name := match object_name with
                         | None => EmptyString
                         | Some n => n
                         end in
      let payload := match payload with
                     | JNone => JStr EmptyString
                     | p => p
                     end in
      match tenant_id self with
      | None =>
          eraise "ValueError" "tenant_id instance variable is not set. database object was not initialized with valid credentials"
      | Some tenant =>
          match url_of (as_host self) tenant object_type object_name request
                  object_name_2 with
          | None =>
              eraise "ValueError"
                ("This combination  of request_type (" ++ object_type
                 ++ ") and object_type (" ++ request
                 ++ ") is not supported by the python api")
          | Some url =>
              ebind (http_send self
                       (mkCall request url payload (api_key self)
                          (api_token self)))
                (fun r =>
                   match decoded r with
                   | None =>
                       eraise "UnicodeDecodeError"
                         "'utf-8' codec can't decode the response"
                   | Some response =>
                       if (200 <=? status r)%Z && (status r <=? 299)%Z then
                         eret response
                       else if (request =? "POST")
                               && mem object_type
                                    ["kpiFunction"; "defaultConstants";
                                     "constants"]
                               && ((500 <=? status r)%Z && (status r <=? 599)%Z)
                       then
                         http_request fuel self object_type (Some object_name)
                           "PUT" payload object_name_2 raise_error
                       else if raise_error then eraise "HTTPError" response
                       else eret response
                   end)
          end
      end
  end.

(** [unregister_functions]: the messages of [logger.info] are left out. *)
Definition unregister_functions (fuel : nat) (self : ApiClient)
    (function_names : names) : Eff (list http_call) unit :=
  efor (as_list function_names) (fun f =>
    let payload := JDict [("name", JStr f)] in
    ebind (http_request fuel self "function" (Some f) "DELETE" payload
             EmptyString false)
      (fun r => eret tt)).

(** [unregister_constants]: the name of the last constant is read from the
    loop variable after the loop, which is unbound when the list is empty. *)
Definition unregister_constants (fuel : nat) (self : ApiClient)
    (constant_names : names) : Eff (list http_call) unit :=
  let constant_names := as_list constant_names in
  let payload :=
    JList (map (fun f => JDict [("name", JStr f); ("entityType", JNone)])
             constant_names) in
  match rev constant_names with
  | [] =>
      eraise "UnboundLocalError"
        "local variable 'f' referenced before assignment"
  | f :: _ =>
      ebind (http_request fuel self "defaultConstants" (Some f) "DELETE"
               payload EmptyString false)
        (fun r => eret tt)
  end.

(* ================================================================== *)
(** ** [get_column_lists_by_type] *)
(* ================================================================== *)

(** The type object of a column, seen through the [isinstance] tests that
    [get_column_lists_by_type] makes on it and the name of its class. *)
Record sqltype : Type := mkSqltype {
  is_DOUBLE : bool;
  is_Float : bool;
  is_VARCHAR : bool;
  is_String : bool;
  is_TIMESTAMP : bool;
  is_DateTime : bool;
  class_name : string
}.

(** The database with the column types that reflection finds, and whether
    the import of [DOUBLE] from [ibm_db_sa] at the top of the module has
    bound that name. *)
Record TypedDatabase : Type := mkTypedDatabase {
  database : Database;
  column_type : Table -> string -> sqltype;
  DOUBLE_bound : bool
}.

(** The four lists that the loop of [get_column_lists_by_type] extends. *)
Definition column_lists : Type :=
  (list string * list string * list string * list string)%type.

(** One turn of the loop, for a column that is not excluded. The first
    [isinstance] test names [DOUBLE], which is unbound when its import
    failed. *)
Definition column_lists_step (self : TypedDatabase) (table : Table)
    (acc : column_lists) (c : string) : Eff log column_lists :=
  let '(metrics, dates, categoricals, others) := acc in
  let data_type := column_type self table c in
  if negb (DOUBLE_bound self) then
    eraise "NameError" "name 'DOUBLE' is not defined"
  else if is_DOUBLE data_type || is_Float data_type then
    eret ((metrics ++ [c])%list, dates, categoricals, others)
  else if is_VARCHAR data_type || is_String data_type then
    eret (metrics, dates, (categoricals ++ [c])%list, others)
  else if is_TIMESTAMP data_type || is_DateTime data_type then
    eret (metrics, (dates ++ [c])%list, categoricals, others)
  else
    ebind (emit ("Found column " ++ c ++ " of unknown data type "
                 ++ class_name data_type))
      (fun _ => eret (metrics, dates, categoricals, (others ++ [c])%list)).

Fixpoint column_lists_loop (self : TypedDatabase) (table : Table)
    (exclude_cols : list string) (cols : list string) (acc : column_lists)
  : Eff log column_lists :=
  match cols with
  | [] => eret acc
  | c :: r =>
      if mem c exclude_cols then column_lists_loop self table exclude_cols r acc
      else
        ebind (column_lists_step self table acc c)
          (column_lists_loop self table exclude_cols r)
  end.

Definition get_column_lists_by_type (self : TypedDatabase) (table : string)
    (schema : option string) (exclude_cols : option (list string))
  : Eff log column_lists :=
  ebind (of_planner (get_table (database self) table schema)) (fun table =>
    let exclude_cols := match exclude_cols with
                        | None => []
                        | Some l => l
                        end in
    column_lists_loop self table exclude_cols (tbl_c table) ([], [], [], [])).

(** A server that accepts everything but a POST, which it fails with status
    503, and a client of it. *)
Definition sample_server (calls : list http_call) (call : http_call)
  : transport :=
  if call_method call =? "POST" then Reply (mkReply 503 (Some "busy"))
  else Reply (mkReply 200 (Some "ok")).

(** A server whose second answer is not UTF-8, and one that is down. *)
Definition garbling_server (calls : list http_call) (call : http_call)
  : transport :=
  match calls with
  | [_] => Reply (mkReply 200 None)
  | _ => Reply (mkReply 200 (Some "ok"))
  end.

Definition dead_server (calls : list http_call) (call : http_call)
  : transport :=
  Fails "MaxRetryError" "Max retries exceeded".

Definition sample_client : ApiClient :=
  mkApiClient (Some "acme") (Some "api.example.com") (Some "key")
    (Some "token") sample_server.

(** Column types of the sample table: floats, strings, one timestamp. *)
Definition sample_types : TypedDatabase :=
  mkTypedDatabase sample_db
    (fun _ c =>
       if c =? "evt_timestamp" then
         mkSqltype false false false false true true "TIMESTAMP"
       else if (c =? "deviceid") || (c =? "site") then
         mkSqltype false false true true false false "VARCHAR"
       else if c =? "pressure" then
         mkSqltype false false false false false false "INTEGER"
       else mkSqltype true true false false false false "DOUBLE")
    true.

(* ================================================================== *)
(** * Properties *)
(* ================================================================== *)

(** ** The planner monad *)

Section Monad_facts.

Context {A B : Type}.
Variables (m : M A) (k : A -> M B) (lg lg' : log).

Lemma bind_ok (a : A) : m lg = (Ok a, lg') -> bind m k lg = k a lg'.
Proof. intros H. unfold bind. now rewrite H. Qed.

Lemma bind_raise (e : exn) :
  m lg = (Raise e, lg') -> bind m k lg = (Raise e, lg').
Proof. intros H. unfold bind. now rewrite H. Qed.

Lemma bind_inv_ok (b : B) :
  bind m k lg = (Ok b, lg') ->
  exists a lg1, m lg = (Ok a, lg1) /\ k a lg1 = (Ok b, lg').
Proof.
  unfold bind. destruct (m lg) as [[a | e] lg1]; intros H.
  - now exists a, lg1.
  - discriminate.
Qed.

End Monad_facts.

(** Splits a successful [bind] in a hypothesis into its two steps. *)
Ltac bind_inv H :=
  let a := fresh "a" in
  let l := fresh "lg" in
  let H1 := fresh "Hstep" in
  apply bind_inv_ok in H; destruct H as (a & l & H1 & H).

Ltac bind_inv_as H a l H1 :=
  apply bind_inv_ok in H; destruct H as (a & l & H1 & H).

(** Computations that log nothing; [output_item] is the one that logs. *)
Create HintDb silent.

Lemma silent_ret {A} (a : A) : silent (ret a).
Proof. intros lg r lg' H. now inversion H. Qed.

Lemma silent_raise {A} (e : exn) : silent (@raise A e).
Proof. intros lg r lg' H. now inversion H. Qed.

Lemma silent_bind {A B} (m : M A) (k : A -> M B) :
  silent m -> (forall a, silent (k a)) -> silent (bind m k).
Proof.
  intros Hm Hk lg r lg'. unfold bind.
  destruct (m lg) as [[a | e] lg1] eqn:E; intros H.
  - apply Hk in H. apply Hm in E. congruence.
  - inversion H; subst. now apply Hm in E.
Qed.

Lemma silent_for_each {A S} (xs : list A) (body : S -> A -> M S) (acc : S) :
  (forall acc x, silent (body acc x)) -> silent (for_each xs body acc).
Proof.
  intros Hb. revert acc. induction xs as [| x xs IH]; intros acc; simpl.
  - apply silent_ret.
  - apply silent_bind; [apply Hb | apply IH].
Qed.

#[export] Hint Resolve silent_ret silent_raise silent_bind silent_for_each
  : silent.

(** Proves [silent m] for a computation made of binds and case analyses. *)
Ltac silence :=
  repeat match goal with
    | |- forall _, _ => intro
    | |- silent (bind _ _) => apply silent_bind
    | |- silent (for_each _ _ _) => apply silent_for_each
    | |- silent (let '(_, _) := ?p in _) => destruct p
    | |- silent (match ?x with _ => _ end) => destruct x
    | |- silent _ => solve [auto with silent]
    end.

Lemma ret_inv {A} (a b : A) (lg lg' : log) :
  ret a lg = (Ok b, lg') -> a = b /\ lg = lg'.
Proof. unfold ret. intros H. now inversion H. Qed.

Lemma for_each_app {A S} (xs ys : list A) (body : S -> A -> M S) (acc : S)
    (lg : log) :
  for_each (xs ++ ys) body acc lg =
  bind (for_each xs body acc) (for_each ys body) lg.
Proof.
  revert acc lg. induction xs as [| x xs IH]; intros acc lg; simpl.
  - reflexivity.
  - unfold bind. destruct (body acc x lg) as [[acc' | e] lg1].
    + rewrite IH. reflexivity.
    + reflexivity.
Qed.

(** ** Python strings *)

Lemma chars_app (s t : string) :
  PyStr.chars (s ++ t) = (PyStr.chars s ++ PyStr.chars t)%list.
Proof.
  unfold PyStr.chars. induction s as [| c s IH]; simpl.
  - reflexivity.
  - now rewrite IH.
Qed.

Lemma of_chars_chars (s : string) : PyStr.of_chars (PyStr.chars s) = s.
Proof. apply string_of_list_ascii_of_string. Qed.

Lemma endswith_app (s suffix : string) :
  PyStr.endswith (s ++ suffix) suffix = true.
Proof.
  unfold PyStr.endswith. rewrite chars_app, length_app.
  apply andb_true_intro. split.
  - apply Nat.leb_le. lia.
  - replace (length (PyStr.chars s) + length (PyStr.chars suffix)
             - length (PyStr.chars suffix))%nat
      with (length (PyStr.chars s) + 0)%nat by lia.
    rewrite skipn_app, Nat.add_0_r, skipn_all.
    replace (length (PyStr.chars s) - length (PyStr.chars s))%nat with 0%nat
      by lia.
    simpl. rewrite of_chars_chars. apply String.eqb_refl.
Qed.

Lemma slice_to_minus_app (s suffix : string) :
  PyStr.slice_to_minus (length (PyStr.chars suffix)) (s ++ suffix) = s.
Proof.
  unfold PyStr.slice_to_minus. rewrite chars_app, length_app.
  replace (length (PyStr.chars s) + length (PyStr.chars suffix)
           - length (PyStr.chars suffix))%nat
    with (length (PyStr.chars s) + 0)%nat by lia.
  rewrite firstn_app_2. simpl. rewrite app_nil_r. apply of_chars_chars.
Qed.

Lemma mem_In (x : string) (l : list string) : mem x l = true <-> In x l.
Proof.
  unfold mem. rewrite existsb_exists. split.
  - intros (y & Hy & E). apply String.eqb_eq in E. now subst.
  - intros H. exists x. split; [assumption | apply String.eqb_refl].
Qed.

(** ** Time buckets: flooring to a multiple of [N] minutes *)

Lemma div_mod_small (q r d : Z) :
  0 <= r < d -> (q * d + r) / d = q /\ (q * d + r) mod d = r.
Proof.
  intros Hr. assert (Hd : d <> 0) by lia. split.
  - rewrite Z.div_add_l by assumption. rewrite Z.div_small by assumption. lia.
  - rewrite Z.add_comm, Z.mod_add by assumption. now apply Z.mod_small.
Qed.

Lemma ts_minute_range (t : datetime) : 0 <= ts_minute t < 60.
Proof. unfold ts_minute. apply Z.mod_pos_bound. lia. Qed.

Lemma ts_hour_range (t : datetime) : 0 <= ts_hour t < 24.
Proof. unfold ts_hour. apply Z.mod_pos_bound. lia. Qed.

(** Truncating division floors a minute-of-hour to a multiple of [N]. *)
Lemma quot_floor (m N : Z) :
  0 <= m -> 1 <= N ->
  0 <= Z.quot m N * N <= m /\ (N | Z.quot m N * N).
Proof.
  intros Hm HN. rewrite Z.quot_div_nonneg by lia. split.
  - split.
    + apply Z.mul_nonneg_nonneg; [apply Z.div_pos |]; lia.
    + rewrite Z.mul_comm. apply Z.mul_div_le. lia.
  - exists (m / N). reflexivity.
Qed.

(** The timestamp that the minute bucket denotes keeps the date and the hour
    and has the floored minute. *)
Lemma minute_bucket_fields (t N : Z) :
  1 <= N ->
  let k := Z.quot (ts_minute t) N * N in
  let b := ts_date t * 86400 + 3600 * ts_hour t + 60 * k in
  ts_minute b = k /\ ts_hour b = ts_hour t /\ ts_date b = ts_date t.
Proof.
  intros HN k b.
  pose proof (ts_minute_range t) as Hm.
  pose proof (ts_hour_range t) as Hh.
  destruct (quot_floor (ts_minute t) N) as [Hk _]; [lia | lia |].
  fold k in Hk. repeat split.
  - unfold ts_minute at 1.
    replace b with ((ts_date t * 1440 + 60 * ts_hour t + k) * 60 + 0)
      by (unfold b; ring).
    destruct (div_mod_small (ts_date t * 1440 + 60 * ts_hour t + k) 0 60)
      as [E _]; [lia |]. rewrite E.
    replace (ts_date t * 1440 + 60 * ts_hour t + k)
      with ((ts_date t * 24 + ts_hour t) * 60 + k) by ring.
    apply div_mod_small. lia.
  - unfold ts_hour at 1.
    replace b with ((ts_date t * 24 + ts_hour t) * 3600 + 60 * k)
      by (unfold b; ring).
    destruct (div_mod_small (ts_date t * 24 + ts_hour t) (60 * k) 3600)
      as [E _]; [lia |]. rewrite E.
    apply div_mod_small. lia.
  - unfold ts_date at 1.
    replace b with (ts_date t * 86400 + (3600 * ts_hour t + 60 * k))
      by (unfold b; ring).
    apply div_mod_small. lia.
Qed.

(** What [_ts_col_rounded_to_minutes] returns, and its value on a row. *)
Lemma ts_col_rounded_to_minutes_eval (self : Database)
    (table_name : string) (schema : option string) (a : Table)
    (column_name label : string) (minutes : Z) (r : row) (t : datetime)
    (lg : log) :
  reflect self table_name schema = Some a ->
  mem column_name (tbl_c a) = true ->
  minutes <> 0 ->
  r (tbl_name a) column_name = VTimestamp t ->
  exists e,
    _ts_col_rounded_to_minutes self table_name schema column_name minutes
      label lg = (Ok e, lg)
    /\ expr_key e = Some label
    /\ eval r e =
       Some (VTimestamp (ts_date t * 86400 + 3600 * ts_hour t
                         + 60 * (Z.quot (ts_minute t) minutes * minutes))).
Proof.
  intros Hrefl Hcol Hnz Hrow.
  unfold _ts_col_rounded_to_minutes, bind, get_table, item, getitem, ret.
  rewrite Hrefl, Hcol. eexists. split; [reflexivity |]. split; [reflexivity |].
  simpl. rewrite Hrow. simpl.
  destruct (Z.eqb_spec minutes 0) as [E | _]; [contradiction |].
  reflexivity.
Qed.

(** C7. For a grain [<N>min] with [1 <= N <= 60] and [N] dividing 60, the
    time-grain block of [query_agg] groups by one bucket expression, labelled
    with the timestamp column; on a row with timestamp [t] that expression
    is a timestamp [b] whose minute-of-hour is [(minute t / N) * N] by
    integer division: a multiple of [N] that does not exceed the
    minute-of-hour of [t], with the date and the hour of [t]. *)
Theorem minute_bucket_floors (self : Database) (table_name : string)
    (schema : option string) (table : Table) (timestamp s : string)
    (N : Z) (r : row) (t : datetime) (lg : log) :
  reflect self table_name schema = Some table ->
  mem timestamp (tbl_c table) = true ->
  PyStr.int s = Some N ->
  1 <= N <= 60 -> (N | 60) ->
  s ++ "min" <> timestamp ->
  r (tbl_name table) timestamp = VTimestamp t ->
  exists e b,
    query_agg_time_grain self table table_name schema (Some timestamp)
      (Some (s ++ "min")) lg = (Ok ([e], None), lg)
    /\ expr_key e = Some timestamp
    /\ eval r e = Some (VTimestamp b)
    /\ ts_minute b = ts_minute t / N * N
    /\ (N | ts_minute b)
    /\ ts_minute b <= ts_minute t
    /\ ts_hour b = ts_hour t
    /\ ts_date b = ts_date t.
Proof.
  intros Hrefl Hcol Hint [HN _] _ Hne Hrow.
  destruct (ts_col_rounded_to_minutes_eval self table_name schema table
              timestamp timestamp N r t lg Hrefl Hcol ltac:(lia) Hrow)
    as (e & He & Hkey & Hev).
  destruct (minute_bucket_fields t N ltac:(lia)) as (Hm & Hh & Hd).
  destruct (quot_floor (ts_minute t) N) as [Hk Hdiv];
    [apply ts_minute_range | lia |].
  eexists e, _. split; [| split; [exact Hkey | split; [exact Hev |]]].
  - unfold query_agg_time_grain.
    apply String.eqb_neq in Hne. rewrite Hne.
    rewrite endswith_app.
    change 3%nat with (length (PyStr.chars "min")).
    rewrite slice_to_minus_app.
    unfold int. rewrite Hint. unfold bind at 1. unfold ret at 1.
    unfold bind. rewrite He. reflexivity.
  - rewrite Hm, Hh, Hd.
    pose proof (ts_minute_range t) as Hr.
    rewrite <- (Z.quot_div_nonneg (ts_minute t) N) by lia.
    repeat split; try assumption; lia.
Qed.

(** ** Inversion of successful planner runs *)

Lemma item_ok (t : Table) (col : string) (e : expr) (lg lg' : log) :
  item t col lg = (Ok e, lg') ->
  e = Column (tbl_name t) col /\ mem col (tbl_c t) = true /\ lg' = lg.
Proof.
  unfold item, getitem. destruct (mem col (tbl_c t)); intros H.
  - now inversion H.
  - discriminate.
Qed.

Lemma deviceid_ok (t : Table) (e : expr) (lg lg' : log) :
  deviceid t lg = (Ok e, lg') ->
  e = Column (tbl_name t) "deviceid" /\ lg' = lg.
Proof.
  unfold deviceid, getitem. destruct (mem "deviceid" (tbl_c t)); intros H.
  - now inversion H.
  - discriminate.
Qed.

Lemma get_table_ok (self : Database) (table_name : string)
    (schema : option string) (t : Table) (lg lg' : log) :
  get_table self table_name schema lg = (Ok t, lg') ->
  reflect self table_name schema = Some t /\ lg' = lg.
Proof.
  unfold get_table. destruct (reflect self table_name schema); intros H.
  - now inversion H.
  - discriminate.
Qed.

Ltac ok_inv :=
  match goal with
  | H : ret _ _ = (Ok _, _) |- _ =>
      unfold ret in H; inversion H; subst; clear H
  | H : raise _ _ = (Ok _, _) |- _ => discriminate H
  | H : item _ _ _ = (Ok _, _) |- _ =>
      apply item_ok in H; destruct H as (? & ? & ?); subst
  | H : deviceid _ _ = (Ok _, _) |- _ =>
      apply deviceid_ok in H; destruct H as (? & ?); subst
  | H : get_table _ _ _ _ = (Ok _, _) |- _ =>
      apply get_table_ok in H; destruct H as (? & ?); subst
  | H : bind _ _ _ = (Ok _, _) |- _ => bind_inv H
  | H : (let '(_, _) := ?p in _) _ = (Ok _, _) |- _ => destruct p
  | H : (match ?x with _ => _ end) _ = (Ok _, _) |- _ => destruct x eqn:?
  end.

(** ** [query]: which filters it applies *)

(** One date bound of [query]: [cmp] is [Ge] for [start_ts] and [Lt] for
    [end_ts]. *)
Lemma date_filter_ok (cmp : expr -> datetime -> clause) (msg : string)
    (table : Table) (timestamp_col : option string) (bound : option datetime)
    (q0 q1 : Query) (lg lg' : log) :
  match bound with
  | None => ret q0
  | Some v =>
      match timestamp_col with
      | None => raise (ValueError msg)
      | Some timestamp_col =>
          col <- item table timestamp_col ;; ret (filter q0 (cmp col v))
      end
  end lg = (Ok q1, lg') ->
  q_filter q1 =
    (q_filter q0 ++
     match bound with
     | Some v => [cmp (Column (tbl_name table) (PyStr.str timestamp_col)) v]
     | None => []
     end)%list
  /\ (bound <> None -> timestamp_col <> None).
Proof.
  intros H. destruct bound as [v |]; repeat ok_inv.
  - split; [reflexivity | discriminate].
  - rewrite app_nil_r. split; [reflexivity | congruence].
Qed.

Lemma entities_filter_ok (table : Table) (entities : option (list string))
    (q0 q1 : Query) (lg lg' : log) :
  match entities with
  | None => ret q0
  | Some entities =>
      col <- deviceid table ;; ret (filter q0 (In_ col entities))
  end lg = (Ok q1, lg') ->
  q_filter q1 =
    (q_filter q0 ++
     match entities with
     | Some es => [In_ (Column (tbl_name table) "deviceid") es]
     | None => []
     end)%list.
Proof.
  intros H. destruct entities; repeat ok_inv.
  - reflexivity.
  - now rewrite app_nil_r.
Qed.

(** The filters of a plain query are the date range and the entity set that
    were asked for, in this order, on the columns of the main table; a date
    bound needs the timestamp column. *)
Lemma query_filter (self : Database) (table_name : string)
    (schema : option string) (column_names : option names)
    (timestamp_col : option string) (start_ts end_ts : option datetime)
    (entities : option (list string)) (dimension : option string)
    (q : Query) (table : Table) (lg lg' : log) :
  query self table_name schema column_names timestamp_col start_ts end_ts
    entities dimension lg = (Ok (q, table), lg') ->
  q_filter q =
    ((match start_ts with
      | Some v => [Ge (Column (tbl_name table) (PyStr.str timestamp_col)) v]
      | None => []
      end)
     ++ (match end_ts with
         | Some v => [Lt (Column (tbl_name table) (PyStr.str timestamp_col)) v]
         | None => []
         end)
     ++ (match entities with
         | Some es => [In_ (Column (tbl_name table) "deviceid") es]
         | None => []
         end))%list
  /\ reflect self table_name schema = Some table
  /\ (start_ts <> None \/ end_ts <> None -> timestamp_col <> None).
Proof.
  unfold query. intros H.
  bind_inv H. apply get_table_ok in Hstep as [Hrefl ->].
  bind_inv H. rename a0 into dim. clear Hstep.
  bind_inv H. rename a0 into query_args. clear Hstep.
  bind_inv H. rename a0 into q0.
  assert (Hq0 : q_filter q0 = []).
  { clear H. destruct dim; repeat ok_inv; reflexivity. }
  clear Hstep.
  bind_inv H. rename a0 into q1. apply date_filter_ok in Hstep as [H1 H1'].
  bind_inv H. rename a0 into q2. apply date_filter_ok in Hstep as [H2 H2'].
  bind_inv H. rename a0 into q3. apply entities_filter_ok in Hstep.
  apply ret_inv in H as [E _]. inversion E; subst; clear E.
  rewrite Hstep, H2, H1, Hq0. simpl. rewrite <- app_assoc.
  split; [reflexivity |]. split; [assumption |]. intros [Hs | He]; auto.
Qed.

(** ** Aggregate items and the not-null condition *)

Lemma aggregate_item_ok (table : Table) (column_name aggregate : string)
    (alias_column : option string) (dimension_table : option Table)
    (timestamp_col : option string) (e : expr) (lg lg' : log) :
  _aggregate_item table column_name aggregate alias_column dimension_table
    timestamp_col lg = (Ok e, lg') ->
  exists f col,
    agg_map aggregate = Some f
    /\ table_or_dimension table dimension_table column_name = Some col
    /\ e = Label (Func1 f col)
             (aggregate_alias column_name aggregate alias_column timestamp_col)
    /\ lg' = lg.
Proof.
  unfold _aggregate_item, table_or_dimension. intros H.
  destruct (agg_map aggregate) as [f |]; [| discriminate].
  destruct (getitem table column_name) as [col |].
  - inversion H; subst. now exists f, col.
  - destruct dimension_table as [d |]; [| discriminate].
    destruct (getitem d column_name) as [col |]; [| discriminate].
    inversion H; subst. now exists f, col.
Qed.

Lemma is_not_null_lookup (table : Table) (dimension_table : option Table)
    (column : string) (lg : log) :
  _is_not_null table dimension_table column lg =
  match table_or_dimension table dimension_table column with
  | Some col => (Ok (IsNot_None col), lg)
  | None =>
      (Raise (ValueError ("Column " ++ column
                ++ " not found on time series or dimension table.")), lg)
  end.
Proof.
  unfold _is_not_null, table_or_dimension.
  destruct (getitem table column); [reflexivity |].
  destruct dimension_table as [d |]; [| reflexivity].
  now destruct (getitem d column).
Qed.

(** What the loop over [agg_dict] leaves in [metric_filter]: one IS NOT NULL
    condition for every key, in dictionary order, on the column of that
    name in the table or else in the dimension. Every key is such a
    column. *)
Lemma query_agg_item_loop (table : Table) (dim : option Table)
    (agg_outputs : option (list (string * list string)))
    (timestamp : option string) (agg_dict : list (string * aggs))
    (args0 args : list expr) (mf0 metric_filter : list clause)
    (lg lg' : log) :
  for_each agg_dict (query_agg_item table dim agg_outputs timestamp)
    (args0, mf0) lg = (Ok (args, metric_filter), lg') ->
  exists cols,
    map (table_or_dimension table dim) (map fst agg_dict) = map Some cols
    /\ metric_filter = (mf0 ++ map IsNot_None cols)%list.
Proof.
  revert args0 mf0 lg. induction agg_dict as [| [col aggs] rest IH];
    intros args0 mf0 lg H.
  - simpl in H. apply ret_inv in H as [E _]. inversion E; subst.
    exists []. simpl. now rewrite app_nil_r.
  - simpl in H. bind_inv H. destruct a as [args1 mf1].
    bind_inv Hstep. bind_inv Hstep.
    rewrite is_not_null_lookup in Hstep1.
    destruct (table_or_dimension table dim col) as [c |] eqn:Hc;
      [| discriminate].
    injection Hstep1 as <- <-. apply ret_inv in Hstep as [E ->].
    inversion E; subst; clear E.
    apply IH in H as (cols & Hmap & ->).
    exists (c :: cols). simpl. rewrite Hc, Hmap, <- app_assoc.
    split; reflexivity.
Qed.

Lemma query_agg_items_ok (table : Table) (dim : option Table)
    (agg_outputs : option (list (string * list string)))
    (timestamp : option string) (agg_dict : list (string * aggs))
    (args : list expr) (metric_filter : list clause)
    (lg lg' : log) :
  query_agg_items table dim agg_dict agg_outputs timestamp lg
    = (Ok (args, metric_filter), lg') ->
  exists cols,
    map (table_or_dimension table dim) (map fst agg_dict) = map Some cols
    /\ metric_filter = map IsNot_None cols.
Proof. apply query_agg_item_loop. Qed.

(** ** The anatomy of a successful [query_agg] *)

Lemma silent_item (t : Table) (col : string) : silent (item t col).
Proof. unfold item. silence. Qed.

Lemma silent_deviceid (t : Table) : silent (deviceid t).
Proof. unfold deviceid. silence. Qed.

Lemma silent_get_table (self : Database) (table_name : string)
    (schema : option string) : silent (get_table self table_name schema).
Proof. unfold get_table. silence. Qed.

#[export] Hint Resolve silent_item silent_deviceid silent_get_table : silent.

Lemma silent_get_dimension (self : Database) (dimension schema : option string) :
  silent (get_dimension self dimension schema).
Proof. unfold get_dimension. silence. Qed.

#[export] Hint Resolve silent_get_dimension : silent.

Lemma silent_query (self : Database) (table_name : string)
    (schema : option string) (column_names : option names)
    (timestamp_col : option string) (start_ts end_ts : option datetime)
    (entities : option (list string)) (dimension : option string) :
  silent (query self table_name schema column_names timestamp_col start_ts
            end_ts entities dimension).
Proof. unfold query. silence. Qed.

Lemma silent_int (s : string) : silent (int s).
Proof. unfold int. silence. Qed.

Lemma silent_query_agg_time_grain (self : Database) (table : Table)
    (table_name : string) (schema timestamp time_grain : option string) :
  silent (query_agg_time_grain self table table_name schema timestamp
            time_grain).
Proof.
  unfold query_agg_time_grain, _ts_col_rounded_to_minutes,
    _ts_col_rounded_to_hours.
  pose proof silent_int. silence.
Qed.

Lemma silent_query_agg_groupby (table : Table) (dim : option Table)
    (dimension : option string) (groupby : list string) (grp : list expr) :
  silent (query_agg_groupby table dim dimension groupby grp).
Proof. unfold query_agg_groupby, groupby_column. silence. Qed.

#[export] Hint Resolve silent_query silent_query_agg_time_grain
  silent_query_agg_groupby : silent.

Lemma get_dimension_ok (self : Database) (dimension schema : option string)
    (dim : option Table) (lg lg' : log) :
  get_dimension self dimension schema lg = (Ok dim, lg') ->
  dimension = None <-> dim = None.
Proof.
  unfold get_dimension. intros H. destruct dimension; repeat ok_inv.
  - split; discriminate.
  - split; reflexivity.
Qed.

(** A run of [query_agg] that returns went through its stages; the returned
    query carries the not-null condition as its last filter: the only filter
    on the push-down path, and after the filters of [query] on the pandas
    path. Only the loop over [agg_dict] may log. *)
Lemma query_agg_ok (self : Database) (table_name : string)
    (schema : option string) (agg_dict : list (string * aggs))
    (agg_outputs : option (list (string * list string)))
    (groupby : option names) (timestamp time_grain dimension : option string)
    (start_ts end_ts : option datetime) (entities : option (list string))
    (q : Query) (table : Table) (dim : option Table)
    (pandas_aggregate : option string) (ad : list (string * aggs))
    (lg lg' : log) :
  query_agg self table_name schema agg_dict agg_outputs groupby timestamp
    time_grain dimension start_ts end_ts entities lg
    = (Ok (q, table, dim, pandas_aggregate, ad), lg') ->
  exists args metric_filter grp0 grp,
    reflect self table_name schema = Some table
    /\ (dimension = None <-> dim = None)
    /\ query_agg_items table dim agg_dict agg_outputs timestamp lg
       = (Ok (args, metric_filter), lg')
    /\ query_agg_time_grain self table table_name schema timestamp time_grain
         lg' = (Ok (grp0, pandas_aggregate), lg')
    /\ query_agg_groupby table dim dimension
         match groupby with
         | None => []
         | Some groupby => as_list groupby
         end grp0 lg' = (Ok grp, lg')
    /\ ad = agg_dict
    /\ match pandas_aggregate with
       | None =>
           q_entities q = map Entity_expr (args ++ grp)
           /\ q_group_by q = grp
           /\ q_filter q = [or_ metric_filter]
       | Some _ =>
           exists q0,
             query self table_name schema None timestamp start_ts end_ts
               entities dimension lg' = (Ok (q0, table), lg')
             /\ q = filter q0 (or_ metric_filter)
       end.
Proof.
  unfold query_agg. intros H.
  bind_inv_as H table0 l0 Htable.
  apply get_table_ok in Htable as [Hrefl ->].
  bind_inv_as H dim0 l0 Hdim.
  pose proof (silent_get_dimension _ _ _ _ _ _ Hdim) as ->.
  apply get_dimension_ok in Hdim.
  bind_inv_as H items l1 Hitems. destruct items as [args mf].
  bind_inv_as H grain l2 Hgrain. destruct grain as [grp0 pa].
  pose proof (silent_query_agg_time_grain _ _ _ _ _ _ _ _ _ Hgrain) as ->.
  bind_inv_as H grp l3 Hgroup.
  pose proof (silent_query_agg_groupby _ _ _ _ _ _ _ _ Hgroup) as ->.
  bind_inv_as H qt l4 Hq. destruct qt as [q0 table1].
  apply ret_inv in H as [E ->]. inversion E; subst; clear E.
  destruct pandas_aggregate as [freq |].
  - pose proof (silent_query _ _ _ _ _ _ _ _ _ _ _ _ Hq) as ->.
    pose proof Hq as Hq'. apply query_filter in Hq' as (_ & Hrefl' & _).
    assert (table = table0) by congruence. subst table0.
    exists args, mf, grp0, grp. repeat split; try assumption; try apply Hdim.
    exists q0. split; [assumption | reflexivity].
  - assert (table = table0 /\ lg' = l1
            /\ q_entities q0 = map Entity_expr (args ++ grp)
            /\ q_group_by q0 = grp /\ q_filter q0 = []) as (E1 & E2 & He & Hg & Hf).
    { clear Hitems Hgrain Hgroup.
      destruct dimension, dim; repeat ok_inv; repeat split. }
    subst table0 l1. exists args, mf, grp0, grp.
    repeat split; try assumption; try apply Hdim.
    simpl. now rewrite Hf.
Qed.

(** ** The not-null filter *)


(** A key with an empty list of aggregates never reaches [_aggregate_item];
    when it names no column it is [_is_not_null] that raises, a
    [ValueError] where [_aggregate_item] has a [KeyError]. *)
Example not_null_of_unknown_column :
  query_agg sample_db "iot" None [("colour", Agg_list [])] None None None
    None None None None None []
  = (Raise (ValueError "Column colour not found on time series or dimension table."),
     [])
  /\ query_agg sample_db "iot" None [("colour", Agg_str "max")] None None None
       None None None None None []
     = (Raise (KeyError "Aggregate column colour not present in table or on dimension"),
        []).
Proof. split; reflexivity. Qed.


(** ** The equi-join of two queries *)

Lemma sq_name_subquery (self : Database) (q : Query) (name : string) :
  sq_name (subquery self q name) = name.
Proof. reflexivity. Qed.

Lemma sq_element_subquery (self : Database) (q : Query) (name : string) :
  sq_element (subquery self q name) = q.
Proof. reflexivity. Qed.

#[local] Opaque subquery.

Lemma mem_eq_of_In (x : string) (l l' : list string) :
  (In x l <-> In x l') -> mem x l = mem x l'.
Proof.
  intros H. destruct (mem x l) eqn:E, (mem x l') eqn:E'; try reflexivity.
  - apply mem_In, H, mem_In in E. congruence.
  - apply mem_In, H, mem_In in E'. congruence.
Qed.

Lemma sq_item_ok (s : Subquery) (col : string) (e : expr) (lg lg' : log) :
  sq_item s col lg = (Ok e, lg') ->
  e = Column (sq_name s) col /\ In col (sq_c s) /\ lg' = lg.
Proof.
  unfold sq_item. destruct (mem col (sq_c s)) eqn:E; intros H.
  - inversion H; subst. apply mem_In in E. auto.
  - discriminate.
Qed.

(** The loop over [kwargs]: one labelled right-hand column per entry, in
    order, and the aliases collected in [covered_columns]. *)
Lemma projection_loop (right_query : Subquery) (kwargs : list (string * string))
    (pl0 pl : list expr) (cov0 cov : list string) (lg lg' : log) :
  for_each kwargs (fun '(projection_list, covered_columns) '(col, alias) =>
      r <- sq_item right_query col ;;
      ret ((projection_list ++ [Label r alias])%list,
           alias :: covered_columns)) (pl0, cov0) lg = (Ok (pl, cov), lg') ->
  pl = (pl0 ++ map (fun ca => Label (Column (sq_name right_query) (fst ca))
                                (snd ca)) kwargs)%list
  /\ (forall x, In x cov <-> In x (map snd kwargs) \/ In x cov0)
  /\ (forall ca, In ca kwargs -> In (fst ca) (sq_c right_query)).
Proof.
  revert pl0 cov0 lg. induction kwargs as [| [col alias] rest IH];
    intros pl0 cov0 lg H; simpl in H.
  - apply ret_inv in H as [E _]. inversion E; subst. simpl.
    rewrite app_nil_r. repeat split; tauto.
  - bind_inv_as H acc l1 Hbody. destruct acc as [pl1 cov1].
    bind_inv_as Hbody r l2 Hitem.
    apply sq_item_ok in Hitem as (-> & Hin & ->).
    apply ret_inv in Hbody as [E ->]. inversion E; subst; clear E.
    apply IH in H as (Hpl & Hcov & Hright). repeat split.
    + rewrite Hpl, <- app_assoc. reflexivity.
    + intros Hx. apply Hcov in Hx. simpl in *. tauto.
    + intros Hx. apply Hcov. simpl in *. tauto.
    + intros ca [<- | Hca]; [exact Hin | now apply Hright].
Qed.

(** C9. When [subquery_join] returns, its projection is the right-hand
    columns named in [kwargs], each labelled with its alias and in the order
    of [kwargs], followed by the left-hand columns whose name is not one of
    the aliases, in the order of the left query. So a left-hand column that
    no alias overrides is kept, a left-hand column with the name of an alias
    is dropped in favour of the right-hand one, and every column named in
    [kwargs] is a column of the right query. *)
Theorem subquery_join_projection (self : Database)
    (left_query right_query : Query)
    (args : list join_key) (kwargs : list (string * string))
    (sel : Select) (lg lg' : log) :
  subquery_join self left_query right_query args kwargs lg = (Ok sel, lg') ->
  sel_projection sel
  = (map (fun ca => Label (Column "b" (fst ca)) (snd ca)) kwargs
     ++ map (Column "a")
          (List.filter (fun name => negb (mem name (map snd kwargs)))
                       (sq_c (subquery self left_query "a"))))%list
  /\ (forall name,
        In name (sq_c (subquery self left_query "a")) ->
        ~ In name (map snd kwargs) ->
        In (Column "a" name) (sel_projection sel))
  /\ (forall name,
        In name (map snd kwargs) ->
        ~ In (Column "a" name) (sel_projection sel))
  /\ (forall col alias,
        In (col, alias) kwargs ->
        In col (sq_c (subquery self right_query "b"))
        /\ In (Label (Column "b" col) alias) (sel_projection sel)).
Proof.
  unfold subquery_join. intros H.
  destruct (List.find _ kwargs) as [[k v] |]; [discriminate |].
  bind_inv_as H joins l1 Hjoins. clear Hjoins.
  bind_inv_as H acc l2 Hproj. destruct acc as [pl cov].
  apply ret_inv in H as [<- _]. cbn [sel_projection].
  apply projection_loop in Hproj as (-> & Hcov & Hright).
  rewrite !sq_name_subquery in *. cbn [app].
  assert (Hfilter :
    List.filter (fun name => negb (mem name cov))
      (sq_c (subquery self left_query "a"))
    = List.filter (fun name => negb (mem name (map snd kwargs)))
        (sq_c (subquery self left_query "a"))).
  { apply filter_ext. intros name. f_equal. apply mem_eq_of_In.
    rewrite Hcov. simpl. tauto. }
  rewrite Hfilter. split; [reflexivity |]. repeat split.
  - intros name Hleft Hnot. apply in_or_app. right.
    apply in_map. apply filter_In. split; [assumption |].
    apply negb_true_iff. destruct (mem name (map snd kwargs)) eqn:E;
      [| reflexivity]. apply mem_In in E. contradiction.
  - intros name Hin Hproj. apply in_app_or in Hproj as [Hp | Hp].
    + apply in_map_iff in Hp as (ca & E & _). discriminate.
    + apply in_map_iff in Hp as (name' & E & Hf). inversion E; subst.
      apply filter_In in Hf as [_ Hf]. apply negb_true_iff in Hf.
      apply mem_In in Hin. congruence.
  - apply (Hright (col, alias)). assumption.
  - apply in_or_app. left.
    apply (in_map (fun ca => Label (Column "b" (fst ca)) (snd ca)) kwargs
             (col, alias)). assumption.
Qed.

(** ** When the join is built *)

Lemma sq_item_in (s : Subquery) (col : string) (lg : log) :
  In col (sq_c s) -> sq_item s col lg = (Ok (Column (sq_name s) col), lg).
Proof.
  intros H. apply mem_In in H. unfold sq_item. now rewrite H.
Qed.

(** No key of [kwargs] is the name of a parameter. *)
Lemma find_none_iff {A} (p : A -> bool) (l : list A) :
  List.find p l = None <-> forall x, In x l -> p x = false.
Proof.
  split.
  - intros H x Hx. exact (find_none p l H x Hx).
  - induction l as [| y l IH]; intros H; [reflexivity |]. simpl.
    rewrite (H y (or_introl eq_refl)). apply IH. intros x Hx. apply H.
    now right.
Qed.

(** [subquery_join] returns as soon as no key of [kwargs] is the name of one
    of its parameters, every join key is a column on its side and every
    column named in [kwargs] is a column of the right query; it logs
    nothing. *)
Lemma subquery_join_returns (self : Database)
    (left_query right_query : Query)
    (args : list join_key) (kwargs : list (string * string)) (lg : log) :
  (forall ca, In ca kwargs ->
     mem (fst ca) ["self"; "left_query"; "right_query"] = false) ->
  (forall k, In k args ->
     match k with
     | Key col =>
         In col (sq_c (subquery self left_query "a"))
         /\ In col (sq_c (subquery self right_query "b"))
     | KeyPair col0 col1 =>
         In col0 (sq_c (subquery self left_query "a"))
         /\ In col1 (sq_c (subquery self right_query "b"))
     end) ->
  (forall ca, In ca kwargs -> In (fst ca) (sq_c (subquery self right_query "b"))) ->
  exists sel,
    subquery_join self left_query right_query args kwargs lg = (Ok sel, lg).
Proof.
  intros Hres Hargs Hkw. unfold subquery_join.
  apply find_none_iff in Hres. rewrite Hres. clear Hres.
  set (a := subquery self left_query "a") in *.
  set (b := subquery self right_query "b") in *.
  assert (Hjoins : forall joins0, exists joins,
    for_each args (fun joins col =>
      match col with
      | Key col =>
          l <- sq_item a col ;; r <- sq_item b col ;;
          ret (joins ++ [Eq l r])%list
      | KeyPair col0 col1 =>
          l <- sq_item a col0 ;; r <- sq_item b col1 ;;
          ret (joins ++ [Eq l r])%list
      end) joins0 lg = (Ok joins, lg)).
  { clear Hkw. induction args as [| k args IH]; intros joins0; simpl.
    - now exists joins0.
    - pose proof (Hargs k (or_introl eq_refl)) as Hk.
      destruct k as [col | col0 col1]; destruct Hk as [Hl Hr];
        unfold bind at 1; unfold bind at 1;
        rewrite (sq_item_in _ _ _ Hl); unfold bind at 1;
        rewrite (sq_item_in _ _ _ Hr); unfold ret at 1;
        apply IH; intros k' Hk'; apply Hargs; now right. }
  assert (Hproj : forall acc0, exists acc,
    for_each kwargs (fun '(projection_list, covered_columns) '(col, alias) =>
      r <- sq_item b col ;;
      ret ((projection_list ++ [Label r alias])%list,
           alias :: covered_columns)) acc0 lg = (Ok acc, lg)).
  { clear Hjoins Hargs. induction kwargs as [| [col alias] kwargs IH];
      intros [pl cov]; simpl.
    - now exists (pl, cov).
    - pose proof (Hkw (col, alias) (or_introl eq_refl)) as Hc. simpl in Hc.
      unfold bind at 1. unfold bind at 1. rewrite (sq_item_in _ _ _ Hc).
      unfold ret at 1. apply IH. intros ca Hca. apply Hkw. now right. }
  destruct (Hjoins []) as [joins Hj].
  destruct (Hproj ([], [])) as [[pl cov] Hp].
  rewrite (bind_ok _ _ _ _ _ Hj), (bind_ok _ _ _ _ _ Hp).
  eexists. reflexivity.
Qed.

(** ** Group-by columns *)

(** One turn of the loop of [query_agg] over [groupby], for a name [g]. *)
Lemma groupby_column_cases (table : Table) (dim : option Table)
    (dimension : option string) (g : string) (lg : log) :
  (mem g (tbl_c table) = true ->
   groupby_column table dim dimension g lg
   = (Ok (Column (tbl_name table) g), lg))
  /\ (forall d name,
        mem g (tbl_c table) = false ->
        dimension = Some name -> dim = Some d ->
        mem g (tbl_c d) = true ->
        groupby_column table dim dimension g lg
        = (Ok (Column (tbl_name d) g), lg))
  /\ (mem g (tbl_c table) = false ->
      dimension = None ->
      groupby_column table dim dimension g lg
      = (Raise (KeyError ("group by column " ++ g
                  ++ " not found in main table and no dimension table specified")),
         lg))
  /\ (forall d name,
        mem g (tbl_c table) = false ->
        dimension = Some name -> dim = Some d ->
        mem g (tbl_c d) = false ->
        groupby_column table dim dimension g lg
        = (Raise (ValueError ("group by column " ++ g
                    ++ " not found in main table or dimension table")),
           lg)).
Proof.
  unfold groupby_column, getitem. repeat split.
  - intros ->. reflexivity.
  - intros d name -> -> -> ->. reflexivity.
  - intros -> ->. reflexivity.
  - intros d name -> -> -> ->. reflexivity.
Qed.

(** The loop over [groupby] takes the names in order: the columns of the
    names that resolve are appended to [grp], and the first name that does
    not resolve ends the loop with its exception. *)
Lemma query_agg_groupby_app (table : Table) (dim : option Table)
    (dimension : option string) (names rest : list string)
    (grp : list expr) (lg : log) :
  (forall g, In g names ->
     exists e, groupby_column table dim dimension g lg = (Ok e, lg)) ->
  exists es,
    Forall2 (fun g e => groupby_column table dim dimension g lg = (Ok e, lg))
      names es
    /\ query_agg_groupby table dim dimension (names ++ rest) grp lg
       = query_agg_groupby table dim dimension rest (grp ++ es) lg.
Proof.
  revert grp. induction names as [| g names IH]; intros grp Hall.
  - exists []. split; [constructor |]. simpl. now rewrite app_nil_r.
  - destruct (Hall g (or_introl eq_refl)) as [e He].
    destruct (IH (grp ++ [e])%list) as (es & Hes & Hrun).
    { intros g' Hg'. apply Hall. now right. }
    exists (e :: es). split; [now constructor |].
    unfold query_agg_groupby in *. simpl.
    unfold bind at 1. unfold bind at 1. rewrite He. unfold ret at 1.
    rewrite Hrun, <- app_assoc. reflexivity.
Qed.

Lemma query_agg_groupby_raise (table : Table) (dim : option Table)
    (dimension : option string) (names rest : list string) (g : string)
    (grp : list expr) (e : exn) (lg : log) :
  (forall g, In g names ->
     exists e, groupby_column table dim dimension g lg = (Ok e, lg)) ->
  groupby_column table dim dimension g lg = (Raise e, lg) ->
  query_agg_groupby table dim dimension (names ++ g :: rest) grp lg
  = (Raise e, lg).
Proof.
  intros Hall Hg.
  destruct (query_agg_groupby_app table dim dimension names (g :: rest) grp lg
              Hall) as (es & _ & ->).
  unfold query_agg_groupby. simpl. unfold bind. now rewrite Hg.
Qed.

(** The exception of the group-by loop is the outcome of [query_agg] once
    the aggregates and the time grain went through. *)
Lemma query_agg_groupby_error (self : Database) (table_name : string)
    (schema : option string) (agg_dict : list (string * aggs))
    (agg_outputs : option (list (string * list string)))
    (groupby : option names) (timestamp time_grain dimension : option string)
    (start_ts end_ts : option datetime) (entities : option (list string))
    (table : Table) (dim : option Table) (args grp0 : list expr)
    (metric_filter : list clause) (pandas_aggregate : option string)
    (e : exn) (lg lg1 : log) :
  get_table self table_name schema lg = (Ok table, lg) ->
  get_dimension self dimension schema lg = (Ok dim, lg) ->
  query_agg_items table dim agg_dict agg_outputs timestamp lg
    = (Ok (args, metric_filter), lg1) ->
  query_agg_time_grain self table table_name schema timestamp time_grain lg1
    = (Ok (grp0, pandas_aggregate), lg1) ->
  query_agg_groupby table dim dimension
    match groupby with
    | None => []
    | Some groupby => as_list groupby
    end grp0 lg1 = (Raise e, lg1) ->
  query_agg self table_name schema agg_dict agg_outputs groupby timestamp
    time_grain dimension start_ts end_ts entities lg = (Raise e, lg1).
Proof.
  intros Ht Hd Hi Hg Hgb. unfold query_agg.
  rewrite (bind_ok _ _ _ _ _ Ht), (bind_ok _ _ _ _ _ Hd),
    (bind_ok _ _ _ _ _ Hi), (bind_ok _ _ _ _ _ Hg).
  now apply bind_raise.
Qed.

(** A name resolves in the fact table first and in the dimension table
    otherwise; the turn of the loop returns the column it resolves to. *)
Lemma groupby_column_resolved (table : Table) (dim : option Table)
    (dimension : option string) (g : string) (c : expr) (lg : log) :
  (dimension = None <-> dim = None) ->
  table_or_dimension table dim g = Some c ->
  groupby_column table dim dimension g lg = (Ok c, lg).
Proof.
  intros Hdim. unfold table_or_dimension, groupby_column.
  destruct (getitem table g) as [e |]; [now intros [= ->] |].
  destruct dim as [d |]; [| discriminate].
  destruct dimension as [name |];
    [| destruct Hdim as [Hdim _]; now specialize (Hdim eq_refl)].
  destruct (getitem d g) as [e |]; [now intros [= ->] | discriminate].
Qed.

Lemma groupby_column_unresolved (table : Table) (dim : option Table)
    (dimension : option string) (g : string) (lg : log) :
  (dimension = None <-> dim = None) ->
  table_or_dimension table dim g = None ->
  groupby_column table dim dimension g lg
  = (Raise
       match dim with
       | None =>
           KeyError ("group by column " ++ g
             ++ " not found in main table and no dimension table specified")
       | Some _ =>
           ValueError ("group by column " ++ g
             ++ " not found in main table or dimension table")
       end, lg).
Proof.
  intros Hdim. unfold table_or_dimension, groupby_column.
  destruct (getitem table g) as [e |]; [discriminate |].
  destruct dim as [d |].
  - destruct dimension as [name |];
      [| destruct Hdim as [Hdim _]; now specialize (Hdim eq_refl)].
    destruct (getitem d g) as [e |]; [discriminate | reflexivity].
  - destruct dimension as [name |]; [| reflexivity].
    destruct Hdim as [_ Hdim]. now specialize (Hdim eq_refl).
Qed.

(** The loop over names that all resolve appends their columns. *)
Lemma query_agg_groupby_resolved (table : Table) (dim : option Table)
    (dimension : option string) (names : list string) (cols grp : list expr)
    (lg : log) :
  (dimension = None <-> dim = None) ->
  map (table_or_dimension table dim) names = map Some cols ->
  query_agg_groupby table dim dimension names grp lg
  = (Ok (grp ++ cols)%list, lg).
Proof.
  intros Hdim. revert cols grp.
  induction names as [| g names IH]; intros [| c cols] grp Hmap;
    try discriminate.
  - simpl. now rewrite app_nil_r.
  - simpl in Hmap. injection Hmap as Hg Hmap.
    unfold query_agg_groupby in *. simpl.
    unfold bind at 1. unfold bind at 1.
    rewrite (groupby_column_resolved _ _ _ _ _ _ Hdim Hg).
    unfold ret at 1. rewrite (IH cols _ Hmap), <- app_assoc. reflexivity.
Qed.

(** C10. The group-by names passed to [query_agg], in a call whose tables,
    aggregates and time grain go through (the same call without [groupby]
    returns). When every name is a column of the fact table or else of the
    dimension table, the call returns, and on the push-down path the query
    groups by the columns the names resolve to, after the time bucket, and
    selects them last: the fact-table column for a name the fact table has,
    whether or not the dimension has it too, and the dimension column for
    the others. The first name that is in neither table fails the call:
    with [KeyError] when no dimension is supplied, with [ValueError] when
    one is, two different classes of exception. *)
Theorem groupby_column_resolution (self : Database) (table_name : string)
    (schema : option string) (agg_dict : list (string * aggs))
    (agg_outputs : option (list (string * list string)))
    (timestamp time_grain dimension : option string)
    (start_ts end_ts : option datetime) (entities : option (list string))
    (q0 : Query) (table : Table) (dim : option Table)
    (pandas_aggregate : option string) (ad : list (string * aggs))
    (lg lg' : log) :
  query_agg self table_name schema agg_dict agg_outputs None timestamp
    time_grain dimension start_ts end_ts entities lg
    = (Ok (q0, table, dim, pandas_aggregate, ad), lg') ->
  let resolve g :=
    if mem g (tbl_c table) then Some (Column (tbl_name table) g)
    else match dim with
         | Some d =>
             if mem g (tbl_c d) then Some (Column (tbl_name d) g) else None
         | None => None
         end in
  (dimension = None <-> dim = None)
  /\ (forall groupby cols,
        map resolve (as_list groupby) = map Some cols ->
        exists q,
          query_agg self table_name schema agg_dict agg_outputs (Some groupby)
            timestamp time_grain dimension start_ts end_ts entities lg
          = (Ok (q, table, dim, pandas_aggregate, ad), lg')
          /\ (pandas_aggregate = None ->
              q_group_by q = (q_group_by q0 ++ cols)%list
              /\ q_entities q = (q_entities q0 ++ map Entity_expr cols)%list
              /\ q_join q = q_join q0 /\ q_filter q = q_filter q0)
          /\ (pandas_aggregate <> None -> q = q0))
  /\ (forall groupby known g later,
        as_list groupby = (known ++ g :: later)%list ->
        (forall x, In x known -> resolve x <> None) ->
        resolve g = None ->
        query_agg self table_name schema agg_dict agg_outputs (Some groupby)
          timestamp time_grain dimension start_ts end_ts entities lg
        = (Raise
             match dimension with
             | None =>
                 KeyError ("group by column " ++ g
                   ++ " not found in main table and no dimension table specified")
             | Some _ =>
                 ValueError ("group by column " ++ g
                   ++ " not found in main table or dimension table")
             end, lg'))
  /\ (forall msg msg', KeyError msg <> ValueError msg').
Proof.
  intros H0 resolve.
  assert (Hresolve : forall g, resolve g = table_or_dimension table dim g).
  { intros g. unfold resolve, table_or_dimension, getitem.
    destruct (mem g (tbl_c table)); [reflexivity |].
    now destruct dim. }
  pose proof H0 as Hrun. unfold query_agg in Hrun.
  bind_inv_as Hrun table0 l0 Htable.
  pose proof Htable as Htable'. apply get_table_ok in Htable' as [Hrefl ->].
  bind_inv_as Hrun dim0 l0 Hdim.
  pose proof (silent_get_dimension _ _ _ _ _ _ Hdim) as ->.
  pose proof (get_dimension_ok _ _ _ _ _ _ Hdim) as Hdd.
  bind_inv_as Hrun items l1 Hitems. destruct items as [args mf].
  bind_inv_as Hrun grain l2 Hgrain. destruct grain as [grp0 pa].
  pose proof (silent_query_agg_time_grain _ _ _ _ _ _ _ _ _ Hgrain) as ->.
  bind_inv_as Hrun grp l3 Hgroup.
  cbn in Hgroup. apply ret_inv in Hgroup as [<- <-].
  bind_inv_as Hrun qt l4 Hq. destruct qt as [q0' table1].
  apply ret_inv in Hrun as [E ->]. inversion E; subst; clear E.
  assert (Hsame : table0 = table /\ lg' = l1).
  { destruct pandas_aggregate as [freq |].
    - pose proof (silent_query _ _ _ _ _ _ _ _ _ _ _ _ Hq) as ->.
      pose proof Hq as Hq'. apply query_filter in Hq' as (_ & Hrefl' & _).
      split; congruence.
    - clear - Hq. destruct dimension, dim; repeat ok_inv; split; reflexivity. }
  destruct Hsame as [-> ->].
  split; [exact Hdd |]. split; [| split; [| discriminate]].
  - intros groupby cols Hcols.
    rewrite (map_ext _ _ Hresolve) in Hcols.
    pose proof (query_agg_groupby_resolved table dim dimension
                  (as_list groupby) cols grp0 l1 Hdd Hcols) as Hloop.
    unfold query_agg.
    rewrite (bind_ok _ _ _ _ _ Htable), (bind_ok _ _ _ _ _ Hdim),
      (bind_ok _ _ _ _ _ Hitems), (bind_ok _ _ _ _ _ Hgrain).
    cbv zeta. rewrite (bind_ok _ _ _ _ _ Hloop).
    destruct pandas_aggregate as [freq |].
    + rewrite (bind_ok _ _ _ _ _ Hq). eexists. split; [reflexivity |].
      split; [discriminate | reflexivity].
    + destruct dimension as [name |].
      * destruct dim as [d |]; [| discriminate Hq].
        bind_inv_as Hq l l2 Hl. bind_inv_as Hq r l3 Hr.
        pose proof (silent_deviceid _ _ _ _ Hl) as ->.
        pose proof (silent_deviceid _ _ _ _ Hr) as ->.
        apply ret_inv in Hq as [E _]. inversion E; subst; clear E.
        unfold bind at 1. unfold bind at 1. rewrite Hl.
        unfold bind at 1. rewrite Hr. cbn.
        eexists. split; [reflexivity |].
        split; [| intros C; now contradiction C].
        intros _. cbn. rewrite !map_app, <- !app_assoc. repeat split.
      * apply ret_inv in Hq as [E _]. inversion E; subst; clear E. cbn.
        eexists. split; [reflexivity |].
        split; [| intros C; now contradiction C].
        intros _. cbn. rewrite !map_app, <- !app_assoc. repeat split.
  - intros groupby known g later Hnames Hknown Hg.
    rewrite Hresolve in Hg.
    eapply (query_agg_groupby_error self table_name schema _
              agg_outputs (Some groupby) timestamp time_grain dimension
              start_ts end_ts entities table dim args grp0 mf
              pandas_aggregate _ lg l1);
      [exact Htable | exact Hdim | exact Hitems | exact Hgrain |].
    rewrite Hnames. apply query_agg_groupby_raise.
    + intros x Hx. specialize (Hknown x Hx). rewrite Hresolve in Hknown.
      destruct (table_or_dimension table dim x) as [c |] eqn:Hc;
        [| contradiction].
      exists c. now apply groupby_column_resolved.
    + rewrite (groupby_column_unresolved _ _ _ _ _ Hdd Hg).
      destruct dimension as [name |], dim as [d |]; try reflexivity.
      * destruct Hdd as [_ Hdd]. now specialize (Hdd eq_refl).
      * destruct Hdd as [Hdd _]. now specialize (Hdd eq_refl).
Qed.

(** ** Default aliases of aggregate items *)

(** The alias that [_aggregate_item] gives, case by case. An aggregate of the
    timestamp column other than [min] and [max] formats the still unset
    [alias_column], so its alias starts with [None]. *)
Lemma aggregate_alias_cases (column_name aggregate timestamp : string) :
  (forall alias ts,
     aggregate_alias column_name aggregate (Some alias) ts = alias)
  /\ aggregate_alias timestamp "min" None (Some timestamp)
     = "first_" ++ timestamp
  /\ aggregate_alias timestamp "max" None (Some timestamp)
     = "last_" ++ timestamp
  /\ (aggregate <> "min" -> aggregate <> "max" ->
      aggregate_alias timestamp aggregate None (Some timestamp)
      = "None_" ++ timestamp)
  /\ (column_name <> timestamp ->
      aggregate_alias column_name aggregate None (Some timestamp)
      = column_name)
  /\ aggregate_alias column_name aggregate None None = column_name.
Proof.
  unfold aggregate_alias. simpl. rewrite String.eqb_refl. repeat split.
  - intros Hmin Hmax. apply String.eqb_neq in Hmin, Hmax.
    now rewrite Hmin, Hmax.
  - intros Hne. apply String.eqb_neq in Hne. now rewrite Hne.
Qed.

(** C2. Counting the timestamp column of the sample table without an alias:
    the item is labelled [None_evt_timestamp], where an alias made of the
    aggregate and the timestamp column would read [count_evt_timestamp]. *)
Theorem aggregate_item_count_of_timestamp :
  _aggregate_item iot "evt_timestamp" "count" None None (Some "evt_timestamp") []
  = (Ok (Label (Func1 f_count (Column "iot" "evt_timestamp"))
           "None_evt_timestamp"), [])
  /\ "None_evt_timestamp" <> "count" ++ "_" ++ "evt_timestamp".
Proof. split; [reflexivity | discriminate]. Qed.

(** ** Date and entity filters of [query_agg] *)

(** A push-down query has the not-null condition as its only filter,
    whatever [start_ts], [end_ts] and [entities] are. *)
Lemma query_agg_pushdown_filter (self : Database) (table_name : string)
    (schema : option string) (agg_dict : list (string * aggs))
    (agg_outputs : option (list (string * list string)))
    (groupby : option names) (timestamp time_grain dimension : option string)
    (start_ts end_ts : option datetime) (entities : option (list string))
    (q : Query) (table : Table) (dim : option Table)
    (ad : list (string * aggs)) (lg lg' : log) :
  query_agg self table_name schema agg_dict agg_outputs groupby timestamp
    time_grain dimension start_ts end_ts entities lg
    = (Ok (q, table, dim, None, ad), lg') ->
  exists metric_filter, q_filter q = [or_ metric_filter].
Proof.
  intros H. apply query_agg_ok in H
    as (args & mf & grp0 & grp & _ & _ & _ & _ & _ & _ & _ & _ & Hf).
  now exists mf.
Qed.

(** A pandas (fallback) query has the date and entity filters that were
    asked for, then the not-null condition. *)
Lemma query_agg_fallback_filter (self : Database) (table_name : string)
    (schema : option string) (agg_dict : list (string * aggs))
    (agg_outputs : option (list (string * list string)))
    (groupby : option names) (timestamp time_grain dimension : option string)
    (start_ts end_ts : option datetime) (entities : option (list string))
    (q : Query) (table : Table) (dim : option Table) (freq : string)
    (ad : list (string * aggs)) (lg lg' : log) :
  query_agg self table_name schema agg_dict agg_outputs groupby timestamp
    time_grain dimension start_ts end_ts entities lg
    = (Ok (q, table, dim, Some freq, ad), lg') ->
  exists metric_filter,
    q_filter q =
      ((match start_ts with
        | Some v => [Ge (Column (tbl_name table) (PyStr.str timestamp)) v]
        | None => []
        end)
       ++ (match end_ts with
           | Some v => [Lt (Column (tbl_name table) (PyStr.str timestamp)) v]
           | None => []
           end)
       ++ (match entities with
           | Some es => [In_ (Column (tbl_name table) "deviceid") es]
           | None => []
           end)
       ++ [or_ metric_filter])%list.
Proof.
  intros H. apply query_agg_ok in H
    as (args & mf & grp0 & grp & _ & _ & _ & _ & _ & _ & q0 & Hq0 & ->).
  apply query_filter in Hq0 as (Hf & _ & _).
  exists mf. simpl. rewrite Hf, <- !app_assoc. reflexivity.
Qed.

(** C1. On the sample table, a mean of [temp] per day between two dates and
    for one device: the query that comes back has the not-null condition as
    its only filter, so neither date bound nor the device list is applied.
    The same date range without any timestamp column comes back as a query
    too, where the pandas path of the same request (grain [W-MON]) applies
    all three filters. *)
Theorem query_agg_pushdown_drops_filters :
  (exists q,
     query_agg sample_db "iot" None [("temp", Agg_str "mean")] None None
       (Some "evt_timestamp") (Some "day") None (Some 100) (Some 200)
       (Some ["d1"]) []
     = (Ok (q, iot, None, None, [("temp", Agg_str "mean")]), [])
     /\ q_filter q = [or_ [IsNot_None (Column "iot" "temp")]])
  /\ (exists q,
        query_agg sample_db "iot" None [("temp", Agg_str "mean")] None None
          None None None (Some 100) (Some 200) None []
        = (Ok (q, iot, None, None, [("temp", Agg_str "mean")]), [])
        /\ q_filter q = [or_ [IsNot_None (Column "iot" "temp")]])
  /\ (exists q,
        query_agg sample_db "iot" None [("temp", Agg_str "mean")] None None
          (Some "evt_timestamp") (Some "W-MON") None (Some 100) (Some 200)
          (Some ["d1"]) []
        = (Ok (q, iot, None, Some "W-MON", [("temp", Agg_str "mean")]), [])
        /\ q_filter q
           = [Ge (Column "iot" "evt_timestamp") 100;
              Lt (Column "iot" "evt_timestamp") 200;
              In_ (Column "iot" "deviceid") ["d1"];
              or_ [IsNot_None (Column "iot" "temp")]]).
Proof.
  repeat split; eexists; (split; [reflexivity | reflexivity]).
Qed.

(** ** Missing output names *)

(** With an alias table at hand, a missing alias never raises: the name is
    the one at position [i] of the column's list when there is one, and
    otherwise the default [<column>_<aggregate>] with one warning logged. *)
Lemma output_item_with_table (agg_outputs : list (string * list string))
    (col agg : string) (i : nat) (lg : log) :
  (exists output,
     dict_get agg_outputs col = Some output
     /\ exists name, nth_error output i = Some name
     /\ output_item (Some agg_outputs) col i agg lg = (Ok name, lg))
  \/ ((dict_get agg_outputs col = None
       \/ exists output,
            dict_get agg_outputs col = Some output
            /\ (length output <= i)%nat)
      /\ output_item (Some agg_outputs) col i agg lg
         = (Ok (col ++ "_" ++ agg),
            (lg ++ [("No output item name specified for " ++ col ++ ", "
                     ++ agg ++ ". Using default.")%string])%list)).
Proof.
  unfold output_item. destruct (dict_get agg_outputs col) as [output |].
  - destruct (nth_error output i) as [name |] eqn:E.
    + left. exists output. split; [reflexivity |]. now exists name.
    + right. split; [| reflexivity]. right. exists output.
      split; [reflexivity |]. now apply nth_error_None.
  - right. split; [now left | reflexivity].
Qed.

(** C3. The minimum and maximum of [pressure] on the sample table with no
    alias table at all: [query_agg] raises the [TypeError] of subscripting
    [None], and nothing is logged. With an alias table that is one alias
    short the query comes back, the missing alias is [pressure_max] and one
    warning is logged. *)
Theorem query_agg_without_alias_table :
  query_agg sample_db "iot" None [("pressure", Agg_list ["min"; "max"])] None
    None None None None None None None []
  = (Raise (TypeError "'NoneType' object is not subscriptable"), [])
  /\ exists q,
       query_agg sample_db "iot" None [("pressure", Agg_list ["min"; "max"])]
         (Some [("pressure", ["pmin"])]) None None None None None None None []
       = (Ok (q, iot, None, None, [("pressure", Agg_list ["min"; "max"])]),
          ["No output item name specified for pressure, max. Using default."])
       /\ q_entities q
          = [Entity_expr (Label (Func1 f_min (Column "iot" "pressure")) "pmin");
             Entity_expr (Label (Func1 f_max (Column "iot" "pressure"))
                            "pressure_max")].
Proof.
  split; [reflexivity |]. eexists. split; reflexivity.
Qed.

(** ** The outcomes of the time-grain block *)

(** X25. For a timestamp column of the table, a grain gives one bucket
    expression labelled with the timestamp column and no frequency, or a frequency (the
    grain itself) and no bucket, or, for a grain that ends in [min] or [H]
    without an integer in front, the [ValueError] of [int]. *)
Lemma time_grain_outcomes (self : Database) (table : Table)
    (table_name : string) (schema : option string)
    (timestamp time_grain : string) (lg : log) :
  reflect self table_name schema = Some table ->
  mem timestamp (tbl_c table) = true ->
  (exists e,
     query_agg_time_grain self table table_name schema (Some timestamp)
       (Some time_grain) lg = (Ok ([e], None), lg)
     /\ expr_key e = Some timestamp)
  \/ query_agg_time_grain self table table_name schema (Some timestamp)
       (Some time_grain) lg = (Ok ([], Some time_grain), lg)
  \/ (exists msg,
        query_agg_time_grain self table table_name schema (Some timestamp)
          (Some time_grain) lg = (Raise (ValueError msg), lg)
        /\ (PyStr.endswith time_grain "min" = true
            /\ PyStr.int (PyStr.slice_to_minus 3 time_grain) = None
            \/ PyStr.endswith time_grain "H" = true
               /\ PyStr.int (PyStr.slice_to_minus 1 time_grain) = None)).
Proof.
  intros Hrefl Hcol.
  unfold query_agg_time_grain, _ts_col_rounded_to_minutes,
    _ts_col_rounded_to_hours, int, bind, get_table, item, getitem, ret.
  rewrite Hrefl, Hcol.
  destruct (time_grain =? timestamp); [left; eauto |].
  destruct (PyStr.endswith time_grain "min") eqn:Emin.
  { destruct (PyStr.int (PyStr.slice_to_minus 3 time_grain)) eqn:E.
    - left. eauto.
    - right. right. eexists. split; [reflexivity | now left]. }
  destruct (PyStr.endswith time_grain "H") eqn:EH.
  { destruct (PyStr.int (PyStr.slice_to_minus 1 time_grain)) eqn:E.
    - left. eauto.
    - right. right. eexists. split; [reflexivity | now right]. }
  destruct (time_grain =? "day"); [left; eauto |].
  destruct (time_grain =? "week"); [left; eauto |].
  destruct (time_grain =? "month"); [left; eauto |].
  destruct (time_grain =? "year"); [left; eauto |].
  right. left. reflexivity.
Qed.

(** C4. The grains [H] and [min] on the sample table, with its timestamp
    column: the time-grain block raises the [ValueError] of [int] on an
    empty string, so that [query_agg] gives neither a bucket expression nor
    a frequency. *)
Theorem time_grain_without_number :
  query_agg_time_grain sample_db iot "iot" None (Some "evt_timestamp")
    (Some "H") []
  = (Raise (ValueError "invalid literal for int() with base 10: ''"), [])
  /\ query_agg_time_grain sample_db iot "iot" None (Some "evt_timestamp")
       (Some "min") []
     = (Raise (ValueError "invalid literal for int() with base 10: ''"), [])
  /\ query_agg sample_db "iot" None [("temp", Agg_str "mean")] None None
       (Some "evt_timestamp") (Some "H") None None None None []
     = (Raise (ValueError "invalid literal for int() with base 10: ''"), []).
Proof. repeat split. Qed.

(** ** [query_time_agg]: its two sub-queries and its errors *)

(** The group-by loop only appends to [grp]. *)
Lemma query_agg_groupby_prefix (table : Table) (dim : option Table)
    (dimension : option string) (groupby : list string)
    (grp0 grp : list expr) (lg lg' : log) :
  query_agg_groupby table dim dimension groupby grp0 lg = (Ok grp, lg') ->
  exists es, grp = (grp0 ++ es)%list /\ length es = length groupby.
Proof.
  unfold query_agg_groupby. revert grp0 lg.
  induction groupby as [| g l IH]; intros grp0 lg H; simpl in H.
  - apply ret_inv in H as [<- _]. exists []. now rewrite app_nil_r.
  - bind_inv_as H acc l1 Hg. bind_inv_as Hg e l2 He.
    apply ret_inv in Hg as [<- ->].
    apply IH in H as (es & -> & Hlen). exists (e :: es).
    rewrite <- app_assoc. simpl. auto.
Qed.

(** The regular rollup of [query_time_agg] is asked with the timestamp
    column as its time grain, so it groups by the timestamp as it is and
    never comes back as a pandas aggregate: the check that follows it never
    fires. *)
Lemma query_agg_raw_timestamp_grain (self : Database) (table_name : string)
    (schema : option string) (agg_dict : list (string * aggs))
    (agg_outputs : option (list (string * list string)))
    (groupby : option names) (timestamp : string) (dimension : option string)
    (start_ts end_ts : option datetime) (entities : option (list string))
    (q : Query) (table : Table) (dim : option Table)
    (pandas_aggregate : option string) (ad : list (string * aggs))
    (lg lg' : log) :
  query_agg self table_name schema agg_dict agg_outputs groupby
    (Some timestamp) (Some timestamp) dimension start_ts end_ts entities lg
    = (Ok (q, table, dim, pandas_aggregate, ad), lg') ->
  pandas_aggregate = None
  /\ exists grp,
       q_group_by q
       = (Label (Column (tbl_name table) timestamp) timestamp :: grp).
Proof.
  intros H. apply query_agg_ok in H
    as (args & mf & grp0 & grp & _ & _ & _ & Hgrain & Hgroup & _ & Hq).
  unfold query_agg_time_grain in Hgrain. rewrite String.eqb_refl in Hgrain.
  bind_inv_as Hgrain col l1 Hcol. apply item_ok in Hcol as (-> & _ & _).
  apply ret_inv in Hgrain as [E _]. inversion E; subst; clear E.
  split; [reflexivity |]. destruct Hq as (_ & -> & _).
  apply query_agg_groupby_prefix in Hgroup as (es & -> & _). now exists es.
Qed.

(** A time aggregate other than [first] and [last] is refused as soon as the
    regular rollup is built. *)
Lemma query_time_agg_invalid (self : Database) (table_name : string)
    (schema : option string) (column : string) (regular_agg : aggs)
    (time_agg : string) (groupby : option names) (timestamp : string)
    (time_grain dimension : option string) (start_ts end_ts : option datetime)
    (entities : option (list string))
    (r : Query * Table * option Table * option string * list (string * aggs))
    (lg lg' : log) :
  time_agg <> "first" -> time_agg <> "last" ->
  query_agg self table_name schema [(column, regular_agg)] None
    (option_map Names (option_map as_list groupby)) (Some timestamp)
    (Some timestamp) dimension start_ts end_ts entities lg = (Ok r, lg') ->
  query_time_agg self table_name schema column regular_agg time_agg groupby
    timestamp time_grain dimension start_ts end_ts entities lg
  = (Raise (ValueError ("Invalid time aggregate " ++ time_agg ++ ". Use "
              ++ dquote ++ "first" ++ dquote ++ " or "
              ++ dquote ++ "last" ++ dquote)), lg').
Proof.
  intros Hf Hl H. unfold query_time_agg.
  destruct r as [[[[q table] dim] pa] ad].
  pose proof (query_agg_raw_timestamp_grain _ _ _ _ _ _ _ _ _ _ _ _ _ _ _ _
                _ _ H) as [-> _].
  rewrite (bind_ok _ _ _ _ _ H). simpl.
  apply String.eqb_neq in Hf, Hl. rewrite Hf, Hl. reflexivity.
Qed.

(** C5. The last timestamp per week ([W-MON]) next to the sum of [energy]
    per site, on the sample table: the second sub-query comes back as a
    pandas aggregate and [query_time_agg] goes on to [subquery_join], which
    raises [KeyError] on the column [last_evt_timestamp] that a plain query
    on the table does not have; no [ValueError] refuses the fallback plan.
    On a table that has a column of that name the join is built and
    returned. *)
Theorem query_time_agg_joins_fallback_plan :
  (exists q,
     query_agg sample_db "iot" None [("evt_timestamp", Agg_str "max")] None
       (Some (Names ["site"])) (Some "evt_timestamp") (Some "W-MON") None
       None None None []
     = (Ok (q, iot, None, Some "W-MON", [("evt_timestamp", Agg_str "max")]),
        []))
  /\ query_time_agg sample_db "iot" None "energy" (Agg_str "sum") "last"
       (Some (Names ["site"])) "evt_timestamp" (Some "W-MON") None None None
       None []
     = (Raise (KeyError "last_evt_timestamp"), [])
  /\ exists sel,
       query_time_agg sample_db "iot_state" None "energy" (Agg_str "sum")
         "last" (Some (Names ["site"])) "evt_timestamp" (Some "W-MON") None
         None None None []
       = (Ok (sel, iot_state), [])
       /\ q_entities (sq_element (sel_right sel)) = [Entity_table iot_state]
       /\ q_group_by (sq_element (sel_right sel)) = [].
Proof.
  split; [eexists; reflexivity |]. split; [reflexivity |].
  eexists. repeat split.
Qed.

(** C6. The sum of [energy] with the last [evt_timestamp] per day and per
    [site], on the sample table. The plan is not the one the specification
    words: the regular rollup is grouped by the timestamp as it is, not by
    its day bucket, and the join equates the raw timestamp of the left with
    [last_evt_timestamp] of the right. The two sub-queries also drop
    different rows: the regular rollup those without [energy], the
    last-timestamp rollup those without [evt_timestamp]. On two readings of
    a site on one day the plan returns one row, whose [energy] is that of
    the last reading (7) and not the sum of the day (12); when the last
    reading of the day has no [energy], it returns no row at all for that
    site and day, although an earlier reading has one. *)
Theorem time_agg_day_loses_rows :
  exists sel,
    query_time_agg sample_db "iot" None "energy" (Agg_str "sum") "last"
      (Some (Names ["site"])) "evt_timestamp" (Some "day") None None None None
      [] = (Ok (sel, iot), [])
    /\ ~ spec_joined_on_bucket
           (Label (Func1 f_day (Column "iot" "evt_timestamp")) "evt_timestamp")
           "evt_timestamp" ["site"] sel
    /\ q_group_by (sq_element (sel_left sel))
       = [Label (Column "iot" "evt_timestamp") "evt_timestamp";
          Column "iot" "site"]
    /\ q_filter (sq_element (sel_left sel))
       = [or_ [IsNot_None (Column "iot" "energy")]]
    /\ q_filter (sq_element (sel_right sel))
       = [or_ [IsNot_None (Column "iot" "evt_timestamp")]]
    /\ run_select [reading 100 "s1" (VInt 5); reading 200 "s1" (VInt 7)] sel
       = Some [[("last_evt_timestamp", VTimestamp 200);
                ("evt_timestamp", VInt 1); ("energy", VInt 7);
                ("site", VStr "s1")]]
    /\ run_select [reading 100 "s1" (VInt 5); reading 200 "s1" VNull] sel
       = Some [].
Proof.
  eexists. split; [vm_compute; reflexivity |].
  split; [| repeat split].
  unfold spec_joined_on_bucket. intros [_ H]. vm_compute in H. discriminate H.
Qed.

(** ** The theorems at work on the sample database *)

#[local] Transparent subquery.

(** A quarter-hour bucket at 12:37:05 of day 19358: minute 30 of hour 12. *)
Lemma minute_bucket_floors_witness :
  reflect sample_db "iot" None = Some iot
  /\ mem "evt_timestamp" (tbl_c iot) = true
  /\ PyStr.int "15" = Some 15
  /\ 1 <= 15 <= 60 /\ (15 | 60)
  /\ "15" ++ "min" <> "evt_timestamp"
  /\ exists e b,
       query_agg_time_grain sample_db iot "iot" None (Some "evt_timestamp")
         (Some "15min") [] = (Ok ([e], None), [])
       /\ eval (sample_row 1672576625 VNull) e = Some (VTimestamp b)
       /\ ts_minute b = 30 /\ ts_hour b = 12 /\ ts_date b = 19358.
Proof.
  assert (Hdiv : (15 | 60)) by (exists 4; reflexivity).
  assert (Hne : "15" ++ "min" <> "evt_timestamp") by discriminate.
  repeat (split; [first [reflexivity | lia | assumption] |]).
  destruct (minute_bucket_floors sample_db "iot" None iot "evt_timestamp" "15"
              15 (sample_row 1672576625 VNull) 1672576625 []
              eq_refl eq_refl eq_refl ltac:(lia) Hdiv Hne eq_refl)
    as (e & b & Hrun & _ & Hev & Hm & _ & _ & Hh & Hd).
  exists e, b. repeat split; assumption.
Defined.


(** Energy totals per site joined to the last timestamp per site; and the
    same when the total has no label, under the name made up for it. *)
Lemma subquery_join_projection_witness :
  (exists sel,
     subquery_join sample_db left_rollup right_rollup [Key "site"]
       [("last_evt_timestamp", "last_evt_timestamp")] [] = (Ok sel, [])
     /\ sel_projection sel
        = [Label (Column "b" "last_evt_timestamp") "last_evt_timestamp";
           Column "a" "site"; Column "a" "total_energy"])
  /\ exists sel,
       subquery_join sample_db unnamed_rollup right_rollup [Key "site"]
         [("last_evt_timestamp", "last_evt_timestamp")] [] = (Ok sel, [])
       /\ sel_projection sel
          = [Label (Column "b" "last_evt_timestamp") "last_evt_timestamp";
             Column "a" "site"; Column "a" "sum_1"].
Proof.
  split.
  - assert (Hrun : exists sel,
              subquery_join sample_db left_rollup right_rollup [Key "site"]
                [("last_evt_timestamp", "last_evt_timestamp")] []
              = (Ok sel, []))
      by (eexists; vm_compute; reflexivity).
    destruct Hrun as [sel Hrun]. exists sel. split; [exact Hrun |].
    rewrite (proj1 (subquery_join_projection sample_db left_rollup
                      right_rollup [Key "site"]
                      [("last_evt_timestamp", "last_evt_timestamp")] sel []
                      [] Hrun)).
    vm_compute. reflexivity.
  - assert (Hrun : exists sel,
              subquery_join sample_db unnamed_rollup right_rollup [Key "site"]
                [("last_evt_timestamp", "last_evt_timestamp")] []
              = (Ok sel, []))
      by (eexists; vm_compute; reflexivity).
    destruct Hrun as [sel Hrun]. exists sel. split; [exact Hrun |].
    rewrite (proj1 (subquery_join_projection sample_db unnamed_rollup
                      right_rollup [Key "site"]
                      [("last_evt_timestamp", "last_evt_timestamp")] sel []
                      [] Hrun)).
    vm_compute. reflexivity.
Defined.

(** The mean of [temp] with a dimension: [site] is a fact column, [region]
    a dimension column, [colour] is on neither table; and without a
    dimension. *)
Lemma groupby_column_resolution_witness :
  exists q0 q1,
    query_agg sample_db "iot" None [("temp", Agg_str "mean")] None None None
      None (Some "iot_dimension") None None None []
    = (Ok (q0, iot, Some iot_dimension, None, [("temp", Agg_str "mean")]), [])
    /\ query_agg sample_db "iot" None [("temp", Agg_str "mean")] None None None
         None None None None None []
       = (Ok (q1, iot, None, None, [("temp", Agg_str "mean")]), [])
    /\ (exists q,
          query_agg sample_db "iot" None [("temp", Agg_str "mean")] None
            (Some (Names ["site"; "region"])) None None (Some "iot_dimension")
            None None None []
          = (Ok (q, iot, Some iot_dimension, None, [("temp", Agg_str "mean")]),
             [])
          /\ q_group_by q
             = (q_group_by q0
                ++ [Column "iot" "site"; Column "iot_dimension" "region"])%list)
    /\ query_agg sample_db "iot" None [("temp", Agg_str "mean")] None
         (Some (Names ["site"; "colour"; "region"])) None None
         (Some "iot_dimension") None None None []
       = (Raise (ValueError "group by column colour not found in main table or dimension table"),
          [])
    /\ query_agg sample_db "iot" None [("temp", Agg_str "mean")] None
         (Some (Name "region")) None None None None None None []
       = (Raise (KeyError "group by column region not found in main table and no dimension table specified"),
          []).
Proof.
  assert (Hrun0 : exists q0,
            query_agg sample_db "iot" None [("temp", Agg_str "mean")] None
              None None None (Some "iot_dimension") None None None []
            = (Ok (q0, iot, Some iot_dimension, None,
                   [("temp", Agg_str "mean")]), []))
    by (eexists; reflexivity).
  assert (Hrun1 : exists q1,
            query_agg sample_db "iot" None [("temp", Agg_str "mean")] None
              None None None None None None None []
            = (Ok (q1, iot, None, None, [("temp", Agg_str "mean")]), []))
    by (eexists; reflexivity).
  destruct Hrun0 as [q0 Hrun0]. destruct Hrun1 as [q1 Hrun1].
  exists q0, q1. split; [exact Hrun0 |]. split; [exact Hrun1 |].
  pose proof (groupby_column_resolution sample_db "iot" None
                [("temp", Agg_str "mean")] None None None
                (Some "iot_dimension") None None None q0 iot
                (Some iot_dimension) None [("temp", Agg_str "mean")] [] []
                Hrun0) as H0.
  pose proof (groupby_column_resolution sample_db "iot" None
                [("temp", Agg_str "mean")] None None None None None None None
                q1 iot None None [("temp", Agg_str "mean")] [] [] Hrun1)
    as H1.
  cbv zeta in H0, H1.
  destruct H0 as (_ & Hres0 & Hmiss0 & _). destruct H1 as (_ & _ & Hmiss1 & _).
  split; [| split].
  - destruct (Hres0 (Names ["site"; "region"])
                [Column "iot" "site"; Column "iot_dimension" "region"]
                eq_refl) as (q & Hq & Hpush & _).
    exists q. split; [exact Hq |]. now apply Hpush.
  - apply (Hmiss0 (Names ["site"; "colour"; "region"]) ["site"] "colour"
             ["region"] eq_refl).
    + intros x [<- | []]. discriminate.
    + reflexivity.
  - apply (Hmiss1 (Name "region") [] "region" [] eq_refl).
    + intros x [].
    + reflexivity.
Defined.

(* ================================================================== *)
(** * Further properties of the planner *)
(* ================================================================== *)

(** ** Hour buckets *)

(** A suffix of a string that ends in [x] is empty or ends in [x]. *)
Lemma skipn_snoc {A} (k : nat) (l : list A) (x : A) :
  skipn k (l ++ [x])%list = []
  \/ exists l', skipn k (l ++ [x])%list = (l' ++ [x])%list.
Proof.
  revert k. induction l as [| y l IH]; intros [| k]; simpl.
  - right. now exists [].
  - left. now destruct k.
  - right. now exists (y :: l).
  - apply IH.
Qed.

Lemma endswith_min_after_H (s : string) :
  PyStr.endswith (s ++ "H") "min" = false.
Proof.
  unfold PyStr.endswith. apply andb_false_iff. right.
  apply String.eqb_neq. intros E.
  apply (f_equal PyStr.chars) in E. unfold PyStr.chars, PyStr.of_chars in E.
  rewrite list_ascii_of_string_of_list_ascii in E.
  fold (PyStr.chars (s ++ "H")) in E. rewrite chars_app in E.
  change (PyStr.chars "H") with ["H"%char] in E.
  match type of E with
  | skipn ?n _ = _ =>
      destruct (skipn_snoc n (PyStr.chars s) "H"%char) as [E' | [l' E']];
        rewrite E' in E; simpl in E
  end.
  - discriminate.
  - assert (Hlast : last (l' ++ ["H"%char])%list "x"%char = "H"%char)
      by apply last_last.
    rewrite E in Hlast. discriminate.
Qed.

Lemma hour_bucket_fields (t N : Z) :
  1 <= N ->
  let k := Z.quot (ts_hour t) N * N in
  let b := ts_date t * 86400 + 3600 * k in
  ts_hour b = k /\ ts_date b = ts_date t /\ ts_minute b = 0 /\ b mod 60 = 0.
Proof.
  intros HN k b.
  pose proof (ts_hour_range t) as Hh.
  destruct (quot_floor (ts_hour t) N) as [Hk _]; [lia | lia |].
  fold k in Hk. repeat split.
  - unfold ts_hour.
    replace b with ((ts_date t * 24 + k) * 3600 + 0) by (unfold b; ring).
    destruct (div_mod_small (ts_date t * 24 + k) 0 3600) as [E _]; [lia |].
    rewrite E. apply div_mod_small. lia.
  - unfold ts_date at 1.
    replace b with (ts_date t * 86400 + 3600 * k) by reflexivity.
    apply div_mod_small. lia.
  - unfold ts_minute.
    replace b with ((ts_date t * 1440 + 60 * k) * 60 + 0) by (unfold b; ring).
    destruct (div_mod_small (ts_date t * 1440 + 60 * k) 0 60) as [E _];
      [lia |]. rewrite E.
    replace (ts_date t * 1440 + 60 * k) with ((ts_date t * 24 + k) * 60 + 0)
      by ring.
    apply div_mod_small. lia.
  - replace b with ((ts_date t * 1440 + 60 * k) * 60 + 0) by (unfold b; ring).
    apply div_mod_small. lia.
Qed.

(** X1. For a grain [<N>H] with [N >= 1], the time-grain block groups by one
    expression labelled with the timestamp column; on a row with timestamp
    [t] it is the start of an hour [b] on the date of [t], whose hour of the
    day is [(hour t / N) * N]: a multiple of [N] not above the hour of
    [t]. *)
Theorem hour_bucket_floors (self : Database) (table_name : string)
    (schema : option string) (table : Table) (timestamp s : string)
    (N : Z) (r : row) (t : datetime) (lg : log) :
  reflect self table_name schema = Some table ->
  mem timestamp (tbl_c table) = true ->
  PyStr.int s = Some N ->
  1 <= N ->
  s ++ "H" <> timestamp ->
  r (tbl_name table) timestamp = VTimestamp t ->
  exists e b,
    query_agg_time_grain self table table_name schema (Some timestamp)
      (Some (s ++ "H")) lg = (Ok ([e], None), lg)
    /\ expr_key e = Some timestamp
    /\ eval r e = Some (VTimestamp b)
    /\ ts_hour b = ts_hour t / N * N
    /\ (N | ts_hour b)
    /\ ts_hour b <= ts_hour t
    /\ ts_date b = ts_date t
    /\ ts_minute b = 0 /\ b mod 60 = 0
    /\ b <= t.
Proof.
  intros Hrefl Hcol Hint HN Hne Hrow.
  destruct (hour_bucket_fields t N HN) as (Hh & Hd & Hm & Hs).
  destruct (quot_floor (ts_hour t) N) as [Hk Hdiv];
    [apply ts_hour_range | lia |].
  pose proof (ts_hour_range t) as Hr.
  eexists _, (ts_date t * 86400 + 3600 * (Z.quot (ts_hour t) N * N)).
  split; [| split; [| split]].
  - unfold query_agg_time_grain.
    apply String.eqb_neq in Hne. rewrite Hne.
    rewrite endswith_min_after_H, endswith_app.
    change 1%nat with (length (PyStr.chars "H")).
    rewrite slice_to_minus_app.
    unfold int. rewrite Hint. unfold bind at 1. unfold ret at 1.
    unfold _ts_col_rounded_to_hours, bind, get_table, item, getitem, ret.
    rewrite Hrefl, Hcol. reflexivity.
  - reflexivity.
  - simpl. rewrite Hrow. simpl.
    destruct (Z.eqb_spec N 0) as [E | _]; [lia |]. reflexivity.
  - rewrite Hh, Hd, Hm, Hs.
    rewrite <- (Z.quot_div_nonneg (ts_hour t) N) by lia.
    repeat split; try assumption; try lia.
    unfold ts_date, ts_hour in *.
    pose proof (Z.div_mod t 86400 ltac:(lia)) as E1.
    pose proof (Z.mod_pos_bound t 86400 ltac:(lia)) as B1.
    assert (E2 : t / 3600 = (t / 86400) * 24 + (t mod 86400) / 3600).
    { rewrite E1 at 1.
      replace (86400 * (t / 86400) + t mod 86400)
        with ((t / 86400) * 24 * 3600 + t mod 86400) by ring.
      rewrite Z.div_add_l by lia. reflexivity. }
    assert (B2 : 0 <= (t mod 86400) / 3600 < 24).
    { split; [apply Z.div_pos; lia | apply Z.div_lt_upper_bound; lia]. }
    assert (E3 : (t / 3600) mod 24 = (t mod 86400) / 3600).
    { rewrite E2. rewrite Z.add_comm, Z.mod_add by lia.
      apply Z.mod_small. assumption. }
    rewrite E3 in *.
    pose proof (Z.mul_div_le (t mod 86400) 3600 ltac:(lia)). nia.
Qed.

(** ** [query]: projection, join and filters *)

Lemma date_filter_keeps (cmp : expr -> datetime -> clause) (msg : string)
    (table : Table) (timestamp_col : option string) (bound : option datetime)
    (q0 q1 : Query) (lg lg' : log) :
  match bound with
  | None => ret q0
  | Some v =>
      match timestamp_col with
      | None => raise (ValueError msg)
      | Some timestamp_col =>
          col <- item table timestamp_col ;; ret (filter q0 (cmp col v))
      end
  end lg = (Ok q1, lg') ->
  q_entities q1 = q_entities q0 /\ q_group_by q1 = q_group_by q0
  /\ q_join q1 = q_join q0.
Proof. intros H. destruct bound; repeat ok_inv; repeat split. Qed.

Lemma entities_filter_keeps (table : Table) (entities : option (list string))
    (q0 q1 : Query) (lg lg' : log) :
  match entities with
  | None => ret q0
  | Some entities =>
      col <- deviceid table ;; ret (filter q0 (In_ col entities))
  end lg = (Ok q1, lg') ->
  q_entities q1 = q_entities q0 /\ q_group_by q1 = q_group_by q0
  /\ q_join q1 = q_join q0.
Proof. intros H. destruct entities; repeat ok_inv; repeat split. Qed.

(** The loop of [query] over [column_names]. *)
Lemma query_columns_loop (table : Table) (dim : option Table)
    (table_name : string) (names : list string)
    (acc query_args : list entity) (lg lg' : log) :
  for_each names (fun query_args c =>
    match getitem table c with
    | Some e => ret (query_args ++ [Entity_expr e])%list
    | None =>
        match dim with
        | None =>
            raise (AttributeError "'NoneType' object has no attribute 'c'")
        | Some dim =>
            match getitem dim c with
            | Some e => ret (query_args ++ [Entity_expr e])%list
            | None =>
                raise (KeyError ("Unable to find column " ++ c
                         ++ " in table or dimension for entity type "
                         ++ table_name))
            end
        end
    end) acc lg = (Ok query_args, lg') ->
  exists cols,
    map (table_or_dimension table dim) names = map Some cols
    /\ query_args = (acc ++ map Entity_expr cols)%list.
Proof.
  revert acc lg. induction names as [| c names IH]; intros acc lg H;
    simpl in H.
  - apply ret_inv in H as [<- _]. exists []. now rewrite app_nil_r.
  - bind_inv_as H acc1 l1 Hc.
    apply IH in H as (cols & Hmap & Hargs). clear IH.
    destruct (getitem table c) as [e |] eqn:Et.
    + apply ret_inv in Hc as [<- _]. exists (e :: cols). simpl map.
      unfold table_or_dimension at 1. rewrite Et, Hmap, Hargs, <- app_assoc.
      split; reflexivity.
    + destruct dim as [d |]; [| discriminate].
      destruct (getitem d c) as [e |] eqn:Ed; [| discriminate].
      apply ret_inv in Hc as [<- _]. exists (e :: cols). simpl map.
      unfold table_or_dimension at 1. rewrite Et, Ed, Hmap, Hargs, <- app_assoc.
      split; reflexivity.
Qed.

(** A [query] without [column_names]: the whole table and, with a dimension,
    every dimension column but [deviceid]. *)
Lemma query_whole_table (self : Database) (table_name : string)
    (schema : option string) (timestamp_col : option string)
    (start_ts end_ts : option datetime) (entities : option (list string))
    (dimension : option string) (q : Query) (table : Table) (lg lg' : log) :
  query self table_name schema None timestamp_col start_ts end_ts entities
    dimension lg = (Ok (q, table), lg') ->
  exists dim,
    match dimension with
    | None => dim = None
    | Some name => exists d, dim = Some d /\ reflect self name schema = Some d
    end
    /\ q_group_by q = []
    /\ q_entities q
       = Entity_table table
         :: match dim with
            | None => []
            | Some d =>
                map (fun c => Entity_expr (Column (tbl_name d) c))
                  (List.filter (fun c => negb (c =? "deviceid")) (tbl_c d))
            end.
Proof.
  unfold query. intros H.
  bind_inv_as H table0 l0 Htable. apply get_table_ok in Htable as [Hrefl ->].
  bind_inv_as H dim l0 Hdim.
  bind_inv_as H query_args l1 Hargs.
  bind_inv_as H q0 l2 Hjoin.
  bind_inv_as H q1 l3 H1. apply date_filter_keeps in H1 as (E1 & G1 & _).
  bind_inv_as H q2 l4 H2. apply date_filter_keeps in H2 as (E2 & G2 & _).
  bind_inv_as H q3 l5 H3. apply entities_filter_keeps in H3 as (E3 & G3 & _).
  apply ret_inv in H as [E _]. inversion E; subst; clear E.
  assert (Hq0 : q_entities q0 = query_args /\ q_group_by q0 = []).
  { clear Hargs Hdim. destruct dim; repeat ok_inv; repeat split. }
  destruct Hq0 as (Eq0 & Gq0).
  rewrite E3, E2, E1, G3, G2, G1, Eq0, Gq0.
  exists dim. split; [| split; [reflexivity |]].
  - clear Hargs. unfold get_dimension in Hdim.
    destruct dimension as [name |]; repeat ok_inv.
    + eexists. split; [reflexivity | assumption].
    + reflexivity.
  - clear Hdim Hjoin. destruct dim; repeat ok_inv; reflexivity.
Qed.

(** X2. A [query] that returns has no GROUP BY; it is joined to the
    dimension, once and on [deviceid], exactly when a dimension is named.
    Without [column_names] it selects the whole table and, with a dimension,
    every dimension column but [deviceid]; with [column_names] it selects
    the named columns in order, each taken from the table when the table
    has it and from the dimension otherwise. *)
Theorem query_projection (self : Database) (table_name : string)
    (schema : option string) (column_names : option names)
    (timestamp_col : option string) (start_ts end_ts : option datetime)
    (entities : option (list string)) (dimension : option string)
    (q : Query) (table : Table) (lg lg' : log) :
  query self table_name schema column_names timestamp_col start_ts end_ts
    entities dimension lg = (Ok (q, table), lg') ->
  exists dim,
    reflect self table_name schema = Some table
    /\ match dimension with
       | None => dim = None /\ q_join q = []
       | Some name =>
           exists d,
             dim = Some d /\ reflect self name schema = Some d
             /\ q_join q
                = [(d, Eq (Column (tbl_name d) "deviceid")
                          (Column (tbl_name table) "deviceid"))]
       end
    /\ q_group_by q = []
    /\ match column_names with
       | None =>
           q_entities q
           = Entity_table table
             :: match dim with
                | None => []
                | Some d =>
                    map (fun c => Entity_expr (Column (tbl_name d) c))
                      (List.filter (fun c => negb (c =? "deviceid")) (tbl_c d))
                end
       | Some column_names =>
           exists cols,
             map (table_or_dimension table dim) (as_list column_names)
             = map Some cols
             /\ q_entities q = map Entity_expr cols
       end.
Proof.
  unfold query. intros H.
  bind_inv_as H table0 l0 Htable. apply get_table_ok in Htable as [Hrefl ->].
  bind_inv_as H dim l0 Hdim.
  bind_inv_as H query_args l1 Hargs.
  bind_inv_as H q0 l2 Hjoin.
  bind_inv_as H q1 l3 H1. apply date_filter_keeps in H1 as (E1 & G1 & J1).
  bind_inv_as H q2 l4 H2. apply date_filter_keeps in H2 as (E2 & G2 & J2).
  bind_inv_as H q3 l5 H3. apply entities_filter_keeps in H3 as (E3 & G3 & J3).
  apply ret_inv in H as [E _]. inversion E; subst; clear E.
  assert (Hq0 : q_entities q0 = query_args /\ q_group_by q0 = []
                /\ q_join q0
                   = match dim with
                     | None => []
                     | Some d =>
                         [(d, Eq (Column (tbl_name d) "deviceid")
                                 (Column (tbl_name table) "deviceid"))]
                     end).
  { clear Hargs Hdim. destruct dim; repeat ok_inv; repeat split. }
  destruct Hq0 as (Eq0 & Gq0 & Jq0).
  rewrite E3, E2, E1, G3, G2, G1, J3, J2, J1, Eq0, Gq0, Jq0.
  exists dim. split; [assumption |]. split; [| split; [reflexivity |]].
  - clear Hargs. unfold get_dimension in Hdim.
    destruct dimension as [name |]; repeat ok_inv.
    + eexists. repeat split. assumption.
    + split; reflexivity.
  - clear Hdim Hjoin. destruct column_names as [cn |].
    + apply query_columns_loop in Hargs as (cols & Hmap & ->).
      now exists cols.
    + destruct dim; repeat ok_inv; reflexivity.
Qed.

(** X3. The filters of a [query] that returns are, in this order, the lower
    date bound, the upper date bound and the entity list that were given,
    on the timestamp column and on [deviceid] of the main table, and nothing
    else; a date bound is only accepted with a timestamp column. *)
Theorem query_filters (self : Database) (table_name : string)
    (schema : option string) (column_names : option names)
    (timestamp_col : option string) (start_ts end_ts : option datetime)
    (entities : option (list string)) (dimension : option string)
    (q : Query) (table : Table) (lg lg' : log) :
  query self table_name schema column_names timestamp_col start_ts end_ts
    entities dimension lg = (Ok (q, table), lg') ->
  q_filter q =
    ((match start_ts with
      | Some v => [Ge (Column (tbl_name table) (PyStr.str timestamp_col)) v]
      | None => []
      end)
     ++ (match end_ts with
         | Some v => [Lt (Column (tbl_name table) (PyStr.str timestamp_col)) v]
         | None => []
         end)
     ++ (match entities with
         | Some es => [In_ (Column (tbl_name table) "deviceid") es]
         | None => []
         end))%list
  /\ (start_ts <> None \/ end_ts <> None ->
      exists ts, timestamp_col = Some ts /\ mem ts (tbl_c table) = true)
  /\ (entities <> None -> mem "deviceid" (tbl_c table) = true)
  /\ lg' = lg.
Proof.
  intros H. pose proof (silent_query _ _ _ _ _ _ _ _ _ _ _ _ H) as ->.
  pose proof (query_filter _ _ _ _ _ _ _ _ _ _ _ _ _ H) as (Hf & _ & _).
  split; [exact Hf |]. split; [| split; [| reflexivity]].
  - unfold query in H.
    bind_inv_as H table0 l0 Htable. apply get_table_ok in Htable as [_ ->].
    bind_inv_as H dim l0 Hdim. bind_inv_as H query_args l1 Hargs.
    bind_inv_as H q0 l2 Hjoin. bind_inv_as H q1 l3 H1.
    bind_inv_as H q2 l4 H2. bind_inv_as H q3 l5 H3.
    apply ret_inv in H as [E _]. inversion E; subst; clear E.
    clear Hdim Hargs Hjoin H3. intros [Hs | He].
    + clear H2. destruct start_ts; [| contradiction]. repeat ok_inv. eauto.
    + clear H1. destruct end_ts; [| contradiction]. repeat ok_inv. eauto.
  - unfold query in H.
    bind_inv_as H table0 l0 Htable. apply get_table_ok in Htable as [_ ->].
    bind_inv_as H dim l0 Hdim. bind_inv_as H query_args l1 Hargs.
    bind_inv_as H q0 l2 Hjoin. bind_inv_as H q1 l3 H1.
    bind_inv_as H q2 l4 H2. bind_inv_as H q3 l5 H3.
    apply ret_inv in H as [E _]. inversion E; subst; clear E.
    clear Hdim Hargs Hjoin H1 H2. intros He.
    destruct entities; [| contradiction].
    bind_inv_as H3 col l6 Hcol. unfold deviceid, getitem in Hcol.
    destruct (mem "deviceid" (tbl_c table)); [reflexivity | discriminate].
Qed.

(** X4. A date bound without a timestamp column: whenever the same [query]
    without date bounds and entities returns, the query with a lower or an
    upper bound raises [ValueError] (before the entity list is looked at). *)
Theorem query_date_bound_without_timestamp (self : Database)
    (table_name : string) (schema : option string)
    (column_names : option names) (start_ts end_ts : option datetime)
    (entities : option (list string)) (dimension : option string)
    (r : Query * Table) (lg lg' : log) :
  query self table_name schema column_names None None None None dimension lg
    = (Ok r, lg') ->
  start_ts <> None \/ end_ts <> None ->
  query self table_name schema column_names None start_ts end_ts entities
    dimension lg
  = (Raise (ValueError "No timestamp_col provided to query. Must provide a timestamp column if you have a date filter"),
     lg').
Proof.
  unfold query. intros H Hbound.
  bind_inv_as H table l0 Htable. rewrite (bind_ok _ _ _ _ _ Htable).
  bind_inv_as H dim l1 Hdim. rewrite (bind_ok _ _ _ _ _ Hdim).
  bind_inv_as H query_args l2 Hargs. rewrite (bind_ok _ _ _ _ _ Hargs).
  bind_inv_as H q0 l3 Hjoin. rewrite (bind_ok _ _ _ _ _ Hjoin).
  unfold bind, ret in H. inversion H; subst; clear H.
  destruct start_ts as [v |].
  - reflexivity.
  - destruct end_ts as [v |]; [reflexivity |]. destruct Hbound; contradiction.
Qed.

(** X5. A name in [column_names] that is neither a column of the table nor
    of the dimension, after names that are: without a dimension [query]
    raises the [AttributeError] of looking into [None], with a dimension its
    own [KeyError]. *)
Theorem query_unknown_column (self : Database) (table_name : string)
    (schema : option string) (table : Table) (dim : option Table)
    (known later : list string) (c : string)
    (timestamp_col : option string) (start_ts end_ts : option datetime)
    (entities : option (list string)) (dimension : option string)
    (lg : log) :
  reflect self table_name schema = Some table ->
  get_dimension self dimension schema lg = (Ok dim, lg) ->
  (forall x, In x known -> table_or_dimension table dim x <> None) ->
  table_or_dimension table dim c = None ->
  query self table_name schema (Some (Names (known ++ c :: later)))
    timestamp_col start_ts end_ts entities dimension lg
  = (Raise
       match dim with
       | None => AttributeError "'NoneType' object has no attribute 'c'"
       | Some _ =>
           KeyError ("Unable to find column " ++ c
                     ++ " in table or dimension for entity type "
                     ++ table_name)
       end, lg).
Proof.
  intros Hrefl Hdim Hknown Hc. unfold query, get_table. rewrite Hrefl.
  unfold bind at 1. unfold ret at 1.
  rewrite (bind_ok _ _ _ _ _ Hdim).
  apply bind_raise. simpl as_list. rewrite for_each_app.
  assert (Hpre : forall acc, exists acc',
    for_each known (fun query_args c =>
      match getitem table c with
      | Some e => ret (query_args ++ [Entity_expr e])%list
      | None =>
          match dim with
          | None =>
              raise (AttributeError "'NoneType' object has no attribute 'c'")
          | Some dim =>
              match getitem dim c with
              | Some e => ret (query_args ++ [Entity_expr e])%list
              | None =>
                  raise (KeyError ("Unable to find column " ++ c
                           ++ " in table or dimension for entity type "
                           ++ table_name))
              end
          end
      end) acc lg = (Ok acc', lg)).
  { clear Hc. induction known as [| x known IH]; intros acc; simpl.
    - now exists acc.
    - pose proof (Hknown x (or_introl eq_refl)) as Hx.
      unfold table_or_dimension in Hx. unfold bind at 1.
      destruct (getitem table x) as [e |].
      + unfold ret at 1. apply IH. intros y Hy. apply Hknown. now right.
      + destruct dim as [d |]; [| contradiction].
        destruct (getitem d x) as [e |]; [| contradiction].
        unfold ret at 1. apply IH. intros y Hy. apply Hknown. now right. }
  destruct (Hpre []) as [acc' Hrun]. rewrite (bind_ok _ _ _ _ _ Hrun).
  simpl. apply bind_raise. unfold table_or_dimension in Hc.
  destruct (getitem table c); [discriminate |].
  destruct dim as [d |]; [| reflexivity]. now rewrite Hc.
Qed.

(** ** [query_agg]: what the two kinds of plan hold *)

(** X6. A push-down [query_agg] never looks at [start_ts], [end_ts] or
    [entities]: a call that returns without a pandas aggregate returns the
    very same query, tables and log for any other date range and entity
    list. *)
Theorem query_agg_pushdown_ignores_range (self : Database)
    (table_name : string) (schema : option string)
    (agg_dict : list (string * aggs))
    (agg_outputs : option (list (string * list string)))
    (groupby : option names) (timestamp time_grain dimension : option string)
    (start_ts end_ts start_ts' end_ts' : option datetime)
    (entities entities' : option (list string))
    (q : Query) (table : Table) (dim : option Table)
    (ad : list (string * aggs)) (lg lg' : log) :
  query_agg self table_name schema agg_dict agg_outputs groupby timestamp
    time_grain dimension start_ts end_ts entities lg
    = (Ok (q, table, dim, None, ad), lg') ->
  query_agg self table_name schema agg_dict agg_outputs groupby timestamp
    time_grain dimension start_ts' end_ts' entities' lg
    = (Ok (q, table, dim, None, ad), lg').
Proof.
  unfold query_agg. intros H.
  bind_inv_as H table0 l0 Htable. rewrite (bind_ok _ _ _ _ _ Htable).
  bind_inv_as H dim0 l1 Hdim. rewrite (bind_ok _ _ _ _ _ Hdim).
  bind_inv_as H items l2 Hitems. rewrite (bind_ok _ _ _ _ _ Hitems).
  destruct items as [args mf].
  bind_inv_as H grain l3 Hgrain. rewrite (bind_ok _ _ _ _ _ Hgrain).
  destruct grain as [grp0 pa].
  bind_inv_as H grp l4 Hgroup. rewrite (bind_ok _ _ _ _ _ Hgroup).
  destruct pa as [freq |].
  - bind_inv_as H qt l5 Hq. destruct qt as [q0 table1].
    apply ret_inv in H as [E _]. discriminate E.
  - exact H.
Qed.

Lemma time_grain_fallback_inv (self : Database) (table : Table)
    (table_name : string) (schema timestamp time_grain : option string)
    (grp : list expr) (freq : string) (lg lg' : log) :
  query_agg_time_grain self table table_name schema timestamp time_grain lg
    = (Ok (grp, Some freq), lg') ->
  time_grain = Some freq /\ grp = [] /\ timestamp <> None.
Proof.
  unfold query_agg_time_grain. intros H.
  destruct time_grain as [g |]; [| repeat ok_inv].
  destruct timestamp as [ts |]; [| discriminate].
  destruct (g =? ts); [bind_inv H; apply ret_inv in H as [E _]; discriminate |].
  destruct (PyStr.endswith g "min");
    [bind_inv H; bind_inv H; apply ret_inv in H as [E _]; discriminate |].
  destruct (PyStr.endswith g "H");
    [bind_inv H; bind_inv H; apply ret_inv in H as [E _]; discriminate |].
  destruct (g =? "day");
    [bind_inv H; apply ret_inv in H as [E _]; discriminate |].
  destruct (g =? "week");
    [bind_inv H; apply ret_inv in H as [E _]; discriminate |].
  destruct (g =? "month");
    [bind_inv H; apply ret_inv in H as [E _]; discriminate |].
  destruct (g =? "year");
    [bind_inv H; apply ret_inv in H as [E _]; discriminate |].
  apply ret_inv in H as [E _]. inversion E; subst.
  repeat split. discriminate.
Qed.

(** The dimension table that [query_agg] returns is the reflection of the
    dimension name. *)
Lemma query_agg_dimension (self : Database) (table_name : string)
    (schema : option string) (agg_dict : list (string * aggs))
    (agg_outputs : option (list (string * list string)))
    (groupby : option names) (timestamp time_grain dimension : option string)
    (start_ts end_ts : option datetime) (entities : option (list string))
    (q : Query) (table : Table) (dim : option Table)
    (pandas_aggregate : option string) (ad : list (string * aggs))
    (lg lg' : log) :
  query_agg self table_name schema agg_dict agg_outputs groupby timestamp
    time_grain dimension start_ts end_ts entities lg
    = (Ok (q, table, dim, pandas_aggregate, ad), lg') ->
  dim = match dimension with
        | None => None
        | Some name => reflect self name schema
        end.
Proof.
  unfold query_agg. intros H.
  bind_inv_as H table0 l0 Htable.
  bind_inv_as H dim0 l1 Hdim.
  bind_inv_as H items l2 Hitems. destruct items as [args mf].
  bind_inv_as H grain l3 Hgrain. destruct grain as [grp0 pa].
  bind_inv_as H grp l4 Hgroup.
  bind_inv_as H qt l5 Hq. destruct qt as [q0 table1].
  apply ret_inv in H as [E _]. inversion E; subst; clear E.
  clear - Hdim. unfold get_dimension in Hdim.
  destruct dimension as [name |]; repeat ok_inv; congruence.
Qed.

(** X7. A [query_agg] that returns a pandas aggregate returns the time grain
    itself as the frequency, with a query that has no GROUP BY and projects
    no aggregate: it selects the whole table (and the dimension columns but
    [deviceid]), filtered by the date range, the entity list and the
    not-null condition of the aggregated columns, each of which is a column
    of the table or of the dimension, for the caller to resample. *)
Theorem query_agg_fallback_plan (self : Database) (table_name : string)
    (schema : option string) (agg_dict : list (string * aggs))
    (agg_outputs : option (list (string * list string)))
    (groupby : option names) (timestamp time_grain dimension : option string)
    (start_ts end_ts : option datetime) (entities : option (list string))
    (q : Query) (table : Table) (dim : option Table) (freq : string)
    (ad : list (string * aggs)) (lg lg' : log) :
  query_agg self table_name schema agg_dict agg_outputs groupby timestamp
    time_grain dimension start_ts end_ts entities lg
    = (Ok (q, table, dim, Some freq, ad), lg') ->
  time_grain = Some freq
  /\ ad = agg_dict
  /\ q_group_by q = []
  /\ q_entities q
     = Entity_table table
       :: match dim with
          | None => []
          | Some d =>
              map (fun c => Entity_expr (Column (tbl_name d) c))
                (List.filter (fun c => negb (c =? "deviceid")) (tbl_c d))
          end
  /\ exists ts cols,
       timestamp = Some ts
       /\ map (table_or_dimension table dim) (map fst agg_dict) = map Some cols
       /\ q_filter q
          = ((match start_ts with
              | Some v => [Ge (Column (tbl_name table) ts) v]
              | None => []
              end)
             ++ (match end_ts with
                 | Some v => [Lt (Column (tbl_name table) ts) v]
                 | None => []
                 end)
             ++ (match entities with
                 | Some es => [In_ (Column (tbl_name table) "deviceid") es]
                 | None => []
                 end)
             ++ [or_ (map IsNot_None cols)])%list.
Proof.
  intros H. pose proof (query_agg_dimension _ _ _ _ _ _ _ _ _ _ _ _ _ _ _ _
                          _ _ _ H) as Hdim.
  apply query_agg_ok in H
    as (args & mf & grp0 & grp & Hrefl & _ & Hitems & Hgrain & _ & -> & q0
        & Hq0 & ->).
  apply time_grain_fallback_inv in Hgrain as (-> & _ & Hts).
  apply query_agg_items_ok in Hitems as (cols & Hcols & ->).
  pose proof (query_whole_table _ _ _ _ _ _ _ _ _ _ _ _ Hq0)
    as (dim' & Hd & Hg & He).
  pose proof (query_filter _ _ _ _ _ _ _ _ _ _ _ _ _ Hq0) as (Hf & _ & _).
  assert (dim' = dim) as ->.
  { destruct dimension as [name |].
    - destruct Hd as (d & -> & Hd). congruence.
    - now subst. }
  repeat split; try assumption.
  destruct timestamp as [ts |]; [| contradiction].
  exists ts, cols. split; [reflexivity |]. split; [exact Hcols |].
  simpl. rewrite Hf, <- !app_assoc. reflexivity.
Qed.

Lemma agg_map_functions (aggregate : string) (f : sqlfunc) :
  agg_map aggregate = Some f ->
  In f [f_count; f_max; f_avg; f_min; f_std; f_sum].
Proof.
  unfold agg_map. intros H.
  repeat match type of H with
         | (if ?b then _ else _) = _ => destruct b
         end;
    inversion H; subst; simpl; tauto.
Qed.

(** The loop over one list of aggregates appends one labelled aggregate of
    the column per element of the list. *)
Lemma aggregate_list_args (table : Table) (dim : option Table)
    (agg_outputs : option (list (string * list string)))
    (timestamp : option string) (col : string) (aggregates : list string)
    (k : nat) (args args' : list expr) (lg lg' : log) :
  for_each (combine (seq k (length aggregates)) aggregates)
    (fun args '(i, agg) =>
       output <- output_item agg_outputs col i agg ;;
       e <- _aggregate_item table col agg (Some output) dim timestamp ;;
       ret (args ++ [e])%list) args lg = (Ok args', lg') ->
  exists new,
    args' = (args ++ new)%list /\ length new = length aggregates
    /\ Forall (fun e => exists f c alias,
                 e = Label (Func1 f c) alias
                 /\ In f [f_count; f_max; f_avg; f_min; f_std; f_sum]
                 /\ table_or_dimension table dim col = Some c) new.
Proof.
  revert k args lg. induction aggregates as [| agg rest IH];
    intros k args lg H; simpl in H.
  - apply ret_inv in H as [<- _]. exists []. rewrite app_nil_r. auto.
  - bind_inv_as H args1 l1 Hbody. bind_inv_as Hbody output l2 Hout.
    bind_inv_as Hbody e l3 He. apply ret_inv in Hbody as [<- ->].
    apply aggregate_item_ok in He as (f & c & Hf & Hc & -> & _).
    apply IH in H as (new & -> & Hlen & Hall).
    eexists (_ :: new). rewrite <- app_assoc. simpl.
    split; [reflexivity |]. split; [now rewrite Hlen |].
    constructor; [| assumption].
    exists f, c. eexists. split; [reflexivity |].
    split; [now apply agg_map_functions with agg | assumption].
Qed.

(** The aggregates that the loop over [agg_dict] projects: in dictionary
    order, one per aggregate function of each key, each an aggregate
    function applied to a column named by a key and labelled. *)
Lemma query_agg_item_args (table : Table) (dim : option Table)
    (agg_outputs : option (list (string * list string)))
    (timestamp : option string) (agg_dict : list (string * aggs))
    (args0 args : list expr) (mf0 metric_filter : list clause)
    (lg lg' : log) :
  for_each agg_dict (query_agg_item table dim agg_outputs timestamp)
    (args0, mf0) lg = (Ok (args, metric_filter), lg') ->
  exists new,
    args = (args0 ++ new)%list
    /\ length new
       = list_sum (map (fun ca => match snd ca with
                                  | Agg_str _ => 1%nat
                                  | Agg_list l => length l
                                  | Agg_other => 0%nat
                                  end) agg_dict)
    /\ Forall (fun e => exists f c alias col,
                 e = Label (Func1 f c) alias
                 /\ In f [f_count; f_max; f_avg; f_min; f_std; f_sum]
                 /\ In col (map fst agg_dict)
                 /\ table_or_dimension table dim col = Some c) new.
Proof.
  revert args0 mf0 lg. induction agg_dict as [| [col a] rest IH];
    intros args0 mf0 lg H; simpl in H.
  - apply ret_inv in H as [E _]. inversion E; subst. exists [].
    rewrite app_nil_r. auto.
  - bind_inv_as H acc l1 Hbody. destruct acc as [args1 mf1].
    bind_inv_as Hbody args2 l2 Hargs. bind_inv_as Hbody c0 l3 Hnn.
    rewrite is_not_null_lookup in Hnn.
    destruct (table_or_dimension table dim col) as [c1 |] eqn:Hc1;
      [| discriminate].
    injection Hnn as <- <-. apply ret_inv in Hbody as [E ->].
    inversion E; subst; clear E.
    apply IH in H as (new & -> & Hlen & Hall).
    assert (Hhead : exists head,
      args1 = (args0 ++ head)%list
      /\ length head = match a with
                       | Agg_str _ => 1%nat
                       | Agg_list l => length l
                       | Agg_other => 0%nat
                       end
      /\ Forall (fun e => exists f c alias,
                   e = Label (Func1 f c) alias
                   /\ In f [f_count; f_max; f_avg; f_min; f_std; f_sum]
                   /\ table_or_dimension table dim col = Some c) head).
    { destruct a as [agg | l |].
      - bind_inv_as Hargs e l3 He. apply ret_inv in Hargs as [<- _].
        apply aggregate_item_ok in He as (f & c & Hf & Hc & -> & _).
        eexists [_]. split; [reflexivity |]. split; [reflexivity |].
        constructor; [| constructor]. exists f, c. eexists.
        split; [reflexivity |].
        split; [now apply agg_map_functions with agg | assumption].
      - unfold enumerate in Hargs. now apply aggregate_list_args in Hargs.
      - discriminate. }
    destruct Hhead as (head & -> & Hhlen & Hhall).
    exists (head ++ new)%list. rewrite <- app_assoc.
    split; [reflexivity |]. split.
    + rewrite length_app, Hhlen, Hlen. reflexivity.
    + apply Forall_app. split.
      * eapply Forall_impl; [| exact Hhall].
        intros e (f & c & alias & E & Hf & Hc). exists f, c, alias, col.
        simpl. auto.
      * eapply Forall_impl; [| exact Hall].
        intros e (f & c & alias & col' & E & Hf & Hin & Hc).
        exists f, c, alias, col'. simpl. auto.
Qed.

Lemma query_agg_groupby_ok (table : Table) (dim : option Table)
    (dimension : option string) (groupby : list string)
    (grp0 grp : list expr) (lg lg' : log) :
  query_agg_groupby table dim dimension groupby grp0 lg = (Ok grp, lg') ->
  exists cols,
    grp = (grp0 ++ cols)%list
    /\ Forall2 (fun g e => groupby_column table dim dimension g lg = (Ok e, lg))
         groupby cols.
Proof.
  unfold query_agg_groupby. revert grp0 lg.
  induction groupby as [| g l IH]; intros grp0 lg H; simpl in H.
  - apply ret_inv in H as [<- _]. exists []. rewrite app_nil_r.
    split; [reflexivity | constructor].
  - bind_inv_as H acc l1 Hg. bind_inv_as Hg e l2 He.
    apply ret_inv in Hg as [<- ->].
    assert (Hs : silent (groupby_column table dim dimension g))
      by (unfold groupby_column; silence).
    apply Hs in He as Hl. subst l1.
    apply IH in H as (cols & -> & Hall). exists (e :: cols).
    rewrite <- app_assoc. split; [reflexivity |]. now constructor.
Qed.

Lemma time_grain_pushdown_inv (self : Database) (table : Table)
    (table_name : string) (schema timestamp time_grain : option string)
    (grp : list expr) (lg lg' : log) :
  query_agg_time_grain self table table_name schema timestamp time_grain lg
    = (Ok (grp, None), lg') ->
  (time_grain = None /\ grp = [])
  \/ exists ts e,
       time_grain <> None /\ timestamp = Some ts /\ grp = [e]
       /\ expr_key e = Some ts.
Proof.
  unfold query_agg_time_grain, _ts_col_rounded_to_minutes,
    _ts_col_rounded_to_hours. intros H.
  destruct time_grain as [g |]; [| left; repeat ok_inv; auto].
  right. destruct timestamp as [ts |]; [| discriminate].
  exists ts.
  repeat match type of H with
         | (if ?b then _ else _) _ = _ => destruct b
         end;
    repeat ok_inv;
    try (eexists; split; [discriminate |];
         split; [reflexivity |]; split; reflexivity).
Qed.

(** X8. A push-down query of [query_agg] selects, in this order, the
    aggregates (one per aggregate function of each key of [agg_dict], each
    an aggregate function of a column named by a key), then the time bucket
    when a time grain is given (labelled with the timestamp column), then
    the group-by columns; it groups by the bucket and the group-by columns,
    and it is joined to the dimension on [deviceid] exactly when a
    dimension is named. *)
Theorem query_agg_pushdown_plan (self : Database) (table_name : string)
    (schema : option string) (agg_dict : list (string * aggs))
    (agg_outputs : option (list (string * list string)))
    (groupby : option names) (timestamp time_grain dimension : option string)
    (start_ts end_ts : option datetime) (entities : option (list string))
    (q : Query) (table : Table) (dim : option Table)
    (ad : list (string * aggs)) (lg lg' : log) :
  query_agg self table_name schema agg_dict agg_outputs groupby timestamp
    time_grain dimension start_ts end_ts entities lg
    = (Ok (q, table, dim, None, ad), lg') ->
  exists args bucket cols,
    q_entities q = map Entity_expr (args ++ bucket ++ cols)
    /\ q_group_by q = (bucket ++ cols)%list
    /\ length args
       = list_sum (map (fun ca => match snd ca with
                                  | Agg_str _ => 1%nat
                                  | Agg_list l => length l
                                  | Agg_other => 0%nat
                                  end) agg_dict)
    /\ Forall (fun e => exists f c alias col,
                 e = Label (Func1 f c) alias
                 /\ In f [f_count; f_max; f_avg; f_min; f_std; f_sum]
                 /\ In col (map fst agg_dict)
                 /\ table_or_dimension table dim col = Some c) args
    /\ (time_grain = None /\ bucket = []
        \/ exists ts e,
             time_grain <> None /\ timestamp = Some ts /\ bucket = [e]
             /\ expr_key e = Some ts)
    /\ Forall2 (fun g e =>
                  groupby_column table dim dimension g lg' = (Ok e, lg'))
         match groupby with
         | None => []
         | Some groupby => as_list groupby
         end cols
    /\ q_join q
       = match dim with
         | None => []
         | Some d =>
             [(d, Eq (Column (tbl_name d) "deviceid")
                     (Column (tbl_name table) "deviceid"))]
         end.
Proof.
  intros H.
  pose proof (query_agg_ok _ _ _ _ _ _ _ _ _ _ _ _ _ _ _ _ _ _ _ H)
    as (args & mf & grp0 & grp & Hrefl & Hnone & Hitems & Hgrain & Hgroup
        & _ & He & Hg & _).
  unfold query_agg_items in Hitems.
  apply query_agg_item_args in Hitems as (new & -> & Hlen & Hall).
  apply time_grain_pushdown_inv in Hgrain.
  apply query_agg_groupby_ok in Hgroup as (cols & -> & Hcols).
  exists new, grp0, cols. simpl in He. rewrite He, Hg.
  repeat (split; [first [reflexivity | assumption] |]).
  unfold query_agg in H.
  bind_inv_as H table0 l0 Htable. apply get_table_ok in Htable as [Hrefl' ->].
  bind_inv_as H dim0 l1 Hdim.
  bind_inv_as H items l2 Hitems. destruct items as [args1 mf1].
  bind_inv_as H grain l3 Hgrain'. destruct grain as [grp1 pa].
  bind_inv_as H grp2 l4 Hgroup'.
  bind_inv_as H qt l5 Hq. destruct qt as [q0 table1].
  apply ret_inv in H as [E _]. inversion E; subst; clear E.
  clear - Hq Hnone Hrefl Hrefl'.
  assert (table0 = table) by congruence. subst table0.
  destruct dimension as [name |], dim as [d |]; repeat ok_inv;
    try reflexivity;
    destruct Hnone as [H1 H2];
    first [discriminate (H1 eq_refl) | discriminate (H2 eq_refl)].
Qed.

(** X9. A time grain without a timestamp column: whenever the same
    [query_agg] without the time grain returns, the call with the grain
    raises [ValueError], whatever the grain is. *)
Theorem query_agg_grain_without_timestamp (self : Database)
    (table_name : string) (schema : option string)
    (agg_dict : list (string * aggs))
    (agg_outputs : option (list (string * list string)))
    (groupby : option names) (time_grain : string) (dimension : option string)
    (start_ts end_ts start_ts' end_ts' : option datetime)
    (entities entities' : option (list string))
    (r : Query * Table * option Table * option string * list (string * aggs))
    (lg lg' : log) :
  query_agg self table_name schema agg_dict agg_outputs groupby None None
    dimension start_ts end_ts entities lg = (Ok r, lg') ->
  query_agg self table_name schema agg_dict agg_outputs groupby None
    (Some time_grain) dimension start_ts' end_ts' entities' lg
  = (Raise (ValueError "You must supply a timestamp column when doing a time-based aggregate"),
     lg').
Proof.
  intros H. destruct r as [[[[q table] dim] pa] ad].
  pose proof (query_agg_ok _ _ _ _ _ _ _ _ _ _ _ _ _ _ _ _ _ _ _ H)
    as (args & mf & grp0 & grp & Hrefl & _ & Hitems & _).
  unfold query_agg in *.
  bind_inv_as H table0 l0 Htable. rewrite (bind_ok _ _ _ _ _ Htable).
  bind_inv_as H dim0 l1 Hdim. rewrite (bind_ok _ _ _ _ _ Hdim).
  apply get_table_ok in Htable as [Hrefl' ->].
  pose proof (silent_get_dimension _ _ _ _ _ _ Hdim) as ->.
  assert (table0 = table) by congruence. subst table0.
  bind_inv_as H items l2 Hitems'. destruct items as [args1 mf1].
  bind_inv_as H grain l3 Hgrain. destruct grain as [grp2 pa1].
  bind_inv_as H grp1 l4 Hgroup.
  bind_inv_as H qt l5 Hq. destruct qt as [q0 table1].
  apply ret_inv in H as [E ->]. inversion E; subst; clear E.
  rewrite (bind_ok _ _ _ _ _ Hitems). reflexivity.
Qed.

(** ** [query_agg]: the warnings *)

Lemma aggregate_list_warnings (table : Table) (dim : option Table)
    (agg_outputs : option (list (string * list string)))
    (timestamp : option string) (col : string) (aggregates : list string)
    (k : nat) (args args' : list expr) (lg lg' : log) :
  for_each (combine (seq k (length aggregates)) aggregates)
    (fun args '(i, agg) =>
       output <- output_item agg_outputs col i agg ;;
       e <- _aggregate_item table col agg (Some output) dim timestamp ;;
       ret (args ++ [e])%list) args lg = (Ok args', lg') ->
  exists ws,
    lg' = (lg ++ ws)%list
    /\ length ws
       = (k + length aggregates
          - Nat.max k (length match agg_outputs with
                              | Some d =>
                                  match dict_get d col with
                                  | Some outputs => outputs
                                  | None => []
                                  end
                              | None => []
                              end))%nat
    /\ Forall (fun w => exists agg,
                 w = "No output item name specified for " ++ col ++ ", "
                     ++ agg ++ ". Using default.") ws.
Proof.
  revert k args lg. induction aggregates as [| agg rest IH];
    intros k args lg H; simpl in H.
  - apply ret_inv in H as [_ <-]. exists []. rewrite app_nil_r.
    split; [reflexivity |]. split; [simpl; lia | constructor].
  - bind_inv_as H args1 l1 Hbody. bind_inv_as Hbody output l2 Hout.
    bind_inv_as Hbody e l3 He. apply ret_inv in Hbody as [_ ->].
    apply aggregate_item_ok in He as (_ & _ & _ & _ & _ & ->).
    apply IH in H as (ws & -> & Hlen & Hall). clear IH.
    unfold output_item in Hout.
    destruct agg_outputs as [d |]; [| discriminate].
    destruct (dict_get d col) as [outputs |].
    + destruct (nth_error outputs k) as [name |] eqn:En.
      * apply ret_inv in Hout as [_ ->]. exists ws.
        split; [reflexivity |]. split; [| assumption].
        assert (k < length outputs)%nat
          by (apply nth_error_Some; congruence).
        simpl length. lia.
      * apply nth_error_None in En.
        unfold bind, warning, ret in Hout. inversion Hout; subst; clear Hout.
        eexists (_ :: ws). rewrite <- app_assoc.
        split; [reflexivity |]. split; [simpl length; lia |].
        constructor; [now exists agg | assumption].
    + unfold bind, warning, ret in Hout. inversion Hout; subst; clear Hout.
      eexists (_ :: ws). rewrite <- app_assoc.
      split; [reflexivity |]. split; [simpl length in *; lia |].
      constructor; [now exists agg | assumption].
Qed.

(** X10. A [query_agg] that returns has logged one warning for each
    aggregate function of a list that has no alias at its position in
    [agg_outputs] (the positions from the length of the column's alias list
    on), each naming the column and the aggregate, and nothing else. *)
Theorem query_agg_warnings (self : Database) (table_name : string)
    (schema : option string) (agg_dict : list (string * aggs))
    (agg_outputs : option (list (string * list string)))
    (groupby : option names) (timestamp time_grain dimension : option string)
    (start_ts end_ts : option datetime) (entities : option (list string))
    (r : Query * Table * option Table * option string * list (string * aggs))
    (lg lg' : log) :
  query_agg self table_name schema agg_dict agg_outputs groupby timestamp
    time_grain dimension start_ts end_ts entities lg = (Ok r, lg') ->
  exists ws,
    lg' = (lg ++ ws)%list
    /\ length ws
       = list_sum
           (map (fun ca =>
                   match snd ca with
                   | Agg_list l =>
                       (length l
                        - length match agg_outputs with
                                 | Some d =>
                                     match dict_get d (fst ca) with
                                     | Some outputs => outputs
                                     | None => []
                                     end
                                 | None => []
                                 end)%nat
                   | _ => 0%nat
                   end) agg_dict)
    /\ Forall (fun w => exists col agg,
                 In col (map fst agg_dict)
                 /\ w = "No output item name specified for " ++ col ++ ", "
                        ++ agg ++ ". Using default.") ws.
Proof.
  intros H. destruct r as [[[[q table] dim] pa] ad].
  apply query_agg_ok in H
    as (args & mf & grp0 & grp & _ & _ & Hitems & _).
  unfold query_agg_items in Hitems. revert Hitems.
  generalize (@nil expr) as args0. generalize (@nil clause) as mf0.
  revert lg. induction agg_dict as [| [col a] rest IH];
    intros lg mf0 args0 H; simpl in H.
  - apply ret_inv in H as [_ <-]. exists []. rewrite app_nil_r.
    repeat split. constructor.
  - bind_inv_as H acc l1 Hbody. destruct acc as [args1 mf1].
    bind_inv_as Hbody args2 l2 Hargs. bind_inv_as Hbody c0 l3 Hnn.
    rewrite is_not_null_lookup in Hnn.
    destruct (table_or_dimension table dim col) as [c1 |] eqn:Hc1;
      [| discriminate].
    injection Hnn as <- <-. apply ret_inv in Hbody as [_ ->].
    apply IH in H as (ws & -> & Hlen & Hall). clear IH.
    assert (Hhead : exists hs,
      l1 = (lg ++ hs)%list
      /\ length hs
         = match a with
           | Agg_list l =>
               (length l
                - length match agg_outputs with
                         | Some d =>
                             match dict_get d col with
                             | Some outputs => outputs
                             | None => []
                             end
                         | None => []
                         end)%nat
           | _ => 0%nat
           end
      /\ Forall (fun w => exists agg,
                   w = "No output item name specified for " ++ col ++ ", "
                       ++ agg ++ ". Using default.") hs).
    { destruct a as [agg | l |].
      - bind_inv_as Hargs e l3 He. apply ret_inv in Hargs as [_ ->].
        apply aggregate_item_ok in He as (_ & _ & _ & _ & _ & ->).
        exists []. rewrite app_nil_r. repeat split. constructor.
      - unfold enumerate in Hargs.
        apply aggregate_list_warnings in Hargs as (hs & -> & Hl & Hf).
        exists hs. split; [reflexivity |]. split; [| assumption].
        rewrite Hl. simpl. lia.
      - discriminate. }
    destruct Hhead as (hs & -> & Hhlen & Hhall).
    exists (hs ++ ws)%list. rewrite <- app_assoc.
    split; [reflexivity |]. split.
    + rewrite length_app, Hhlen, Hlen. reflexivity.
    + apply Forall_app. split.
      * eapply Forall_impl; [| exact Hhall].
        intros w [agg ->]. exists col, agg. simpl. auto.
      * eapply Forall_impl; [| exact Hall].
        intros w (col' & agg & Hin & ->). exists col', agg. simpl. auto.
Qed.

(** ** A key of [agg_dict] that is no column *)

Lemma aggregate_item_missing (table : Table) (dim : option Table)
    (column_name aggregate : string) (alias_column timestamp_col : option string)
    (f : sqlfunc) (lg : log) :
  table_or_dimension table dim column_name = None ->
  agg_map aggregate = Some f ->
  _aggregate_item table column_name aggregate alias_column dim timestamp_col lg
  = (Raise (KeyError ("Aggregate column " ++ column_name
              ++ " not present in table or on dimension")), lg).
Proof.
  unfold table_or_dimension, _aggregate_item. intros Hcol ->.
  destruct (getitem table column_name); [discriminate |].
  destruct dim as [d |]; [| reflexivity]. now rewrite Hcol.
Qed.

(** X11. A key of [agg_dict] that is a column of neither the table nor the
    dimension, after keys that go through, fails [query_agg] with an
    exception whose class depends on the aggregates asked for it: with one
    supported aggregate function it is the [KeyError] of
    [_aggregate_item]; with an empty list of functions [_aggregate_item] is
    never called and it is the [ValueError] of [_is_not_null]. Either way
    nothing is logged for the key, and the keys after it are not looked
    at. *)
Theorem query_agg_missing_column (self : Database) (table_name : string)
    (schema : option string) (known later : list (string * aggs))
    (col : string) (aggregates : aggs)
    (agg_outputs : option (list (string * list string)))
    (groupby : option names) (timestamp time_grain dimension : option string)
    (start_ts end_ts : option datetime) (entities : option (list string))
    (q : Query) (table : Table) (dim : option Table)
    (pandas_aggregate : option string) (ad : list (string * aggs))
    (lg lg' : log) :
  query_agg self table_name schema known agg_outputs None timestamp None
    dimension None None None lg
    = (Ok (q, table, dim, pandas_aggregate, ad), lg') ->
  table_or_dimension table dim col = None ->
  (forall aggregate f,
     aggregates = Agg_str aggregate -> agg_map aggregate = Some f ->
     query_agg self table_name schema (known ++ (col, aggregates) :: later)
       agg_outputs groupby timestamp time_grain dimension start_ts end_ts
       entities lg
     = (Raise (KeyError ("Aggregate column " ++ col
                 ++ " not present in table or on dimension")), lg'))
  /\ (aggregates = Agg_list [] ->
      query_agg self table_name schema (known ++ (col, aggregates) :: later)
        agg_outputs groupby timestamp time_grain dimension start_ts end_ts
        entities lg
      = (Raise (ValueError ("Column " ++ col
                  ++ " not found on time series or dimension table.")), lg')).
Proof.
  intros H0 Hcol.
  pose proof (query_agg_dimension _ _ _ _ _ _ _ _ _ _ _ _ _ _ _ _ _ _ _ H0)
    as Hdim'.
  apply query_agg_ok in H0
    as (args & mf & grp0 & grp & Hrefl & Hdd & Hitems & _).
  assert (Htable : get_table self table_name schema lg = (Ok table, lg))
    by (unfold get_table; now rewrite Hrefl).
  assert (Hdim : get_dimension self dimension schema lg = (Ok dim, lg)).
  { unfold get_dimension. destruct dimension as [name |]; [| now subst].
    destruct dim as [d |].
    - unfold bind, get_table. now rewrite <- Hdim'.
    - destruct Hdd as [_ Hdd]. now specialize (Hdd eq_refl). }
  assert (Hstep : forall e,
    query_agg_item table dim agg_outputs timestamp (args, mf)
      (col, aggregates) lg' = (Raise e, lg') ->
    query_agg self table_name schema (known ++ (col, aggregates) :: later)
      agg_outputs groupby timestamp time_grain dimension start_ts end_ts
      entities lg = (Raise e, lg')).
  { intros e He. unfold query_agg.
    rewrite (bind_ok _ _ _ _ _ Htable), (bind_ok _ _ _ _ _ Hdim).
    apply bind_raise. unfold query_agg_items in *. rewrite for_each_app.
    rewrite (bind_ok _ _ _ _ _ Hitems). cbn [for_each].
    apply bind_raise. exact He. }
  split.
  - intros aggregate f -> Hf. apply Hstep. unfold query_agg_item.
    apply bind_raise. apply bind_raise.
    now apply aggregate_item_missing with f.
  - intros ->. apply Hstep. unfold query_agg_item. cbn [enumerate length seq
      combine for_each].
    unfold bind at 1. unfold ret at 1. apply bind_raise.
    rewrite is_not_null_lookup, Hcol. reflexivity.
Qed.


(** ** [subquery_join]: when it returns and what it joins on *)

#[local] Opaque subquery.

(** The loop over the join keys: one equality per key, in order. *)
Lemma joins_loop (a b : Subquery) (args : list join_key)
    (joins0 joins : list clause) (lg lg' : log) :
  for_each args (fun joins col =>
    match col with
    | Key col =>
        l <- sq_item a col ;; r <- sq_item b col ;;
        ret (joins ++ [Eq l r])%list
    | KeyPair col0 col1 =>
        l <- sq_item a col0 ;; r <- sq_item b col1 ;;
        ret (joins ++ [Eq l r])%list
    end) joins0 lg = (Ok joins, lg') ->
  joins
  = (joins0
     ++ map (fun k => match k with
                      | Key col =>
                          Eq (Column (sq_name a) col) (Column (sq_name b) col)
                      | KeyPair col0 col1 =>
                          Eq (Column (sq_name a) col0)
                            (Column (sq_name b) col1)
                      end) args)%list
  /\ (forall k, In k args ->
        match k with
        | Key col => In col (sq_c a) /\ In col (sq_c b)
        | KeyPair col0 col1 => In col0 (sq_c a) /\ In col1 (sq_c b)
        end)
  /\ lg' = lg.
Proof.
  revert joins0 lg. induction args as [| k args IH]; intros joins0 lg H;
    simpl in H.
  - apply ret_inv in H as [<- <-]. rewrite app_nil_r.
    repeat split. intros ? [].
  - bind_inv_as H acc l1 Hk.
    apply IH in H as (-> & Hkeys & ->). clear IH.
    destruct k as [col | col0 col1];
      bind_inv_as Hk l l2 Hl; bind_inv_as Hk r l3 Hr;
      apply sq_item_ok in Hl as (-> & Hinl & ->);
      apply sq_item_ok in Hr as (-> & Hinr & ->);
      apply ret_inv in Hk as [<- ->];
      (split; [simpl; rewrite <- app_assoc; reflexivity |]);
      (split; [| reflexivity]);
      intros k [<- | Hin]; first [split; assumption | now apply Hkeys].
Qed.

(** X12. [subquery_join] returns a select exactly when no key of [kwargs]
    is the name of one of its own parameters, every join key names a column
    of the subquery on its side (a common name on both, a pair on the left
    and on the right) and every column named in [kwargs] is a column of the
    right subquery; the columns of a subquery include those under a made-up
    name. *)
Theorem subquery_join_returns_iff (self : Database)
    (left_query right_query : Query)
    (args : list join_key) (kwargs : list (string * string)) (lg : log) :
  (exists sel lg',
     subquery_join self left_query right_query args kwargs lg = (Ok sel, lg'))
  <-> (forall ca, In ca kwargs ->
         ~ In (fst ca) ["self"; "left_query"; "right_query"])
      /\ (forall k, In k args ->
            match k with
            | Key col =>
                In col (sq_c (subquery self left_query "a"))
                /\ In col (sq_c (subquery self right_query "b"))
            | KeyPair col0 col1 =>
                In col0 (sq_c (subquery self left_query "a"))
                /\ In col1 (sq_c (subquery self right_query "b"))
            end)
      /\ (forall ca, In ca kwargs ->
            In (fst ca) (sq_c (subquery self right_query "b"))).
Proof.
  split.
  - intros (sel & lg' & H). unfold subquery_join in H.
    destruct (List.find _ kwargs) as [[k v] |] eqn:Hfind; [discriminate |].
    bind_inv_as H joins l1 Hjoins.
    bind_inv_as H acc l2 Hproj. destruct acc as [pl cov].
    apply joins_loop in Hjoins as (_ & Hkeys & _).
    apply projection_loop in Hproj as (_ & _ & Hright).
    split; [| split; assumption].
    intros ca Hca Hin. apply mem_In in Hin.
    pose proof (proj1 (find_none_iff _ _) Hfind ca Hca) as Hmem.
    cbv beta in Hmem. congruence.
  - intros (Hres & Hkeys & Hright).
    destruct (subquery_join_returns self left_query right_query args kwargs lg)
      as [sel Hsel]; [| assumption | assumption | now exists sel, lg].
    intros ca Hca. specialize (Hres ca Hca).
    destruct (mem (fst ca) ["self"; "left_query"; "right_query"]) eqn:E;
      [| reflexivity].
    apply mem_In in E. contradiction.
Qed.

(** X13. The select that [subquery_join] returns joins the two subqueries
    [a] (left) and [b] (right) on the conjunction of one equality per join
    key, in the order of the keys; without [kwargs] its projection is every
    column of the left subquery, those under a made-up name too, and
    nothing of the right one: the join only filters. *)
Theorem subquery_join_condition (self : Database)
    (left_query right_query : Query)
    (args : list join_key) (kwargs : list (string * string))
    (sel : Select) (lg lg' : log) :
  subquery_join self left_query right_query args kwargs lg = (Ok sel, lg') ->
  sel_left sel = subquery self left_query "a"
  /\ sel_right sel = subquery self right_query "b"
  /\ sel_onclause sel
     = and_ (map (fun k => match k with
                           | Key col => Eq (Column "a" col) (Column "b" col)
                           | KeyPair col0 col1 =>
                               Eq (Column "a" col0) (Column "b" col1)
                           end) args)
  /\ (kwargs = [] ->
      sel_projection sel
      = map (Column "a") (sq_c (subquery self left_query "a")))
  /\ lg' = lg.
Proof.
  unfold subquery_join. intros H.
  destruct (List.find _ kwargs) as [[k v] |]; [discriminate |].
  bind_inv_as H joins l1 Hjoins.
  bind_inv_as H acc l2 Hproj. destruct acc as [pl cov].
  apply ret_inv in H as [<- <-].
  cbn [sel_left sel_right sel_onclause sel_projection].
  apply joins_loop in Hjoins as (-> & _ & ->).
  rewrite !sq_name_subquery. cbn [app].
  repeat split.
  - intros ->. simpl in Hproj. apply ret_inv in Hproj as [E _].
    inversion E; subst. cbn [app].
    f_equal. clear.
    generalize (sq_c (subquery self left_query "a")). intros l.
    induction l as [| x l IH]; [reflexivity | simpl in *; now rewrite IH].
  - pose proof Hproj as Hp. revert Hp. clear.
    generalize (@nil expr, @nil string). revert lg.
    induction kwargs as [| [col alias] rest IH]; intros lg acc H; simpl in H.
    + now apply ret_inv in H as [_ ->].
    + bind_inv_as H acc1 l1 Hbody. destruct acc as [pl0 cov0].
      bind_inv_as Hbody r l3 Hr. apply sq_item_ok in Hr as (_ & _ & ->).
      apply ret_inv in Hbody as [_ ->]. eapply IH. exact H.
Qed.

(** ** [query_time_agg]: what a call that returns looks like *)

Lemma Forall2_In_l {A B} (P : A -> B -> Prop) (l : list A) (l' : list B)
    (x : A) :
  Forall2 P l l' -> In x l -> exists y, In y l' /\ P x y.
Proof.
  induction 1 as [| a b l l' Hab _ IH]; intros Hin; [contradiction |].
  destruct Hin as [<- | Hin].
  - exists b. split; [now left | assumption].
  - destruct (IH Hin) as (y & Hy & Hp). exists y. split; [now right | assumption].
Qed.

(** The stages of a [query_time_agg] that returns. *)
Lemma query_time_agg_ok (self : Database) (table_name : string)
    (schema : option string) (column : string) (regular_agg : aggs)
    (time_agg : string) (groupby : option names) (timestamp : string)
    (time_grain dimension : option string) (start_ts end_ts : option datetime)
    (entities : option (list string)) (sel : Select) (table : Table)
    (lg lg' : log) :
  query_time_agg self table_name schema column regular_agg time_agg groupby
    timestamp time_grain dimension start_ts end_ts entities lg
  = (Ok (sel, table), lg') ->
  exists query_a table_a dim_a pa_a ad_a query_b dim_b pa_b ad_b names lg1 lg2,
    query_agg self table_name schema [(column, regular_agg)] None
      (Some (Names names)) (Some timestamp) (Some timestamp) dimension
      start_ts end_ts entities lg
    = (Ok (query_a, table_a, dim_a, pa_a, ad_a), lg1)
    /\ (time_agg = "first" \/ time_agg = "last")
    /\ query_agg self table_name schema
         [(timestamp, Agg_str (if time_agg =? "first" then "min" else "max"))]
         None (Some (Names names)) (Some timestamp) time_grain None start_ts
         end_ts entities lg1
       = (Ok (query_b, table, dim_b, pa_b, ad_b), lg2)
    /\ option_map as_list groupby = Some names
    /\ subquery_join self query_a query_b
         (KeyPair timestamp (time_agg ++ "_" ++ timestamp) :: map Key names)
         [(time_agg ++ "_" ++ timestamp, time_agg ++ "_" ++ timestamp);
          (timestamp, timestamp)] lg2 = (Ok sel, lg').
Proof.
  unfold query_time_agg. intros H.
  bind_inv_as H ra l1 Ha. destruct ra as [[[[query_a table_a] dim_a] pa_a] ad_a].
  destruct (truthy pa_a); [discriminate |].
  bind_inv_as H time_agg_dict l2 Hdict.
  bind_inv_as H rb l3 Hb. destruct rb as [[[[query_b table_b] dim_b] pa_b] ad_b].
  bind_inv_as H keys l4 Hkeys.
  bind_inv_as H qj l5 Hjoin.
  apply ret_inv in H as [E ->]. inversion E; subst; clear E.
  destruct (option_map as_list groupby) as [names |] eqn:Eg; [| discriminate].
  apply ret_inv in Hkeys as [<- <-]. simpl in Ha, Hb.
  exists query_a, table_a, dim_a, pa_a, ad_a, query_b, dim_b, pa_b, ad_b,
    names, l1, l3.
  split; [exact Ha |].
  destruct (time_agg =? "first") eqn:Ef.
  - apply ret_inv in Hdict as [<- <-]. apply String.eqb_eq in Ef.
    repeat split; auto.
  - destruct (time_agg =? "last") eqn:El; [| discriminate].
    apply ret_inv in Hdict as [<- <-]. apply String.eqb_eq in El.
    repeat split; auto.
Qed.

(** X14. A [query_time_agg] that returns was given [first] or [last] and a
    group-by (the default [None] never returns), and the timestamp column
    and every group-by name are columns of the main table: a group-by name
    that only the dimension has never returns, dimension or not. *)
Theorem query_time_agg_returns_only_if (self : Database)
    (table_name : string) (schema : option string) (column : string)
    (regular_agg : aggs) (time_agg : string) (groupby : option names)
    (timestamp : string) (time_grain dimension : option string)
    (start_ts end_ts : option datetime) (entities : option (list string))
    (sel : Select) (table : Table) (lg lg' : log) :
  query_time_agg self table_name schema column regular_agg time_agg groupby
    timestamp time_grain dimension start_ts end_ts entities lg
  = (Ok (sel, table), lg') ->
  (time_agg = "first" \/ time_agg = "last")
  /\ reflect self table_name schema = Some table
  /\ mem timestamp (tbl_c table) = true
  /\ exists gb,
       groupby = Some gb
       /\ forall g, In g (as_list gb) -> mem g (tbl_c table) = true.
Proof.
  intros H. apply query_time_agg_ok in H
    as (query_a & table_a & dim_a & pa_a & ad_a & query_b & dim_b & pa_b
        & ad_b & names & lg1 & lg2 & _ & Hagg & Hb & Hg & _).
  apply query_agg_ok in Hb
    as (args & mf & grp0 & grp & Hrefl & Hnone & Hitems & _ & Hgroup & _).
  assert (dim_b = None) as -> by (now apply Hnone).
  split; [assumption |]. split; [assumption |]. split.
  - apply query_agg_items_ok in Hitems as (cols & Hcols & _).
    destruct cols as [| c cols]; [discriminate |].
    cbn in Hcols. injection Hcols as Hcol _.
    unfold table_or_dimension, getitem in Hcol.
    destruct (mem timestamp (tbl_c table)); [reflexivity | discriminate].
  - destruct groupby as [gb |]; [| discriminate]. exists gb.
    split; [reflexivity |]. simpl in Hg. inversion Hg; subst; clear Hg.
    simpl in Hgroup.
    apply query_agg_groupby_ok in Hgroup as (cols & _ & Hall).
    intros g Hin.
    destruct (Forall2_In_l _ _ _ g Hall Hin) as (e & _ & He).
    unfold groupby_column, getitem in He.
    destruct (mem g (tbl_c table)); [reflexivity | discriminate].
Qed.

(** X15. The select that [query_time_agg] returns, for the time aggregate
    [first] or [last] of timestamp column [ts]: the left query is grouped by
    the timestamp as it is (and the group-by columns); the join equates the
    left [ts] with the right [<time_agg>_<ts>] and every group-by name with
    itself; the projection is the right [<time_agg>_<ts>] and the right
    [ts], then the left columns of other names. *)
Theorem query_time_agg_plan (self : Database) (table_name : string)
    (schema : option string) (column : string) (regular_agg : aggs)
    (time_agg : string) (groupby : option names) (timestamp : string)
    (time_grain dimension : option string) (start_ts end_ts : option datetime)
    (entities : option (list string)) (sel : Select) (table : Table)
    (lg lg' : log) :
  query_time_agg self table_name schema column regular_agg time_agg groupby
    timestamp time_grain dimension start_ts end_ts entities lg
  = (Ok (sel, table), lg') ->
  let rt := time_agg ++ "_" ++ timestamp in
  exists gb grp,
    groupby = Some gb
    /\ sel_onclause sel
       = and_ (Eq (Column "a" timestamp) (Column "b" rt)
               :: map (fun g => Eq (Column "a" g) (Column "b" g)) (as_list gb))
    /\ sel_projection sel
       = Label (Column "b" rt) rt :: Label (Column "b" timestamp) timestamp
         :: map (Column "a")
              (List.filter (fun n => negb (mem n [rt; timestamp]))
                           (sq_c (sel_left sel)))
    /\ q_group_by (sq_element (sel_left sel))
       = Label (Column (tbl_name table) timestamp) timestamp :: grp
    /\ In rt (sq_c (sel_right sel))
    /\ In timestamp (sq_c (sel_right sel)).
Proof.
  intros H rt. apply query_time_agg_ok in H
    as (query_a & table_a & dim_a & pa_a & ad_a & query_b & dim_b & pa_b
        & ad_b & names & lg1 & lg2 & Ha & _ & Hb & Hg & Hjoin).
  fold rt in Hjoin.
  destruct groupby as [gb |]; [| discriminate].
  simpl in Hg. inversion Hg; subst names; clear Hg.
  pose proof (query_agg_raw_timestamp_grain _ _ _ _ _ _ _ _ _ _ _ _ _ _ _ _
                _ _ Ha) as [_ [grp Hgrp]].
  assert (table_a = table) as ->.
  { apply query_agg_ok in Ha as (? & ? & ? & ? & Hra & _).
    apply query_agg_ok in Hb as (? & ? & ? & ? & Hrb & _). congruence. }
  exists gb, grp. split; [reflexivity |].
  unfold subquery_join in Hjoin.
  destruct (List.find _ _) as [[k v] |]; [discriminate |].
  bind_inv_as Hjoin joins l1 Hjoins.
  bind_inv_as Hjoin acc l2 Hproj. destruct acc as [pl cov].
  apply ret_inv in Hjoin as [<- _].
  cbn [sel_left sel_right sel_onclause sel_projection].
  apply joins_loop in Hjoins as (-> & _ & _).
  apply projection_loop in Hproj as (-> & Hcov & Hright).
  rewrite !sq_name_subquery, !sq_element_subquery in *. cbn [app map] in *.
  split; [| split; [| split; [exact Hgrp | split]]].
  - f_equal. f_equal. rewrite map_map. reflexivity.
  - do 3 f_equal. apply filter_ext. intros n. f_equal.
    change ((n =? rt) || ((n =? timestamp) || false))
      with (mem n [rt; timestamp]).
    apply mem_eq_of_In. rewrite Hcov. simpl. tauto.
  - apply (Hright (rt, rt)). now left.
  - apply (Hright (timestamp, timestamp)). right. now left.
Qed.

(** ** [query_column_aggregate] *)

(** X16. [query_column_aggregate] is always pushed down and never looks at
    the date range and the entities it is given: its outcome, a query or an
    exception, is the same for every [start_ts], [end_ts] and [entities].
    For a column of the table and a supported aggregate it is the query of
    that one aggregate, labelled with the column name, without GROUP BY or
    join and with the column's not-null condition as its only filter. *)
Theorem query_column_aggregate_plan (self : Database) (table_name : string)
    (schema : option string) (column : string) (aggregate : aggs)
    (start_ts end_ts start_ts' end_ts' : option datetime)
    (entities entities' : option (list string)) (lg : log) :
  query_column_aggregate self table_name schema column aggregate start_ts
    end_ts entities lg
  = query_column_aggregate self table_name schema column aggregate start_ts'
      end_ts' entities' lg
  /\ forall table agg f,
       reflect self table_name schema = Some table ->
       mem column (tbl_c table) = true ->
       aggregate = Agg_str agg -> agg_map agg = Some f ->
       query_column_aggregate self table_name schema column aggregate start_ts
         end_ts entities lg
       = (Ok (mkQuery
                [Entity_expr
                   (Label (Func1 f (Column (tbl_name table) column)) column)]
                [] []
                [or_ [IsNot_None (Column (tbl_name table) column)]],
              table), lg).
Proof.
  split.
  - unfold query_column_aggregate, query_agg, bind.
    destruct (get_table self table_name schema lg) as [[table | e] l0];
      [| reflexivity].
    destruct (get_dimension self None schema l0) as [[dim | e] l1];
      [| reflexivity].
    destruct (query_agg_items table dim [(column, aggregate)] None None l1)
      as [[[args mf] | e] l2]; [| reflexivity].
    simpl. reflexivity.
  - intros table agg f Hrefl Hcol -> Hf.
    unfold query_column_aggregate, query_agg, query_agg_items, query_agg_item,
      _aggregate_item, _is_not_null, get_table, get_dimension, getitem.
    cbn - [mem agg_map]. unfold bind, ret. rewrite Hrefl.
    cbn - [mem agg_map]. rewrite Hf, Hcol. reflexivity.
Qed.

(* ================================================================== *)
(** * Properties of the other methods *)
(* ================================================================== *)

(** ** [get_entity_type] *)

Lemma find_by_table_name_fuel (name : string) (values : list entity_metadata) :
  find_by_table_name name values <> OutOfFuel.
Proof.
  induction values as [| m r IH]; simpl; [discriminate |].
  destruct (dict_get m "metricTableName") as [[| t | |] |];
    try assumption; [| discriminate].
  destruct (t =? name); [discriminate | assumption].
Qed.

Lemma find_by_table_name_raises (name : string)
    (values : list entity_metadata) (class msg : string) :
  find_by_table_name name values = Raises class msg -> class = "KeyError".
Proof.
  induction values as [| m r IH]; simpl; [discriminate |].
  destruct (dict_get m "metricTableName") as [[| t | |] |];
    try assumption.
  - destruct (t =? name); [discriminate | assumption].
  - intros E. now inversion E.
Qed.

(** X17. [get_entity_type] never returns an entity type. For a name that is
    a key of the cached metadata it prints the metadata and raises
    [RuntimeError]; for any other name it prints nothing and raises
    [TypeError] (or the [KeyError] of a cached entry without a table
    name), never the [ValueError] its message is written for. *)
Theorem get_entity_type_never_returns
    (entity_type_metadata : list (string * entity_metadata)) (name : string)
    (out : list entity_metadata) :
  exists class msg out',
    get_entity_type entity_type_metadata name out = (Raises class msg, out')
    /\ match dict_get entity_type_metadata name with
       | Some metadata =>
           class = "RuntimeError" /\ out' = (out ++ [metadata])%list
       | None =>
           (class = "TypeError" \/ class = "KeyError") /\ out' = out
       end.
Proof.
  unfold get_entity_type.
  destruct (dict_get entity_type_metadata name) as [metadata |].
  - eexists _, _, _. split; [reflexivity |]. split; reflexivity.
  - pose proof (find_by_table_name_fuel name (map snd entity_type_metadata))
      as Hfuel.
    destruct (find_by_table_name name (map snd entity_type_metadata))
      as [found | class msg |] eqn:E.
    + eexists _, _, _. split; [reflexivity |]. split; [now left | reflexivity].
    + eexists _, _, _. split; [reflexivity |].
      split; [right; eapply find_by_table_name_raises; exact E | reflexivity].
    + contradiction.
Qed.

(** ** [http_request] *)

(** Every object type whose failed POST is tried again as a PUT has a PUT
    url. *)
Lemma url_of_put (host : option string)
    (tenant object_type object_name object_name_2 : string) :
  mem object_type ["kpiFunction"; "defaultConstants"; "constants"] = true ->
  exists url,
    url_of host tenant object_type object_name "PUT" object_name_2 = Some url.
Proof.
  intros H. unfold mem in H. simpl in H.
  destruct (String.eqb_spec object_type "kpiFunction") as [-> | _];
    [eexists; reflexivity |].
  destruct (String.eqb_spec object_type "defaultConstants") as [-> | _];
    [eexists; reflexivity |].
  destruct (String.eqb_spec object_type "constants") as [-> | _];
    [eexists; reflexivity | discriminate].
Qed.

(** What the answer to a request that is not tried again decides. *)
Lemma http_request_last (m : nat) (self : ApiClient) (object_type : string)
    (object_name : option string) (request : string) (payload : json)
    (object_name_2 : string) (raise_error : bool) (tenant url : string)
    (calls : list http_call) :
  tenant_id self = Some tenant ->
  let name := match object_name with
              | None => EmptyString
              | Some n => n
              end in
  let body := match payload with
              | JNone => JStr EmptyString
              | p => p
              end in
  url_of (as_host self) tenant object_type name request object_name_2
    = Some url ->
  (request =? "POST")
  && mem object_type ["kpiFunction"; "defaultConstants"; "constants"] = false ->
  let c := mkCall request url body (api_key self) (api_token self) in
  http_request (S m) self object_type object_name request payload
    object_name_2 raise_error calls
  = (match server self calls c with
     | Fails class msg => Raises class msg
     | Reply r =>
         match decoded r with
         | None =>
             Raises "UnicodeDecodeError"
               "'utf-8' codec can't decode the response"
         | Some response =>
             if (200 <=? status r)%Z && (status r <=? 299)%Z
             then Returns response
             else if raise_error then Raises "HTTPError" response
                  else Returns response
         end
     end, (calls ++ [c])%list).
Proof.
  intros Htenant name body Hurl Hno c.
  cbn [http_request]. rewrite Htenant. fold name. fold body. rewrite Hurl.
  unfold ebind at 1. unfold http_send at 1. fold c.
  destruct (server self calls c) as [r | class msg]; [| reflexivity].
  destruct (decoded r) as [response |]; [| reflexivity].
  destruct ((200 <=? status r)%Z && (status r <=? 299)%Z); [reflexivity |].
  rewrite Hno. cbn [andb]. destruct raise_error; reflexivity.
Qed.

(** What [http_request] does with its first request, with fuel for one
    level of recursion or more. *)
Lemma http_request_first (m : nat) (self : ApiClient) (object_type : string)
    (object_name : option string) (request : string) (payload : json)
    (object_name_2 : string) (raise_error : bool) (tenant url : string)
    (calls : list http_call) :
  tenant_id self = Some tenant ->
  let name := match object_name with
              | None => EmptyString
              | Some n => n
              end in
  let body := match payload with
              | JNone => JStr EmptyString
              | p => p
              end in
  url_of (as_host self) tenant object_type name request object_name_2
    = Some url ->
  let c1 := mkCall request url body (api_key self) (api_token self) in
  http_request (S (S m)) self object_type object_name request payload
    object_name_2 raise_error calls
  = match server self calls c1 with
    | Fails class msg => (Raises class msg, (calls ++ [c1])%list)
    | Reply r1 =>
        match decoded r1 with
        | None =>
            (Raises "UnicodeDecodeError"
               "'utf-8' codec can't decode the response", (calls ++ [c1])%list)
        | Some response =>
            if (200 <=? status r1)%Z && (status r1 <=? 299)%Z
            then (Returns response, (calls ++ [c1])%list)
            else if (request =? "POST")
                    && mem object_type
                         ["kpiFunction"; "defaultConstants"; "constants"]
                    && ((500 <=? status r1)%Z && (status r1 <=? 599)%Z)
            then
              match url_of (as_host self) tenant object_type name "PUT"
                      object_name_2 with
              | Some url2 =>
                  let c2 :=
                    mkCall "PUT" url2 body (api_key self) (api_token self) in
                  (match server self (calls ++ [c1])%list c2 with
                   | Fails class msg => Raises class msg
                   | Reply r2 =>
                       match decoded r2 with
                       | None =>
                           Raises "UnicodeDecodeError"
                             "'utf-8' codec can't decode the response"
                       | Some response2 =>
                           if (200 <=? status r2)%Z && (status r2 <=? 299)%Z
                           then Returns response2
                           else if raise_error
                                then Raises "HTTPError" response2
                                else Returns response2
                       end
                   end, ((calls ++ [c1]) ++ [c2])%list)
              | None =>
                  (Raises "ValueError"
                     ("This combination  of request_type (" ++ object_type
                      ++ ") and object_type (PUT) is not supported by the python api"),
                   (calls ++ [c1])%list)
              end
            else if raise_error
                 then (Raises "HTTPError" response, (calls ++ [c1])%list)
                 else (Returns response, (calls ++ [c1])%list)
        end
    end.
Proof.
  intros Htenant name body Hurl c1.
  cbn [http_request]. rewrite Htenant. fold name. fold body. rewrite Hurl.
  unfold ebind at 1. unfold http_send at 1. fold c1.
  destruct (server self calls c1) as [r1 | class msg]; [| reflexivity].
  destruct (decoded r1) as [response |]; [| reflexivity].
  destruct ((200 <=? status r1)%Z && (status r1 <=? 299)%Z); [reflexivity |].
  destruct ((request =? "POST")
            && mem object_type ["kpiFunction"; "defaultConstants"; "constants"]
            && ((500 <=? status r1)%Z && (status r1 <=? 599)%Z)).
  - assert (Hbody : match body with
                    | JNone => JStr EmptyString
                    | p => p
                    end = body)
      by (unfold body; destruct payload; reflexivity).
    rewrite Hbody.
    destruct (url_of (as_host self) tenant object_type name "PUT"
                object_name_2) as [url2 |]; [| reflexivity].
    unfold ebind, http_send. cbv zeta.
    destruct (server self (calls ++ [c1]) _) as [r2 | class msg];
      [| reflexivity].
    destruct (decoded r2) as [response2 |]; [| reflexivity].
    destruct ((200 <=? status r2)%Z && (status r2 <=? 299)%Z);
      [reflexivity |].
    cbn. destruct raise_error; reflexivity.
  - destruct raise_error; reflexivity.
Qed.

(** X18. [http_request] never needs more than one level of recursion (with
    fuel for it, more fuel changes nothing). Without a tenant, or for a pair
    of object type and request that the url table does not know, it raises
    [ValueError] and sends nothing. Otherwise it sends the request to the
    url of the table, with [None] as payload replaced by the empty string.
    It sends a second request exactly when that was a POST for
    [kpiFunction], [defaultConstants] or [constants] whose reply decoded and
    had a 5xx status: a PUT to the PUT url with the same payload, and
    nothing after it. *)
Theorem http_request_calls (n : nat) (self : ApiClient) (object_type : string)
    (object_name : option string) (request : string) (payload : json)
    (object_name_2 : string) (raise_error : bool) (calls : list http_call) :
  let name := match object_name with
              | None => EmptyString
              | Some n => n
              end in
  let body := match payload with
              | JNone => JStr EmptyString
              | p => p
              end in
  exists o new,
    http_request (S (S n)) self object_type object_name request payload
      object_name_2 raise_error calls = (o, (calls ++ new)%list)
    /\ o <> OutOfFuel
    /\ http_request (S (S n)) self object_type object_name request payload
         object_name_2 raise_error calls
       = http_request 2 self object_type object_name request payload
           object_name_2 raise_error calls
    /\ match tenant_id self with
       | None => new = [] /\ exists msg, o = Raises "ValueError" msg
       | Some tenant =>
           match url_of (as_host self) tenant object_type name request
                   object_name_2 with
           | None => new = [] /\ exists msg, o = Raises "ValueError" msg
           | Some url =>
               let c1 :=
                 mkCall request url body (api_key self) (api_token self) in
               exists rest,
                 new = c1 :: rest
                 /\ (rest = []
                     \/ exists url2,
                          url_of (as_host self) tenant object_type name "PUT"
                            object_name_2 = Some url2
                          /\ rest = [mkCall "PUT" url2 body (api_key self)
                                       (api_token self)])
                 /\ (rest <> [] <->
                     request = "POST"
                     /\ mem object_type
                          ["kpiFunction"; "defaultConstants"; "constants"]
                        = true
                     /\ exists r1 response,
                          server self calls c1 = Reply r1
                          /\ decoded r1 = Some response
                          /\ 500 <= status r1 <= 599)
           end
       end.
Proof.
  intros name body.
  destruct (tenant_id self) as [tenant |] eqn:Htenant.
  2: { exists (Raises "ValueError" "tenant_id instance variable is not set. database object was not initialized with valid credentials"), [].
       cbn [http_request]. rewrite Htenant, app_nil_r.
       repeat split; try discriminate. eauto. }
  destruct (url_of (as_host self) tenant object_type name request
              object_name_2) as [url |] eqn:Hurl.
  2: { eexists (Raises "ValueError" _), [].
       cbn [http_request]. rewrite Htenant. fold name. rewrite Hurl, app_nil_r.
       repeat split; try discriminate. eauto. }
  rewrite (http_request_first n _ _ _ _ _ _ _ _ _ _ Htenant Hurl).
  rewrite (http_request_first 0 _ _ _ _ _ _ _ _ _ _ Htenant Hurl).
  cbv zeta. fold name. fold body.
  set (c1 := mkCall request url body (api_key self) (api_token self)).
  assert (Hone : forall o : outcome string,
            o <> OutOfFuel ->
            ~ (request = "POST"
               /\ mem object_type
                    ["kpiFunction"; "defaultConstants"; "constants"] = true
               /\ exists r1 response,
                    server self calls c1 = Reply r1
                    /\ decoded r1 = Some response
                    /\ 500 <= status r1 <= 599) ->
            exists o' new,
              (o, (calls ++ [c1])%list) = (o', (calls ++ new)%list)
              /\ o' <> OutOfFuel
              /\ (o, (calls ++ [c1])%list) = (o, (calls ++ [c1])%list)
              /\ exists rest,
                   new = c1 :: rest
                   /\ (rest = []
                       \/ exists url2,
                            url_of (as_host self) tenant object_type name
                              "PUT" object_name_2 = Some url2
                            /\ rest = [mkCall "PUT" url2 body (api_key self)
                                         (api_token self)])
                   /\ (rest <> [] <->
                       request = "POST"
                       /\ mem object_type
                            ["kpiFunction"; "defaultConstants"; "constants"]
                          = true
                       /\ exists r1 response,
                            server self calls c1 = Reply r1
                            /\ decoded r1 = Some response
                            /\ 500 <= status r1 <= 599)).
  { intros o Ho Hno. exists o, [c1].
    split; [reflexivity |]. split; [exact Ho |]. split; [reflexivity |].
    exists []. split; [reflexivity |]. split; [now left |].
    split; [intros H; now contradiction H | intros H; contradiction]. }
  destruct (server self calls c1) as [r1 | class msg] eqn:Hs.
  2: { apply Hone; [discriminate |].
       intros (_ & _ & r1 & response & E & _). discriminate E. }
  destruct (decoded r1) as [response |] eqn:Hd.
  2: { apply Hone; [discriminate |].
       intros (_ & _ & r1' & response & E & E' & _).
       injection E as <-. congruence. }
  destruct ((200 <=? status r1)%Z && (status r1 <=? 299)%Z) eqn:E2.
  { apply Hone; [discriminate |].
    intros (_ & _ & r1' & response' & E & _ & H5).
    injection E as <-. apply andb_prop in E2 as [_ E2].
    apply Z.leb_le in E2. lia. }
  destruct ((request =? "POST")
            && mem object_type ["kpiFunction"; "defaultConstants"; "constants"]
            && ((500 <=? status r1)%Z && (status r1 <=? 599)%Z)) eqn:Eretry.
  - apply andb_prop in Eretry as [Eretry E5].
    apply andb_prop in Eretry as [Ep Em].
    apply andb_prop in E5 as [E5a E5b].
    apply String.eqb_eq in Ep. apply Z.leb_le in E5a, E5b.
    destruct (url_of_put (as_host self) tenant object_type name object_name_2
                Em) as [url2 Hurl2].
    rewrite Hurl2.
    set (c2 := mkCall "PUT" url2 body (api_key self) (api_token self)).
    eexists _, [c1; c2].
    split; [rewrite <- app_assoc; reflexivity |].
    split.
    { destruct (server self (calls ++ [c1]) c2) as [r2 | ? ?];
        [| discriminate].
      destruct (decoded r2); [| discriminate].
      destruct ((200 <=? status r2)%Z && (status r2 <=? 299)%Z);
        [discriminate |]. destruct raise_error; discriminate. }
    split; [reflexivity |].
    exists [c2]. split; [reflexivity |]. split.
    + right. exists url2. split; reflexivity.
    + split; [| discriminate].
      intros _. split; [exact Ep |]. split; [exact Em |].
      exists r1, response. repeat split; assumption.
  - destruct raise_error;
      (apply Hone; [discriminate |];
       intros (Ep & Em & r1' & response' & E & _ & H5);
       injection E as <-; apply String.eqb_eq in Ep;
       rewrite Ep, Em in Eretry; cbn [andb] in Eretry;
       apply andb_false_iff in Eretry as [E | E]; apply Z.leb_gt in E; lia).
Qed.

(** X19. The answer to the last request decides the outcome of
    [http_request]. When nothing is sent the outcome is [ValueError]. An
    exception of the transport goes through, and so does the
    [UnicodeDecodeError] of a body that is not UTF-8, whatever the status
    and whatever [raise_error] is. For a body that decodes: with
    [raise_error] off it is returned whatever the status; with
    [raise_error] on it is returned for a status from 200 to 299 and raised
    as [HTTPError] otherwise. *)
Theorem http_request_raise_error (n : nat) (self : ApiClient)
    (object_type : string) (object_name : option string) (request : string)
    (payload : json) (object_name_2 : string) (raise_error : bool)
    (calls calls' : list http_call) (o : outcome string) :
  http_request (S (S n)) self object_type object_name request payload
    object_name_2 raise_error calls = (o, calls') ->
  (calls' = calls /\ exists msg, o = Raises "ValueError" msg)
  \/ exists made c,
       calls' = (made ++ [c])%list
       /\ (exists pre, made = (calls ++ pre)%list)
       /\ match server self made c with
          | Fails class msg => o = Raises class msg
          | Reply r =>
              match decoded r with
              | None => exists msg, o = Raises "UnicodeDecodeError" msg
              | Some response =>
                  if raise_error
                  then if (200 <=? status r)%Z && (status r <=? 299)%Z
                       then o = Returns response
                       else o = Raises "HTTPError" response
                  else o = Returns response
              end
          end.
Proof.
  destruct (tenant_id self) as [tenant |] eqn:Htenant.
  2: { cbn [http_request]. rewrite Htenant. intros H. inversion H; subst.
       left. eauto. }
  destruct (url_of (as_host self) tenant object_type
              match object_name with
              | None => EmptyString
              | Some n => n
              end request object_name_2) as [url |] eqn:Hurl.
  2: { cbn [http_request]. rewrite Htenant, Hurl. intros H.
       inversion H; subst. left. eauto. }
  rewrite (http_request_first n _ _ _ _ _ _ _ _ _ _ Htenant Hurl).
  cbv zeta.
  set (name := match object_name with
               | None => EmptyString
               | Some n => n
               end) in *.
  set (body := match payload with
               | JNone => JStr EmptyString
               | p => p
               end).
  set (c1 := mkCall request url body (api_key self) (api_token self)).
  intros H. right.
  destruct (server self calls c1) as [r1 | class msg] eqn:Hs.
  2: { inversion H; subst. exists calls, c1.
       split; [reflexivity |]. split; [exists []; now rewrite app_nil_r |].
       now rewrite Hs. }
  destruct (decoded r1) as [response |] eqn:Hd.
  2: { inversion H; subst. exists calls, c1.
       split; [reflexivity |]. split; [exists []; now rewrite app_nil_r |].
       rewrite Hs, Hd. eauto. }
  destruct ((200 <=? status r1)%Z && (status r1 <=? 299)%Z) eqn:E2.
  { inversion H; subst. exists calls, c1.
    split; [reflexivity |]. split; [exists []; now rewrite app_nil_r |].
    rewrite Hs, Hd, E2. now destruct raise_error. }
  destruct ((request =? "POST")
            && mem object_type ["kpiFunction"; "defaultConstants"; "constants"]
            && ((500 <=? status r1)%Z && (status r1 <=? 599)%Z)) eqn:Eretry.
  - apply andb_prop in Eretry as [Eretry _].
    apply andb_prop in Eretry as [_ Em].
    destruct (url_of_put (as_host self) tenant object_type name object_name_2
                Em) as [url2 Hurl2].
    rewrite Hurl2 in H.
    set (c2 := mkCall "PUT" url2 body (api_key self) (api_token self)) in *.
    exists (calls ++ [c1])%list, c2.
    split; [now inversion H |]. split; [now exists [c1] |].
    destruct (server self (calls ++ [c1]) c2) as [r2 | class msg];
      [| now inversion H].
    destruct (decoded r2) as [response2 |]; [| inversion H; eauto].
    destruct ((200 <=? status r2)%Z && (status r2 <=? 299)%Z);
      [inversion H; now destruct raise_error |].
    destruct raise_error; now inversion H.
  - exists calls, c1.
    split; [destruct raise_error; now inversion H |].
    split; [exists []; now rewrite app_nil_r |].
    rewrite Hs, Hd, E2. destruct raise_error; now inversion H.
Qed.

(** ** [unregister_functions] and [unregister_constants] *)

(** A DELETE that the url table knows makes one call; with [raise_error]
    off it returns the body of the reply whatever its status, unless the
    transport fails or the body does not decode. *)
Lemma http_request_delete (n : nat) (self : ApiClient)
    (object_type object_name tenant url : string) (d : list (string * json))
    (l : list json) (payload : json) (calls : list http_call) :
  tenant_id self = Some tenant ->
  url_of (as_host self) tenant object_type object_name "DELETE" EmptyString
  = Some url ->
  payload = JDict d \/ payload = JList l ->
  let c := mkCall "DELETE" url payload (api_key self) (api_token self) in
  http_request (S n) self object_type (Some object_name) "DELETE" payload
    EmptyString false calls
  = (match server self calls c with
     | Fails class msg => Raises class msg
     | Reply r =>
         match decoded r with
         | None =>
             Raises "UnicodeDecodeError"
               "'utf-8' codec can't decode the response"
         | Some response => Returns response
         end
     end, (calls ++ [c])%list).
Proof.
  intros Htenant Hurl Hpayload c.
  assert (Hbody : match payload with
                  | JNone => JStr EmptyString
                  | p => p
                  end = payload)
    by (destruct Hpayload as [-> | ->]; reflexivity).
  pose proof (http_request_last n self object_type (Some object_name) "DELETE"
                payload EmptyString false tenant url calls Htenant) as H.
  cbv zeta in H. rewrite Hbody in H. rewrite (H Hurl eq_refl). fold c.
  destruct (server self calls c) as [r | ? ?]; [| reflexivity].
  destruct (decoded r); [| reflexivity].
  now destruct ((200 <=? status r)%Z && (status r <=? 299)%Z).
Qed.

(** X20. With a tenant, [unregister_functions] sends one DELETE per function
    name, in the order of the names, to the catalog url of that function
    and with the name as payload, and stops only at an answer that is an
    exception of the transport or a body that is not UTF-8, which it lets
    through: it never raises for a status. When every call is answered with
    a body that decodes it sends them all and returns. Without a tenant it
    raises [ValueError] at the first name and sends nothing. *)
Theorem unregister_functions_calls (n : nat) (self : ApiClient)
    (function_names : names) (calls : list http_call) :
  (forall tenant,
     tenant_id self = Some tenant ->
     let delete f :=
       mkCall "DELETE"
         (join_slash [("http://" ++ PyStr.str (as_host self) ++ "/api")%string;
                      "catalog"; "v1"; tenant; "function"; f])
         (JDict [("name", JStr f)]) (api_key self) (api_token self) in
     ((forall made c,
         exists r response,
           server self made c = Reply r /\ decoded r = Some response) ->
      unregister_functions (S n) self function_names calls
      = (Returns tt, (calls ++ map delete (as_list function_names))%list))
     /\ exists o sent,
          unregister_functions (S n) self function_names calls
          = (o, (calls ++ sent)%list)
          /\ (o = Returns tt /\ sent = map delete (as_list function_names)
              \/ exists before f class msg,
                   sent = (map delete before ++ [delete f])%list
                   /\ (exists after,
                         as_list function_names
                         = (before ++ f :: after)%list)
                   /\ o = Raises class msg
                   /\ (server self (calls ++ map delete before)%list (delete f)
                       = Fails class msg
                       \/ exists r,
                            server self (calls ++ map delete before)%list
                              (delete f) = Reply r
                            /\ decoded r = None
                            /\ class = "UnicodeDecodeError")))
  /\ (tenant_id self = None ->
      as_list function_names <> [] ->
      exists msg,
        unregister_functions (S n) self function_names calls
        = (Raises "ValueError" msg, calls)).
Proof.
  split.
  - intros tenant Htenant delete. unfold unregister_functions. split.
    + intros Hserver. revert calls.
      induction (as_list function_names) as [| f fs IH]; intros calls.
      * cbn [efor map]. now rewrite app_nil_r.
      * cbn [efor map]. unfold ebind at 1. unfold ebind at 1.
        rewrite (http_request_delete n self "function" f tenant _
                   [("name", JStr f)] [] _ calls Htenant eq_refl
                   (or_introl eq_refl)).
        cbv zeta. fold (delete f).
        destruct (Hserver calls (delete f)) as (r & response & -> & ->).
        unfold eret at 1. rewrite IH, <- app_assoc. reflexivity.
    + revert calls.
      induction (as_list function_names) as [| f fs IH]; intros calls.
      * exists (Returns tt), []. cbn [efor map]. rewrite app_nil_r.
        split; [reflexivity | now left].
      * cbn [efor map]. unfold ebind at 1. unfold ebind at 1.
        rewrite (http_request_delete n self "function" f tenant _
                   [("name", JStr f)] [] _ calls Htenant eq_refl
                   (or_introl eq_refl)).
        cbv zeta. fold (delete f).
        destruct (server self calls (delete f)) as [r | class msg] eqn:Hs.
        2: { exists (Raises class msg), [delete f].
             split; [reflexivity |]. right. exists [], f, class, msg.
             cbn [map app]. rewrite app_nil_r.
             split; [reflexivity |]. split; [now exists fs |].
             split; [reflexivity | now left]. }
        destruct (decoded r) as [response |] eqn:Hd.
        2: { eexists (Raises "UnicodeDecodeError" _), [delete f].
             split; [reflexivity |]. right.
             exists [], f, "UnicodeDecodeError". eexists.
             cbn [map app]. rewrite app_nil_r.
             split; [reflexivity |]. split; [now exists fs |].
             split; [reflexivity |]. right. now exists r. }
        unfold eret at 1.
        destruct (IH (calls ++ [delete f])%list) as (o & sent & Hrun & Hcase).
        exists o, (delete f :: sent). rewrite Hrun, <- app_assoc.
        split; [reflexivity |].
        destruct Hcase as [[-> ->] | (before & g & class & msg & -> & [after Ha]
                                      & -> & Hlast)].
        -- now left.
        -- right. exists (f :: before), g, class, msg.
           split; [reflexivity |]. split; [exists after; now rewrite Ha |].
           split; [reflexivity |].
           cbn [map]. rewrite <- app_assoc in Hlast. exact Hlast.
  - intros Htenant Hne. unfold unregister_functions.
    destruct (as_list function_names) as [| f fs]; [contradiction |].
    cbn [efor]. unfold ebind. cbn [http_request]. rewrite Htenant.
    eexists. reflexivity.
Qed.

(** X21. [unregister_constants] on an empty list raises
    [UnboundLocalError] and sends nothing: the loop variable it reads after
    the loop was never bound. On other lists, with a tenant, it sends one
    single DELETE to the constants url of the tenant, whose payload lists
    every name in order; it returns whatever the status of the reply is,
    and lets through an exception of the transport and the
    [UnicodeDecodeError] of a body that is not UTF-8. *)
Theorem unregister_constants_calls (n : nat) (self : ApiClient)
    (constant_names : names) (calls : list http_call) :
  (as_list constant_names = [] ->
   exists msg,
     unregister_constants n self constant_names calls
     = (Raises "UnboundLocalError" msg, calls))
  /\ (forall tenant,
        as_list constant_names <> [] ->
        tenant_id self = Some tenant ->
        let c :=
          mkCall "DELETE"
            (join_slash [("http://" ++ PyStr.str (as_host self)
                          ++ "/api")%string; "constants"; "v1"; tenant])
            (JList (map (fun f => JDict [("name", JStr f);
                                         ("entityType", JNone)])
                      (as_list constant_names)))
            (api_key self) (api_token self) in
        exists o,
          unregister_constants (S n) self constant_names calls
          = (o, (calls ++ [c])%list)
          /\ match server self calls c with
             | Fails class msg => o = Raises class msg
             | Reply r =>
                 match decoded r with
                 | None => exists msg, o = Raises "UnicodeDecodeError" msg
                 | Some _ => o = Returns tt
                 end
             end).
Proof.
  split.
  - unfold unregister_constants. intros ->. cbn [rev]. eexists. reflexivity.
  - intros tenant Hne Htenant c. unfold unregister_constants.
    destruct (rev (as_list constant_names)) as [| f r] eqn:Er.
    + apply (f_equal (@rev string)) in Er. rewrite rev_involutive in Er.
      contradiction.
    + unfold ebind.
      rewrite (http_request_delete n self "defaultConstants" f tenant _
                 [] _ _ calls Htenant eq_refl (or_intror eq_refl)).
      cbv zeta. fold c.
      destruct (server self calls c) as [r0 | class msg].
      * destruct (decoded r0); eexists; split; try reflexivity. eauto.
      * eexists; split; reflexivity.
Qed.

(** ** [get_column_lists_by_type] *)

(** The loop of [get_column_lists_by_type] extends each of the four lists by
    a filter of the columns it visits, and logs one warning per column that
    it appends to [others]. *)
Lemma column_lists_loop_filters (self : TypedDatabase) (table : Table)
    (exclude_cols cols metrics dates categoricals others : list string)
    (lg : log) :
  DOUBLE_bound self = true ->
  let ty := column_type self table in
  let is_metric c := is_DOUBLE (ty c) || is_Float (ty c) in
  let is_categorical c :=
    negb (is_metric c) && (is_VARCHAR (ty c) || is_String (ty c)) in
  let is_date c :=
    negb (is_metric c) && negb (is_categorical c)
    && (is_TIMESTAMP (ty c) || is_DateTime (ty c)) in
  let is_other c :=
    negb (is_metric c) && negb (is_categorical c) && negb (is_date c) in
  let visited := List.filter (fun c => negb (mem c exclude_cols)) cols in
  column_lists_loop self table exclude_cols cols
    (metrics, dates, categoricals, others) lg
  = (Returns ((metrics ++ List.filter is_metric visited)%list,
              (dates ++ List.filter is_date visited)%list,
              (categoricals ++ List.filter is_categorical visited)%list,
              (others ++ List.filter is_other visited)%list),
     (lg ++ map (fun c => ("Found column " ++ c ++ " of unknown data type "
                           ++ class_name (ty c))%string)
              (List.filter is_other visited))%list).
Proof.
  intros Hbound ty is_metric is_categorical is_date is_other.
  revert metrics dates categoricals others lg.
  induction cols as [| c r IH]; intros metrics dates categoricals others lg.
  - cbn. now rewrite !app_nil_r.
  - cbn [column_lists_loop List.filter].
    destruct (mem c exclude_cols) eqn:Ex; cbn [negb].
    + apply IH.
    + unfold ebind, column_lists_step. rewrite Hbound. cbn [negb].
      fold ty. cbn [List.filter].
      unfold is_other, is_date, is_categorical, is_metric.
      destruct (is_DOUBLE (ty c) || is_Float (ty c)) eqn:E1; cbn [negb andb].
      { unfold eret at 1. cbv zeta in IH. rewrite IH.
        now rewrite <- app_assoc. }
      destruct (is_VARCHAR (ty c) || is_String (ty c)) eqn:E2; cbn [negb andb].
      { unfold eret at 1. cbv zeta in IH. rewrite IH.
        now rewrite <- app_assoc. }
      destruct (is_TIMESTAMP (ty c) || is_DateTime (ty c)) eqn:E3;
        cbn [negb andb].
      { unfold eret at 1. cbv zeta in IH. rewrite IH.
        now rewrite <- app_assoc. }
      unfold ebind, emit, eret at 1. cbv zeta in IH. rewrite IH.
      cbn [map]. now rewrite <- !app_assoc.
Qed.

(** The number of occurrences of a value in a filtered list. *)
Lemma count_occ_filter (p : string -> bool) (l : list string) (c : string) :
  count_occ string_dec (List.filter p l) c
  = if p c then count_occ string_dec l c else 0%nat.
Proof.
  induction l as [| x r IH]; cbn [List.filter count_occ].
  - now destruct (p c).
  - destruct (string_dec x c) as [-> | Hne].
    + destruct (p c) eqn:E; cbn [count_occ].
      * destruct (string_dec c c); [| contradiction]. now rewrite IH.
      * exact IH.
    + destruct (p x); cbn [count_occ].
      * destruct (string_dec x c); [contradiction |]. exact IH.
      * exact IH.
Qed.

(** X22. When [DOUBLE] is bound and the table exists,
    [get_column_lists_by_type] returns four lists that are filters of the
    table's columns outside [exclude_cols], each in the order of the table:
    the float columns, then among the others the string columns, then among
    the rest the timestamp columns, and what is left. It logs one warning
    per column of the last list, in order, naming the column and the class
    of its type, and nothing else. *)
Theorem column_lists_by_type (self : TypedDatabase) (name : string)
    (schema : option string) (exclude_cols : option (list string))
    (table : Table) (lg : log) :
  DOUBLE_bound self = true ->
  reflect (database self) name schema = Some table ->
  let ty := column_type self table in
  let is_metric c := is_DOUBLE (ty c) || is_Float (ty c) in
  let is_categorical c :=
    negb (is_metric c) && (is_VARCHAR (ty c) || is_String (ty c)) in
  let is_date c :=
    negb (is_metric c) && negb (is_categorical c)
    && (is_TIMESTAMP (ty c) || is_DateTime (ty c)) in
  let is_other c :=
    negb (is_metric c) && negb (is_categorical c) && negb (is_date c) in
  let visited :=
    List.filter (fun c => negb (mem c match exclude_cols with
                                 | None => []
                                 | Some l => l
                                 end)) (tbl_c table) in
  get_column_lists_by_type self name schema exclude_cols lg
  = (Returns (List.filter is_metric visited, List.filter is_date visited,
              List.filter is_categorical visited, List.filter is_other visited),
     (lg ++ map (fun c => ("Found column " ++ c ++ " of unknown data type "
                           ++ class_name (ty c))%string)
              (List.filter is_other visited))%list).
Proof.
  intros Hbound Hreflect. cbv zeta.
  unfold get_column_lists_by_type, ebind, of_planner, get_table.
  rewrite Hreflect. cbn [ret].
  exact (column_lists_loop_filters self table _ (tbl_c table) [] [] [] [] lg
           Hbound).
Qed.

(** X23. When [DOUBLE] is bound and the table exists, the four lists of
    [get_column_lists_by_type] split the columns that are not excluded:
    taken together they hold every such column as often as the table does,
    so no column is in two lists, and they hold no excluded column. The log
    grows by as many warnings as the last list has columns. *)
Theorem column_lists_partition (self : TypedDatabase) (name : string)
    (schema : option string) (exclude_cols : option (list string))
    (table : Table) (lg : log) :
  DOUBLE_bound self = true ->
  reflect (database self) name schema = Some table ->
  exists metrics dates categoricals others lg',
    get_column_lists_by_type self name schema exclude_cols lg
    = (Returns (metrics, dates, categoricals, others), lg')
    /\ (forall c,
          count_occ string_dec
            (metrics ++ dates ++ categoricals ++ others)%list c
          = if mem c match exclude_cols with None => [] | Some l => l end
            then 0%nat
            else count_occ string_dec (tbl_c table) c)
    /\ length lg' = (length lg + length others)%nat.
Proof.
  intros Hbound Hreflect.
  unfold get_column_lists_by_type, ebind, of_planner, get_table.
  rewrite Hreflect. cbn [ret].
  rewrite (column_lists_loop_filters self table _ (tbl_c table) [] [] [] [] lg
             Hbound).
  cbn [app]. do 5 eexists. split; [reflexivity |]. split.
  - intros c. rewrite !count_occ_app, !count_occ_filter.
    destruct (mem c _); cbn [negb].
    + now repeat match goal with |- context [if ?b then _ else _] =>
                   destruct b end.
    + destruct (is_DOUBLE _ || is_Float _); cbn [negb andb];
        [lia |].
      destruct (is_VARCHAR _ || is_String _); cbn [negb andb]; [lia |].
      destruct (is_TIMESTAMP _ || is_DateTime _); cbn [negb andb]; lia.
  - now rewrite length_app, length_map.
Qed.

(** X24. When the import of [DOUBLE] failed and the table exists,
    [get_column_lists_by_type] raises [NameError] at the first column that
    is not excluded, and logs nothing; it returns, with four empty lists,
    only if every column of the table is excluded. *)
Theorem column_lists_without_DOUBLE (self : TypedDatabase) (name : string)
    (schema : option string) (exclude_cols : option (list string))
    (table : Table) (lg : log) :
  DOUBLE_bound self = false ->
  reflect (database self) name schema = Some table ->
  get_column_lists_by_type self name schema exclude_cols lg
  = if forallb (fun c => mem c match exclude_cols with
                               | None => []
                               | Some l => l
                               end) (tbl_c table)
    then (Returns ([], [], [], []), lg)
    else (Raises "NameError" "name 'DOUBLE' is not defined", lg).
Proof.
  intros Hbound Hreflect.
  unfold get_column_lists_by_type, ebind, of_planner, get_table.
  rewrite Hreflect. cbn [ret].
  generalize (match exclude_cols with None => [] | Some l => l end).
  intros excl. induction (tbl_c table) as [| c r IH].
  - reflexivity.
  - cbn [column_lists_loop forallb].
    destruct (mem c excl); cbn [andb].
    + exact IH.
    + unfold ebind, column_lists_step. now rewrite Hbound.
Qed.

(* ================================================================== *)
(** * The further properties at work on the samples *)

#[local] Transparent subquery.
(* ================================================================== *)

(** A two-hour bucket at 12:37:05 of day 19358: hour 12. *)
Lemma hour_bucket_floors_witness :
  reflect sample_db "iot" None = Some iot
  /\ mem "evt_timestamp" (tbl_c iot) = true
  /\ PyStr.int "5" = Some 5
  /\ 1 <= 5
  /\ "5" ++ "H" <> "evt_timestamp"
  /\ exists e b,
       query_agg_time_grain sample_db iot "iot" None (Some "evt_timestamp")
         (Some "5H") [] = (Ok ([e], None), [])
       /\ eval (sample_row 1672576625 VNull) e = Some (VTimestamp b)
       /\ ts_hour b = 10 /\ ts_minute b = 0 /\ ts_date b = 19358.
Proof.
  assert (Hne : "5" ++ "H" <> "evt_timestamp") by discriminate.
  repeat (split; [first [reflexivity | lia | assumption] |]).
  destruct (hour_bucket_floors sample_db "iot" None iot "evt_timestamp" "5"
              5 (sample_row 1672576625 VNull) 1672576625 []
              eq_refl eq_refl eq_refl ltac:(lia) Hne eq_refl)
    as (e & b & Hrun & _ & Hev & Hh & _ & _ & Hd & Hm & _).
  exists e, b. repeat split; assumption.
Defined.

(** A grain that is no bucket [query_agg] knows: it is the frequency. *)
Lemma time_grain_outcomes_witness :
  reflect sample_db "iot" None = Some iot
  /\ mem "evt_timestamp" (tbl_c iot) = true
  /\ ((exists e,
         query_agg_time_grain sample_db iot "iot" None (Some "evt_timestamp")
           (Some "W") [] = (Ok ([e], None), [])
         /\ expr_key e = Some "evt_timestamp")
      \/ query_agg_time_grain sample_db iot "iot" None (Some "evt_timestamp")
           (Some "W") [] = (Ok ([], Some "W"), [])
      \/ (exists msg,
            query_agg_time_grain sample_db iot "iot" None
              (Some "evt_timestamp") (Some "W") []
            = (Raise (ValueError msg), [])
            /\ (PyStr.endswith "W" "min" = true
                /\ PyStr.int (PyStr.slice_to_minus 3 "W") = None
                \/ PyStr.endswith "W" "H" = true
                   /\ PyStr.int (PyStr.slice_to_minus 1 "W") = None))).
Proof.
  split; [reflexivity |]. split; [reflexivity |].
  exact (time_grain_outcomes sample_db iot "iot" None "evt_timestamp" "W" []
           eq_refl eq_refl).
Defined.

(** Two columns of [iot] joined to its dimension, from a start date on and
    for one device. *)
Lemma query_projection_witness :
  exists q,
    query sample_db "iot" None (Some (Names ["temp"; "region"]))
      (Some "evt_timestamp") (Some 100) None (Some ["d1"])
      (Some "iot_dimension") [] = (Ok (q, iot), [])
    /\ q_group_by q = []
    /\ q_join q = [(iot_dimension, Eq (Column "iot_dimension" "deviceid")
                                      (Column "iot" "deviceid"))]
    /\ q_entities q = [Entity_expr (Column "iot" "temp");
                       Entity_expr (Column "iot_dimension" "region")].
Proof.
  assert (Hrun : exists q,
            query sample_db "iot" None (Some (Names ["temp"; "region"]))
              (Some "evt_timestamp") (Some 100) None (Some ["d1"])
              (Some "iot_dimension") [] = (Ok (q, iot), []))
    by (eexists; reflexivity).
  destruct Hrun as [q Hrun]. exists q. split; [exact Hrun |].
  destruct (query_projection sample_db "iot" None
              (Some (Names ["temp"; "region"])) (Some "evt_timestamp")
              (Some 100) None (Some ["d1"]) (Some "iot_dimension") q iot [] []
              Hrun)
    as (dim & _ & (d & -> & Hd & Hj) & Hg & cols & Hcols & He).
  injection Hd as <-. split; [exact Hg |]. split; [exact Hj |].
  rewrite He. cbn in Hcols.
  destruct cols as [| c1 [| c2 [| c3 cols]]]; try discriminate Hcols.
  now injection Hcols as <- <-.
Defined.

Lemma query_filters_witness :
  exists q,
    query sample_db "iot" None (Some (Names ["temp"; "region"]))
      (Some "evt_timestamp") (Some 100) None (Some ["d1"])
      (Some "iot_dimension") [] = (Ok (q, iot), [])
    /\ q_filter q = [Ge (Column "iot" "evt_timestamp") 100;
                     In_ (Column "iot" "deviceid") ["d1"]].
Proof.
  assert (Hrun : exists q,
            query sample_db "iot" None (Some (Names ["temp"; "region"]))
              (Some "evt_timestamp") (Some 100) None (Some ["d1"])
              (Some "iot_dimension") [] = (Ok (q, iot), []))
    by (eexists; reflexivity).
  destruct Hrun as [q Hrun]. exists q. split; [exact Hrun |].
  exact (proj1 (query_filters sample_db "iot" None
                  (Some (Names ["temp"; "region"])) (Some "evt_timestamp")
                  (Some 100) None (Some ["d1"]) (Some "iot_dimension") q iot
                  [] [] Hrun)).
Defined.

Lemma query_date_bound_without_timestamp_witness :
  (exists r,
     query sample_db "iot" None None None None None None None [] = (Ok r, []))
  /\ (Some 100 <> None \/ @None datetime <> None)
  /\ query sample_db "iot" None None None (Some 100) None (Some ["d1"]) None []
     = (Raise (ValueError "No timestamp_col provided to query. Must provide a timestamp column if you have a date filter"),
        []).
Proof.
  assert (Hrun : exists r,
            query sample_db "iot" None None None None None None None []
            = (Ok r, []))
    by (eexists; reflexivity).
  assert (Hb : Some 100 <> None \/ @None datetime <> None)
    by (left; discriminate).
  split; [exact Hrun |]. split; [exact Hb |].
  destruct Hrun as [r Hrun].
  exact (query_date_bound_without_timestamp sample_db "iot" None None
           (Some 100) None (Some ["d1"]) None r [] [] Hrun Hb).
Defined.

(** [colour] is on no table. *)
Lemma query_unknown_column_witness :
  query sample_db "iot" None (Some (Names ["temp"; "colour"; "site"])) None
    None None None None []
  = (Raise (AttributeError "'NoneType' object has no attribute 'c'"), [])
  /\ query sample_db "iot" None (Some (Names ["temp"; "colour"; "site"])) None
       None None None (Some "iot_dimension") []
     = (Raise (KeyError "Unable to find column colour in table or dimension for entity type iot"),
        []).
Proof.
  split.
  - apply (query_unknown_column sample_db "iot" None iot None ["temp"]
             ["site"] "colour" None None None None None [] eq_refl eq_refl).
    + intros x [<- | []]. discriminate.
    + reflexivity.
  - apply (query_unknown_column sample_db "iot" None iot (Some iot_dimension)
             ["temp"] ["site"] "colour" None None None None
             (Some "iot_dimension") [] eq_refl eq_refl).
    + intros x [<- | []]. discriminate.
    + reflexivity.
Defined.

(** The mean of [temp] per quarter hour and site does not depend on the
    date range. *)
Lemma query_agg_pushdown_ignores_range_witness :
  exists q,
    query_agg sample_db "iot" None [("temp", Agg_str "mean")] None
      (Some (Name "site")) (Some "evt_timestamp") (Some "15min") None
      (Some 100) (Some 200) (Some ["d1"]) []
    = (Ok (q, iot, None, None, [("temp", Agg_str "mean")]), [])
    /\ query_agg sample_db "iot" None [("temp", Agg_str "mean")] None
         (Some (Name "site")) (Some "evt_timestamp") (Some "15min") None
         None None None []
       = (Ok (q, iot, None, None, [("temp", Agg_str "mean")]), []).
Proof.
  assert (Hrun : exists q,
            query_agg sample_db "iot" None [("temp", Agg_str "mean")] None
              (Some (Name "site")) (Some "evt_timestamp") (Some "15min") None
              (Some 100) (Some 200) (Some ["d1"]) []
            = (Ok (q, iot, None, None, [("temp", Agg_str "mean")]), []))
    by (eexists; reflexivity).
  destruct Hrun as [q Hrun]. exists q. split; [exact Hrun |].
  exact (query_agg_pushdown_ignores_range sample_db "iot" None
           [("temp", Agg_str "mean")] None (Some (Name "site"))
           (Some "evt_timestamp") (Some "15min") None (Some 100) (Some 200)
           None None (Some ["d1"]) None q iot None
           [("temp", Agg_str "mean")] [] [] Hrun).
Defined.

(** A weekly grain is left to pandas. *)
Lemma query_agg_fallback_plan_witness :
  exists q,
    query_agg sample_db "iot" None [("temp", Agg_str "mean")] None
      (Some (Name "site")) (Some "evt_timestamp") (Some "W") None
      (Some 100) None (Some ["d1"]) []
    = (Ok (q, iot, None, Some "W", [("temp", Agg_str "mean")]), [])
    /\ q_group_by q = []
    /\ q_entities q = [Entity_table iot]
    /\ q_filter q = [Ge (Column "iot" "evt_timestamp") 100;
                     In_ (Column "iot" "deviceid") ["d1"];
                     or_ [IsNot_None (Column "iot" "temp")]].
Proof.
  assert (Hrun : exists q,
            query_agg sample_db "iot" None [("temp", Agg_str "mean")] None
              (Some (Name "site")) (Some "evt_timestamp") (Some "W") None
              (Some 100) None (Some ["d1"]) []
            = (Ok (q, iot, None, Some "W", [("temp", Agg_str "mean")]), []))
    by (eexists; reflexivity).
  destruct Hrun as [q Hrun]. exists q. split; [exact Hrun |].
  destruct (query_agg_fallback_plan sample_db "iot" None
              [("temp", Agg_str "mean")] None (Some (Name "site"))
              (Some "evt_timestamp") (Some "W") None (Some 100) None
              (Some ["d1"]) q iot None "W" [("temp", Agg_str "mean")] [] []
              Hrun)
    as (_ & _ & Hg & He & ts & cols & Hts & Hcols & Hf).
  injection Hts as <-. split; [exact Hg |]. split; [exact He |].
  destruct cols as [| c [| c' cols]]; try discriminate Hcols.
  cbv in Hcols. injection Hcols as <-. exact Hf.
Defined.

Lemma query_agg_pushdown_plan_witness :
  exists q lg',
    query_agg sample_db "iot" None [("temp", Agg_list ["mean"; "max"])]
      (Some [("temp", ["temp_mean"; "temp_max"])])
      (Some (Name "site")) (Some "evt_timestamp") (Some "15min") None
      (Some 100) (Some 200) (Some ["d1"]) []
    = (Ok (q, iot, None, None, [("temp", Agg_list ["mean"; "max"])]), lg')
    /\ exists args bucket cols,
         q_entities q = map Entity_expr (args ++ bucket ++ cols)
         /\ q_group_by q = (bucket ++ cols)%list
         /\ length args = 2%nat
         /\ length bucket = 1%nat
         /\ cols = [Column "iot" "site"]
         /\ q_join q = [].
Proof.
  assert (Hrun : exists q lg',
            query_agg sample_db "iot" None
              [("temp", Agg_list ["mean"; "max"])]
              (Some [("temp", ["temp_mean"; "temp_max"])])
              (Some (Name "site")) (Some "evt_timestamp") (Some "15min") None
              (Some 100) (Some 200) (Some ["d1"]) []
            = (Ok (q, iot, None, None, [("temp", Agg_list ["mean"; "max"])]),
               lg'))
    by (do 2 eexists; reflexivity).
  destruct Hrun as (q & lg' & Hrun). exists q, lg'. split; [exact Hrun |].
  destruct (query_agg_pushdown_plan sample_db "iot" None
              [("temp", Agg_list ["mean"; "max"])]
              (Some [("temp", ["temp_mean"; "temp_max"])]) (Some (Name "site"))
              (Some "evt_timestamp") (Some "15min") None (Some 100) (Some 200)
              (Some ["d1"]) q iot None [("temp", Agg_list ["mean"; "max"])]
              [] lg' Hrun)
    as (args & bucket & cols & He & Hg & Hlen & _ & Hb & Hcols & Hj).
  exists args, bucket, cols.
  split; [exact He |]. split; [exact Hg |]. split; [exact Hlen |].
  split; [| split; [| exact Hj]].
  - destruct Hb as [[Hn _] | (ts & e & _ & _ & -> & _)];
      [discriminate Hn | reflexivity].
  - inversion Hcols as [| g e gs es Hge Hrest]; subst.
    inversion Hrest; subst. cbv in Hge. now injection Hge as <-.
Defined.

Lemma query_agg_grain_without_timestamp_witness :
  (exists r,
     query_agg sample_db "iot" None [("temp", Agg_str "mean")] None
       (Some (Name "site")) None None None None None None [] = (Ok r, []))
  /\ query_agg sample_db "iot" None [("temp", Agg_str "mean")] None
       (Some (Name "site")) None (Some "15min") None (Some 100) None None []
     = (Raise (ValueError "You must supply a timestamp column when doing a time-based aggregate"),
        []).
Proof.
  assert (Hrun : exists r,
            query_agg sample_db "iot" None [("temp", Agg_str "mean")] None
              (Some (Name "site")) None None None None None None []
            = (Ok r, []))
    by (eexists; reflexivity).
  split; [exact Hrun |]. destruct Hrun as [r Hrun].
  exact (query_agg_grain_without_timestamp sample_db "iot" None
           [("temp", Agg_str "mean")] None (Some (Name "site")) "15min" None
           None None (Some 100) None None None r [] [] Hrun).
Defined.

(** Two aggregates of [temp] and one alias: one warning. *)
Lemma query_agg_warnings_witness :
  exists r lg',
    query_agg sample_db "iot" None [("temp", Agg_list ["mean"; "max"])]
      (Some [("temp", ["temp_mean"])]) (Some (Name "site"))
      (Some "evt_timestamp") (Some "15min") None None None None []
    = (Ok r, lg')
    /\ exists ws, lg' = ([] ++ ws)%list /\ length ws = 1%nat.
Proof.
  assert (Hrun : exists r lg',
            query_agg sample_db "iot" None
              [("temp", Agg_list ["mean"; "max"])]
              (Some [("temp", ["temp_mean"])]) (Some (Name "site"))
              (Some "evt_timestamp") (Some "15min") None None None None []
            = (Ok r, lg'))
    by (do 2 eexists; reflexivity).
  destruct Hrun as (r & lg' & Hrun). exists r, lg'. split; [exact Hrun |].
  destruct (query_agg_warnings sample_db "iot" None
              [("temp", Agg_list ["mean"; "max"])]
              (Some [("temp", ["temp_mean"])]) (Some (Name "site"))
              (Some "evt_timestamp") (Some "15min") None None None None r []
              lg' Hrun)
    as (ws & Hlg & Hlen & _).
  exists ws. split; [exact Hlg | exact Hlen].
Defined.

(** [colour] is no column of the sample tables: asked for its maximum,
    [query_agg] raises [KeyError]; asked for no aggregate at all,
    [ValueError]. *)
Lemma query_agg_missing_column_witness :
  (exists r,
     query_agg sample_db "iot" None [("temp", Agg_str "mean")] None None None
       None (Some "iot_dimension") None None None []
     = (Ok r, []))
  /\ table_or_dimension iot (Some iot_dimension) "colour" = None
  /\ query_agg sample_db "iot" None
       [("temp", Agg_str "mean"); ("colour", Agg_str "max");
        ("energy", Agg_str "sum")] None (Some (Name "site"))
       (Some "evt_timestamp") (Some "day") (Some "iot_dimension") None None
       None []
     = (Raise (KeyError "Aggregate column colour not present in table or on dimension"),
        [])
  /\ query_agg sample_db "iot" None
       [("temp", Agg_str "mean"); ("colour", Agg_list []);
        ("energy", Agg_str "sum")] None (Some (Name "site"))
       (Some "evt_timestamp") (Some "day") (Some "iot_dimension") None None
       None []
     = (Raise (ValueError "Column colour not found on time series or dimension table."),
        []).
Proof.
  assert (Hrun : exists q,
            query_agg sample_db "iot" None [("temp", Agg_str "mean")] None
              None None None (Some "iot_dimension") None None None []
            = (Ok (q, iot, Some iot_dimension, None,
                   [("temp", Agg_str "mean")]), []))
    by (eexists; reflexivity).
  destruct Hrun as [q Hrun].
  split; [eexists; exact Hrun |]. split; [reflexivity |]. split.
  - exact (proj1 (query_agg_missing_column sample_db "iot" None
                    [("temp", Agg_str "mean")] [("energy", Agg_str "sum")]
                    "colour" (Agg_str "max") None (Some (Name "site"))
                    (Some "evt_timestamp") (Some "day") (Some "iot_dimension")
                    None None None q iot (Some iot_dimension) None
                    [("temp", Agg_str "mean")] [] [] Hrun eq_refl)
             "max" f_max eq_refl eq_refl).
  - exact (proj2 (query_agg_missing_column sample_db "iot" None
                    [("temp", Agg_str "mean")] [("energy", Agg_str "sum")]
                    "colour" (Agg_list []) None (Some (Name "site"))
                    (Some "evt_timestamp") (Some "day") (Some "iot_dimension")
                    None None None q iot (Some iot_dimension) None
                    [("temp", Agg_str "mean")] [] [] Hrun eq_refl)
             eq_refl).
Defined.

(** Energy totals per site, kept where a last timestamp per site exists;
    the total keeps its column also where the query gave it no name. *)
Lemma subquery_join_condition_witness :
  (exists sel,
     subquery_join sample_db left_rollup right_rollup [Key "site"] [] []
     = (Ok sel, [])
     /\ sel_onclause sel = and_ [Eq (Column "a" "site") (Column "b" "site")]
     /\ sel_projection sel = [Column "a" "site"; Column "a" "total_energy"])
  /\ exists sel,
       subquery_join sample_db unnamed_rollup right_rollup [Key "site"] [] []
       = (Ok sel, [])
       /\ sel_projection sel = [Column "a" "site"; Column "a" "sum_1"].
Proof.
  assert (Hrun : exists sel,
            subquery_join sample_db left_rollup right_rollup [Key "site"] [] []
            = (Ok sel, []))
    by (eexists; reflexivity).
  assert (Hrun' : exists sel,
            subquery_join sample_db unnamed_rollup right_rollup [Key "site"]
              [] []
            = (Ok sel, []))
    by (eexists; reflexivity).
  split.
  - destruct Hrun as [sel Hrun]. exists sel. split; [exact Hrun |].
    destruct (subquery_join_condition sample_db left_rollup right_rollup
                [Key "site"] [] sel [] [] Hrun)
      as (_ & _ & Hon & Hp & _).
    split; [exact Hon | exact (Hp eq_refl)].
  - destruct Hrun' as [sel Hrun']. exists sel. split; [exact Hrun' |].
    destruct (subquery_join_condition sample_db unnamed_rollup right_rollup
                [Key "site"] [] sel [] [] Hrun')
      as (_ & _ & _ & Hp & _).
    exact (Hp eq_refl).
Defined.

Lemma query_time_agg_returns_only_if_witness :
  exists sel,
    query_time_agg sample_db "iot" None "energy" (Agg_str "sum") "last"
      (Some (Names ["site"])) "evt_timestamp" (Some "day") None None None
      None [] = (Ok (sel, iot), [])
    /\ mem "evt_timestamp" (tbl_c iot) = true
    /\ exists gb,
         Some (Names ["site"]) = Some gb
         /\ forall g, In g (as_list gb) -> mem g (tbl_c iot) = true.
Proof.
  assert (Hrun : exists sel,
            query_time_agg sample_db "iot" None "energy" (Agg_str "sum")
              "last" (Some (Names ["site"])) "evt_timestamp" (Some "day")
              None None None None [] = (Ok (sel, iot), []))
    by (eexists; reflexivity).
  destruct Hrun as [sel Hrun]. exists sel. split; [exact Hrun |].
  exact (proj2 (proj2 (query_time_agg_returns_only_if sample_db "iot" None
                         "energy" (Agg_str "sum") "last"
                         (Some (Names ["site"])) "evt_timestamp" (Some "day")
                         None None None None sel iot [] [] Hrun))).
Defined.

(** The first timestamp per hour next to the energy sum. *)
Lemma query_time_agg_plan_witness :
  exists sel,
    query_time_agg sample_db "iot" None "energy" (Agg_str "sum") "first"
      (Some (Names ["site"])) "evt_timestamp" (Some "1H") None None None
      None [] = (Ok (sel, iot), [])
    /\ sel_onclause sel
       = and_ [Eq (Column "a" "evt_timestamp")
                  (Column "b" "first_evt_timestamp");
               Eq (Column "a" "site") (Column "b" "site")]
    /\ exists grp,
         q_group_by (sq_element (sel_left sel))
         = Label (Column "iot" "evt_timestamp") "evt_timestamp" :: grp.
Proof.
  assert (Hrun : exists sel,
            query_time_agg sample_db "iot" None "energy" (Agg_str "sum")
              "first" (Some (Names ["site"])) "evt_timestamp" (Some "1H")
              None None None None [] = (Ok (sel, iot), []))
    by (eexists; reflexivity).
  destruct Hrun as [sel Hrun]. exists sel. split; [exact Hrun |].
  destruct (query_time_agg_plan sample_db "iot" None "energy" (Agg_str "sum")
              "first" (Some (Names ["site"])) "evt_timestamp" (Some "1H")
              None None None None sel iot [] [] Hrun)
    as (gb & grp & Hgb & Hon & _ & Hg & _).
  injection Hgb as <-. split; [exact Hon |]. exists grp. exact Hg.
Defined.

Lemma query_column_aggregate_plan_witness :
  query_column_aggregate sample_db "iot" None "temp" (Agg_str "max")
    (Some 100) None (Some ["d1"]) []
  = query_column_aggregate sample_db "iot" None "temp" (Agg_str "max") None
      None None []
  /\ query_column_aggregate sample_db "iot" None "temp" (Agg_str "max")
       (Some 100) None (Some ["d1"]) []
     = (Ok (mkQuery
              [Entity_expr (Label (Func1 f_max (Column "iot" "temp")) "temp")]
              [] [] [or_ [IsNot_None (Column "iot" "temp")]],
            iot), []).
Proof.
  split.
  - exact (proj1 (query_column_aggregate_plan sample_db "iot" None "temp"
                    (Agg_str "max") (Some 100) None None None (Some ["d1"])
                    None [])).
  - exact (proj2 (query_column_aggregate_plan sample_db "iot" None "temp"
                    (Agg_str "max") (Some 100) None None None (Some ["d1"])
                    None []) iot "max" f_max eq_refl eq_refl eq_refl eq_refl).
Defined.

(** The columns of [iot] but [site]: [pressure] is an integer column, which
    the method does not know. *)
Lemma column_lists_by_type_witness :
  DOUBLE_bound sample_types = true
  /\ reflect (database sample_types) "iot" None = Some iot
  /\ get_column_lists_by_type sample_types "iot" None (Some ["site"]) []
     = (Returns (["energy"; "temp"], ["evt_timestamp"], ["deviceid"],
                 ["pressure"]),
        ["Found column pressure of unknown data type INTEGER"]).
Proof.
  split; [reflexivity |]. split; [reflexivity |].
  exact (column_lists_by_type sample_types "iot" None (Some ["site"]) iot []
           eq_refl eq_refl).
Defined.

Lemma column_lists_partition_witness :
  DOUBLE_bound sample_types = true
  /\ reflect (database sample_types) "iot" None = Some iot
  /\ exists metrics dates categoricals others lg',
       get_column_lists_by_type sample_types "iot" None (Some ["site"]) []
       = (Returns (metrics, dates, categoricals, others), lg')
       /\ (forall c,
             count_occ string_dec
               (metrics ++ dates ++ categoricals ++ others)%list c
             = if mem c ["site"] then 0%nat
               else count_occ string_dec (tbl_c iot) c)
       /\ length lg' = (0 + length others)%nat.
Proof.
  split; [reflexivity |]. split; [reflexivity |].
  exact (column_lists_partition sample_types "iot" None (Some ["site"]) iot []
           eq_refl eq_refl).
Defined.

(** The same database where the import of [DOUBLE] failed. *)
Lemma column_lists_without_DOUBLE_witness :
  get_column_lists_by_type
    (mkTypedDatabase sample_db (column_type sample_types) false) "iot" None
    (Some ["site"]) []
  = (Raises "NameError" "name 'DOUBLE' is not defined", [])
  /\ get_column_lists_by_type
       (mkTypedDatabase sample_db (column_type sample_types) false) "iot_dimension"
       None (Some ["deviceid"; "region"]) []
     = (Returns ([], [], [], []), []).
Proof.
  split.
  - exact (column_lists_without_DOUBLE
             (mkTypedDatabase sample_db (column_type sample_types) false)
             "iot" None (Some ["site"]) iot [] eq_refl eq_refl).
  - exact (column_lists_without_DOUBLE
             (mkTypedDatabase sample_db (column_type sample_types) false)
             "iot_dimension" None (Some ["deviceid"; "region"]) iot_dimension
             [] eq_refl eq_refl).
Defined.

(** A POST of constants that the sample server fails is sent again as a
    PUT, whose body is returned. *)
Lemma http_request_raise_error_witness :
  exists calls',
    http_request 2 sample_client "constants" None "POST" JNone EmptyString
      false [] = (Returns "ok", calls')
    /\ ((calls' = [] /\ exists msg, Returns "ok" = Raises "ValueError" msg)
        \/ exists made c,
             calls' = (made ++ [c])%list
             /\ (exists pre, made = ([] ++ pre)%list)
             /\ match server sample_client made c with
                | Fails class msg => Returns "ok" = Raises class msg
                | Reply r =>
                    match decoded r with
                    | None =>
                        exists msg,
                          Returns "ok" = Raises "UnicodeDecodeError" msg
                    | Some response => Returns "ok" = Returns response
                    end
                end).
Proof.
  assert (Hrun : exists calls',
            http_request 2 sample_client "constants" None "POST" JNone
              EmptyString false [] = (Returns "ok", calls'))
    by (eexists; cbv; reflexivity).
  destruct Hrun as [calls' Hrun]. exists calls'. split; [exact Hrun |].
  exact (http_request_raise_error 0 sample_client "constants" None "POST"
           JNone EmptyString false [] calls' (Returns "ok") Hrun).
Defined.

(** Two functions unregistered at the sample server; at a server whose
    second answer is not UTF-8; and without a tenant. *)
Lemma unregister_functions_calls_witness :
  (forall made c,
     exists r response,
       server sample_client made c = Reply r /\ decoded r = Some response)
  /\ unregister_functions 1 sample_client (Names ["f1"; "f2"]) []
     = (Returns tt,
        [mkCall "DELETE"
           "http://api.example.com/api/catalog/v1/acme/function/f1"
           (JDict [("name", JStr "f1")]) (Some "key") (Some "token");
         mkCall "DELETE"
           "http://api.example.com/api/catalog/v1/acme/function/f2"
           (JDict [("name", JStr "f2")]) (Some "key") (Some "token")])
  /\ (exists o sent,
        unregister_functions 1
          (mkApiClient (Some "acme") (Some "api.example.com") (Some "key")
             (Some "token") garbling_server) (Names ["f1"; "f2"; "f3"]) []
        = (o, sent)
        /\ length sent = 2%nat
        /\ exists msg, o = Raises "UnicodeDecodeError" msg)
  /\ exists msg,
       unregister_functions 1
         (mkApiClient None (Some "api.example.com") (Some "key")
            (Some "token") sample_server) (Name "f1") []
       = (Raises "ValueError" msg, []).
Proof.
  assert (Hserver : forall made c,
            exists r response,
              server sample_client made c = Reply r
              /\ decoded r = Some response).
  { intros made c. cbn [server sample_client]. unfold sample_server.
    destruct (call_method c =? "POST"); eexists _, _; split; reflexivity. }
  split; [exact Hserver |]. split; [| split].
  - exact (proj1 (proj1 (unregister_functions_calls 0 sample_client
                           (Names ["f1"; "f2"]) []) "acme" eq_refl)
             Hserver).
  - destruct (proj2 (proj1 (unregister_functions_calls 0
                              (mkApiClient (Some "acme")
                                 (Some "api.example.com") (Some "key")
                                 (Some "token") garbling_server)
                              (Names ["f1"; "f2"; "f3"]) []) "acme" eq_refl))
      as (o & sent & Hrun & Hcase).
    exists o, sent. split; [exact Hrun |].
    cbv in Hrun. injection Hrun as <- <-. split; [reflexivity | eauto].
  - apply (proj2 (unregister_functions_calls 0
                    (mkApiClient None (Some "api.example.com") (Some "key")
                       (Some "token") sample_server) (Name "f1") [])).
    + reflexivity.
    + discriminate.
Defined.

(** No constant; two constants at the sample server; one at a server that
    is down. *)
Lemma unregister_constants_calls_witness :
  (exists msg,
     unregister_constants 1 sample_client (Names []) []
     = (Raises "UnboundLocalError" msg, []))
  /\ (exists o,
        unregister_constants 1 sample_client (Names ["c1"; "c2"]) []
        = (o,
           [mkCall "DELETE" "http://api.example.com/api/constants/v1/acme"
              (JList [JDict [("name", JStr "c1"); ("entityType", JNone)];
                      JDict [("name", JStr "c2"); ("entityType", JNone)]])
              (Some "key") (Some "token")])
        /\ o = Returns tt)
  /\ exists o sent,
       unregister_constants 1
         (mkApiClient (Some "acme") (Some "api.example.com") (Some "key")
            (Some "token") dead_server) (Name "c1") []
       = (o, sent)
       /\ length sent = 1%nat
       /\ o = Raises "MaxRetryError" "Max retries exceeded".
Proof.
  split; [| split].
  - exact (proj1 (unregister_constants_calls 1 sample_client (Names []) [])
             eq_refl).
  - apply (proj2 (unregister_constants_calls 0 sample_client
                    (Names ["c1"; "c2"]) []) "acme").
    + discriminate.
    + reflexivity.
  - destruct (proj2 (unregister_constants_calls 0
                       (mkApiClient (Some "acme") (Some "api.example.com")
                          (Some "key") (Some "token") dead_server)
                       (Name "c1") []) "acme") as (o & Hrun & Ho).
    + discriminate.
    + reflexivity.
    + eexists o, _. split; [exact Hrun |]. split; [reflexivity | exact Ho].
Defined.
